(** * Stori expense tracker: repository and aggregation layer

    A shallow embedding of the Go backend (packages/backend/internal):
    - [models]      Transaction, key generation, entity validation
    - [repository]  the DynamoDB repository (single-table design)
    - [services]    transaction and analytics services

    The DynamoDB client is external to the repository; it is modelled here
    by a finite map from primary keys to items together with the semantics
    of the four calls the code issues (PutItem, Query, DeleteItem,
    BatchWriteItem). *)

From Stdlib Require Import ZArith Floats String Ascii List.
From stdpp Require Import gmap strings list fin_maps sorting pretty numbers.

Local Open Scope string_scope.
Local Open Scope Z_scope.
Local Open Scope list_scope.

(** ** Go errors *)

(** [fmt.Errorf] without [%w] is [Errorf]; with a trailing [: %w] it is
    [Wrapf]. The one typed error the code inspects with [errors.As] is the
    store's [ConditionalCheckFailedException]. *)
Inductive error : Type :=
  | Errorf (msg : string)
  | Wrapf (msg : string) (cause : error)
  | ConditionalCheckFailedException
  | ServiceError (msg : string).

Inductive result (A : Type) : Type :=
  | Ok (a : A)
  | Err (e : error).
Arguments Ok {A} a.
Arguments Err {A} e.

(** [x ← r; k] is Go's [x, err := r; if err != nil { return err }; k]. *)
#[export] Instance result_ret : MRet result := fun A a => Ok a.
#[export] Instance result_bind : MBind result := fun A B k r =>
  match r with
  | Ok a => k a
  | Err e => Err e
  end.

Definition is_Ok {A} (r : result A) : bool :=
  match r with Ok _ => true | Err _ => false end.

(** [errors.As(err, &condErr)]: looks through the wrap chain. *)
Fixpoint errors_As_ConditionalCheckFailed (e : error) : bool :=
  match e with
  | ConditionalCheckFailedException => true
  | Wrapf _ c => errors_As_ConditionalCheckFailed c
  | _ => false
  end.

(** ** Machine integers *)

(** Go's [int] is 64 bits on the deployment targets, [int32] is 32 bits;
    both wrap around. *)
Definition wrap (w : Z) (z : Z) : Z := (z + 2 ^ (w - 1)) mod 2 ^ w - 2 ^ (w - 1).
Definition int (z : Z) : Z := wrap 64 z.
Definition int32 (z : Z) : Z := wrap 32 z.

(** ** Numbers

    Amounts are [float64]: IEEE binary64, kept as primitive floats. The
    code handles an amount only through the operations below, and is
    written over them. *)
Class Number (F : Type) := {
  f_zero : F;
  f_hundred : F;
  f_add : F -> F -> F;
  f_sub : F -> F -> F;
  f_opp : F -> F;
  f_mul : F -> F -> F;
  f_div : F -> F -> F;
  f_eqb : F -> F -> bool;
  f_ltb : F -> F -> bool;
}.

#[export] Instance float64 : Number float := {|
  f_zero := 0%float;
  f_hundred := 100%float;
  f_add := PrimFloat.add;
  f_sub := PrimFloat.sub;
  f_opp := PrimFloat.opp;
  f_mul := PrimFloat.mul;
  f_div := PrimFloat.div;
  f_eqb := PrimFloat.eqb;
  f_ltb := PrimFloat.ltb;
|}.

(** ** Time

    A [time.Time] is kept as its Unix second count, and its location is
    taken to be UTC throughout: Go formats a time in the zone the value
    carries, which is not followed here. The zero [time.Time] is
    January 1, year 1, 00:00:00 UTC. *)
Definition Time : Type := Z.

Definition zero_time : Time := -62135596800.
Definition IsZero (t : Time) : bool := t =? zero_time.
Definition Unix (t : Time) : Z := t.
(** [t.After(u)] *)
Definition After (t u : Time) : bool := u <? t.

(** Proleptic Gregorian year and month of a Unix second count. *)
Definition civil_year_month (t : Time) : Z * Z :=
  let z := t / 86400 + 719468 in
  let era := z / 146097 in
  let doe := z - era * 146097 in
  let yoe := (doe - doe / 1460 + doe / 36524 - doe / 146096) / 365 in
  let doy := doe - (365 * yoe + yoe / 4 - yoe / 100) in
  let mp := (5 * doy + 2) / 153 in
  let m := if mp <? 10 then mp + 3 else mp - 9 in
  let y := yoe + era * 400 in
  (if m <=? 2 then y + 1 else y, m).

Fixpoint pad_left (n : nat) (s : string) : string :=
  match n with
  | O => s
  | S n' => if (String.length s <? S n')%nat then "0" +:+ pad_left n' s
            else pad_left n' s
  end.

(** [t.Format("2006-01")] for a UTC time. *)
Definition Format_2006_01 (t : Time) : string :=
  let '(y, m) := civil_year_month t in
  pad_left 4 (pretty y) +:+ "-" +:+ pad_left 2 (pretty m).

(** ** strings *)

(** [strings.ToUpper] on ASCII letters; other bytes are left as they
    are (Go also maps the letters beyond ASCII). *)
Definition upper_ascii (c : ascii) : ascii :=
  let n := nat_of_ascii c in
  if ((97 <=? n) && (n <=? 122))%nat then ascii_of_nat (n - 32) else c.

Fixpoint ToUpper (s : string) : string :=
  match s with
  | EmptyString => EmptyString
  | String c r => String (upper_ascii c) (ToUpper r)
  end.

(** [strings.HasPrefix], and DynamoDB's [begins_with]. *)
Definition begins_with (s pre : string) : bool := String.prefix pre s.

(** ** models *)

Section Models.
Context {F : Type} `{Number F}.

(** [models.Transaction]. The field [Type] is spelled [Type_]. *)
Record Transaction : Type := mkTransaction {
  ID : string;
  Date : Time;
  Amount : F;
  Description : string;
  Category : string;
  Type_ : string;
  UserID : string;
  PK : string;
  SK : string;
  GSI1PK : string;
  GSI1SK : string;
  GSI2PK : string;
  GSI2SK : string;
  CreatedAt : Time;
  UpdatedAt : Time;
  Version : Z;
}.

Definition TransactionTypeIncome : string := "income".
Definition TransactionTypeExpense : string := "expense".

(** [func (t *Transaction) GenerateKeys()] *)
Definition GenerateKeys (t : Transaction) : Transaction :=
  {| ID := ID t; Date := Date t; Amount := Amount t;
     Description := Description t; Category := Category t;
     Type_ := Type_ t; UserID := UserID t;
     PK := "USER#" +:+ UserID t;
     SK := "TRANSACTION#" +:+ pretty (Unix (Date t)) +:+ "#" +:+ ID t;
     GSI1PK := "MONTH#" +:+ Format_2006_01 (Date t) +:+ "#" +:+ UserID t;
     GSI1SK := "TRANSACTION#" +:+ pretty (Unix (Date t));
     GSI2PK := "CATEGORY#" +:+ ToUpper (Category t) +:+ "#" +:+ UserID t;
     GSI2SK := "TRANSACTION#" +:+ pretty (Unix (Date t));
     CreatedAt := CreatedAt t; UpdatedAt := UpdatedAt t;
     Version := Version t |}.

(** [NewTransaction]; [id] is the [uuid.New()] drawn, [now] the clock. *)
Definition NewTransaction (id : string) (now : Time)
    (userID transactionType category description : string)
    (amount : F) (date : Time) : Transaction :=
  GenerateKeys
    {| ID := id; UserID := userID; Type_ := transactionType;
       Category := category; Description := description;
       Amount := amount; Date := date;
       CreatedAt := now; UpdatedAt := now; Version := 1;
       PK := ""; SK := ""; GSI1PK := ""; GSI1SK := "";
       GSI2PK := ""; GSI2SK := "" |}.

(** [func (t *Transaction) Validate() error] *)
Definition Validate (t : Transaction) : result unit :=
  if String.eqb (UserID t) "" then Err (Errorf "user_id is required")
  else if f_eqb (Amount t) f_zero then Err (Errorf "amount must be non-zero")
  else if negb (String.eqb (Type_ t) "income")
          && negb (String.eqb (Type_ t) "expense")
       then Err (Errorf "type must be 'income' or 'expense'")
  else if String.eqb (Category t) "" then Err (Errorf "category is required")
  else if IsZero (Date t) then Err (Errorf "date is required")
  else Ok tt.

(** An item of the table. [attributevalue.MarshalMap] writes every field
    of the struct under its [dynamodbav] name and [UnmarshalMap] reads them
    back, so a stored transaction item is kept as the record itself;
    marshalling a [Transaction] does not fail. *)
Local Abbreviation Item := Transaction.

(** [func (t *Transaction) ToDynamoDBItem()]: regenerates the keys of the
    receiver, then marshals it. Returns the receiver as updated, which is
    also the item. *)
Definition ToDynamoDBItem (t : Transaction) : result Item :=
  Ok (GenerateKeys t).

(** [func (t *Transaction) FromDynamoDBItem(item)] *)
Definition FromDynamoDBItem (item : Item) : result Transaction :=
  Ok item.

(** [models.MonthlyAnalytics] *)
Record MonthlyAnalytics : Type := mkMonthlyAnalytics {
  ma_Month : string;
  ma_TotalIncome : F;
  ma_TotalExpense : F;
  ma_Balance : F;
  ma_CategoryBreakdown : gmap string F;
  ma_TransactionCount : Z;
}.

(** [models.CategoryBreakdown] *)
Record CategoryBreakdown : Type := mkCategoryBreakdown {
  cb_Category : string;
  cb_Amount : F;
  cb_Percentage : F;
  cb_Count : Z;
  cb_Color : string;
}.

(** [models.FinancialSummary] *)
Record FinancialSummary : Type := mkFinancialSummary {
  TotalBalance : F;
  MonthlyIncome : F;
  MonthlyExpenses : F;
  AvailableMoney : F;
  SavingsRate : F;
  fs_CategoryBreakdown : list CategoryBreakdown;
  MonthlyTrend : F;
  Timestamp : Time;
}.

(** [models.CategoryOption] *)
Record CategoryOption : Type := mkCategoryOption {
  Label : string;
  Value : string;
}.

End Models.

Arguments Transaction F : clear implicits.
Abbreviation Item F := (Transaction F).
Arguments MonthlyAnalytics F : clear implicits.
Arguments CategoryBreakdown F : clear implicits.
Arguments FinancialSummary F : clear implicits.

(** ** The DynamoDB table

    One table with primary key (PK, SK) and two global secondary indexes,
    GSI1 on (GSI1PK, GSI1SK) and GSI2 on (GSI2PK, GSI2SK). Only
    transaction items are kept: budget and profile items carry sort keys
    [BUDGET#...] and [PROFILE] and are matched by none of the transaction
    queries. *)

Abbreviation Table F := (gmap (string * string) (Item F)).

Section DynamoDB.
Context {F : Type} `{Number F}.

Definition primary_key (it : Item F) : string * string := (PK it, SK it).

(** The key conditions the repository writes, with their
    [ExpressionAttributeValues] substituted. *)
Inductive KeyConditionExpression : Type :=
  | PK_eq_AND_begins_with_SK (pk sk_prefix : string)
  | GSI1PK_eq (gsi1pk : string)
  | GSI2PK_eq (gsi2pk : string).

Record QueryInput : Type := mkQueryInput {
  IndexName : option string;
  KeyCondition : KeyConditionExpression;
  ScanIndexForward : option bool;
  Limit : option Z;
}.

Definition key_matches (c : KeyConditionExpression) (it : Item F) : bool :=
  match c with
  | PK_eq_AND_begins_with_SK pk pre =>
      String.eqb (PK it) pk && begins_with (SK it) pre
  | GSI1PK_eq v => String.eqb (GSI1PK it) v
  | GSI2PK_eq v => String.eqb (GSI2PK it) v
  end.

(** The sort attribute of the index queried. *)
Definition sort_attr (index : option string) (it : Item F) : string :=
  match index with
  | None => SK it
  | Some n => if String.eqb n "GSI1" then GSI1SK it else GSI2SK it
  end.

Definition sort_le (index : option string) (a b : Item F) : Prop :=
  String.le (sort_attr index a) (sort_attr index b).

#[export] Instance sort_le_dec index : RelDecision (sort_le index).
Proof. intros a b. unfold sort_le. apply _. Defined.

(** [client.Query]: the items satisfying the key condition, in ascending
    order of the index's sort attribute (descending when
    [ScanIndexForward] is false), cut at [Limit] when one is given. A
    [Limit] below 1 is refused by the service. Paging ([ExclusiveStartKey],
    [LastEvaluatedKey]) is left out: every caller modelled passes a nil
    start key and drops the key it gets back; the whole match is taken to
    fit one page. *)
Definition Query (input : QueryInput) (tbl : Table F) : result (list (Item F)) :=
  let matching := filter (fun it => key_matches (KeyCondition input) it = true)
                         (snd <$> map_to_list tbl) in
  let sorted := merge_sort (sort_le (IndexName input)) matching in
  let ordered := match ScanIndexForward input with
                 | Some false => reverse sorted
                 | _ => sorted
                 end in
  match Limit input with
  | None => Ok ordered
  | Some n => if n <=? 0 then Err (ServiceError "ValidationException")
              else Ok (take (Z.to_nat n) ordered)
  end.

(** The condition expressions the repository writes. *)
Inductive ConditionExpression : Type :=
  | attribute_not_exists_PK_AND_SK
  | version_eq (oldVersion : Z)
  | attribute_exists_PK.

(** A condition is evaluated against the item stored under the same
    primary key, if any. *)
Definition eval_condition (c : option ConditionExpression)
    (stored : option (Item F)) : bool :=
  match c, stored with
  | None, _ => true
  | Some attribute_not_exists_PK_AND_SK, None => true
  | Some attribute_not_exists_PK_AND_SK, Some _ => false
  | Some (version_eq v), Some it => Version it =? v
  | Some (version_eq _), None => false
  | Some attribute_exists_PK, Some _ => true
  | Some attribute_exists_PK, None => false
  end.

Record PutItemInput : Type := mkPutItemInput {
  put_Item : Item F;
  put_ConditionExpression : option ConditionExpression;
}.

(** [client.PutItem] *)
Definition PutItem (input : PutItemInput) (tbl : Table F) : result (Table F) :=
  let key := primary_key (put_Item input) in
  if eval_condition (put_ConditionExpression input) (tbl !! key)
  then Ok (<[key := put_Item input]> tbl)
  else Err ConditionalCheckFailedException.

Record DeleteItemInput : Type := mkDeleteItemInput {
  del_Key : string * string;
  del_ConditionExpression : option ConditionExpression;
}.

(** [client.DeleteItem] *)
Definition DeleteItem (input : DeleteItemInput) (tbl : Table F) : result (Table F) :=
  if eval_condition (del_ConditionExpression input) (tbl !! del_Key input)
  then Ok (delete (del_Key input) tbl)
  else Err ConditionalCheckFailedException.

End DynamoDB.

(** ** repository *)

Section Repository.
Context {F : Type} `{Number F}.

Definition set_bookkeeping (t : Transaction F) (createdAt updatedAt : Time)
    (version : Z) : Transaction F :=
  {| ID := ID t; Date := Date t; Amount := Amount t;
     Description := Description t; Category := Category t;
     Type_ := Type_ t; UserID := UserID t;
     PK := PK t; SK := SK t; GSI1PK := GSI1PK t; GSI1SK := GSI1SK t;
     GSI2PK := GSI2PK t; GSI2SK := GSI2SK t;
     CreatedAt := createdAt; UpdatedAt := updatedAt; Version := version |}.

(** The loop shared by the three list queries:
    [for _, item := range result.Items], skipping (and logging) an item
    that fails to unmarshal. *)
Definition unmarshal_items (items : list (Item F)) : list (Transaction F) :=
  foldl (fun transactions item =>
           match FromDynamoDBItem item with
           | Err _ => transactions
           | Ok transaction => transactions ++ [transaction]
           end) [] items.

(** [CreateTransaction]. The receiver's keys are regenerated by
    [ToDynamoDBItem]. *)
Definition CreateTransaction (transaction : Transaction F) (tbl : Table F)
    : result (Table F) :=
  match ToDynamoDBItem transaction with
  | Err err => Err (Wrapf "failed to marshal transaction" err)
  | Ok item =>
      let input := {| put_Item := item;
                      put_ConditionExpression :=
                        Some attribute_not_exists_PK_AND_SK |} in
      match PutItem input tbl with
      | Err err => Err (Wrapf "failed to create transaction" err)
      | Ok tbl' => Ok tbl'
      end
  end.

Definition GetTransactionsByUser_input (userID : string) (limit : Z) : QueryInput :=
  {| IndexName := None;
     KeyCondition := PK_eq_AND_begins_with_SK ("USER#" +:+ userID) "TX#";
     ScanIndexForward := Some false;
     Limit := Some (int32 limit) |}.

(** [GetTransactionsByUser] with a nil [lastKey]. *)
Definition GetTransactionsByUser (userID : string) (limit : Z) (tbl : Table F)
    : result (list (Transaction F)) :=
  match Query (GetTransactionsByUser_input userID limit) tbl with
  | Err err => Err (Wrapf "failed to query transactions" err)
  | Ok items => Ok (unmarshal_items items)
  end.

Definition GetTransactionsByMonth_input (userID month : string) (limit : Z) : QueryInput :=
  {| IndexName := Some "GSI1";
     KeyCondition := GSI1PK_eq ("MONTH#" +:+ month +:+ "#" +:+ userID);
     ScanIndexForward := Some false;
     Limit := Some (int32 limit) |}.

(** [GetTransactionsByMonth] with a nil [lastKey]. *)
Definition GetTransactionsByMonth (userID month : string) (limit : Z)
    (tbl : Table F) : result (list (Transaction F)) :=
  match Query (GetTransactionsByMonth_input userID month limit) tbl with
  | Err err => Err (Wrapf "failed to query transactions by month" err)
  | Ok items => Ok (unmarshal_items items)
  end.

Definition GetTransactionsByCategory_input (userID category : string) (limit : Z) : QueryInput :=
  {| IndexName := Some "GSI2";
     KeyCondition := GSI2PK_eq ("CATEGORY#" +:+ ToUpper category +:+ "#" +:+ userID);
     ScanIndexForward := Some false;
     Limit := Some (int32 limit) |}.

(** [GetTransactionsByCategory] with a nil [lastKey]. *)
Definition GetTransactionsByCategory (userID category : string) (limit : Z)
    (tbl : Table F) : result (list (Transaction F)) :=
  match Query (GetTransactionsByCategory_input userID category limit) tbl with
  | Err err => Err (Wrapf "failed to query transactions by category" err)
  | Ok items => Ok (unmarshal_items items)
  end.

(** The accumulation loop of [GetMonthlyAnalytics]. *)
Definition analytics_step (analytics : MonthlyAnalytics F) (tx : Transaction F)
    : MonthlyAnalytics F :=
  let income := String.eqb (Type_ tx) TransactionTypeIncome in
  {| ma_Month := ma_Month analytics;
     ma_TransactionCount := ma_TransactionCount analytics + 1;
     ma_TotalIncome :=
       if income then f_add (ma_TotalIncome analytics) (Amount tx)
       else ma_TotalIncome analytics;
     ma_TotalExpense :=
       if income then ma_TotalExpense analytics
       else f_add (ma_TotalExpense analytics) (Amount tx);
     ma_Balance := ma_Balance analytics;
     ma_CategoryBreakdown :=
       <[Category tx :=
           f_add (default f_zero (ma_CategoryBreakdown analytics !! Category tx))
                 (Amount tx)]> (ma_CategoryBreakdown analytics) |}.

Definition analytics_of (month : string) (transactions : list (Transaction F))
    : MonthlyAnalytics F :=
  let init := {| ma_Month := month; ma_TotalIncome := f_zero;
                 ma_TotalExpense := f_zero; ma_Balance := f_zero;
                 ma_CategoryBreakdown := ∅; ma_TransactionCount := 0 |} in
  let analytics := foldl analytics_step init transactions in
  {| ma_Month := ma_Month analytics;
     ma_TotalIncome := ma_TotalIncome analytics;
     ma_TotalExpense := ma_TotalExpense analytics;
     ma_Balance := f_sub (ma_TotalIncome analytics) (ma_TotalExpense analytics);
     ma_CategoryBreakdown := ma_CategoryBreakdown analytics;
     ma_TransactionCount := ma_TransactionCount analytics |}.

(** [GetMonthlyAnalytics] *)
Definition GetMonthlyAnalytics (userID month : string) (tbl : Table F)
    : result (MonthlyAnalytics F) :=
  match GetTransactionsByMonth userID month 1000 tbl with
  | Err err => Err (Wrapf "failed to get transactions for analytics" err)
  | Ok transactions => Ok (analytics_of month transactions)
  end.

Definition GetTransaction_input (userID : string) : QueryInput :=
  {| IndexName := None;
     KeyCondition := PK_eq_AND_begins_with_SK ("USER#" +:+ userID) "TX#";
     ScanIndexForward := None;
     Limit := None |}.

(** The client-side filter of [GetTransaction]. *)
Fixpoint filter_by_id (transactionID : string) (items : list (Item F))
    : result (Transaction F) :=
  match items with
  | [] => Err (Errorf "transaction not found")
  | item :: rest =>
      match FromDynamoDBItem item with
      | Err _ => filter_by_id transactionID rest
      | Ok transaction =>
          if String.eqb (ID transaction) transactionID then Ok transaction
          else filter_by_id transactionID rest
      end
  end.

(** [GetTransaction] *)
Definition GetTransaction (userID transactionID : string) (tbl : Table F)
    : result (Transaction F) :=
  match Query (GetTransaction_input userID) tbl with
  | Err err => Err (Wrapf "failed to query transactions" err)
  | Ok items => filter_by_id transactionID items
  end.

(** The first half of [UpdateTransaction]: validate, re-read, and build
    the record to write. Returns the record read and the record to write. *)
Definition UpdateTransaction_read (now : Time) (transaction : Transaction F)
    (tbl : Table F) : result (Transaction F * Transaction F) :=
  match Validate transaction with
  | Err err => Err (Wrapf "validation failed" err)
  | Ok _ =>
      match GetTransaction (UserID transaction) (ID transaction) tbl with
      | Err err => Err (Wrapf "transaction not found" err)
      | Ok existing =>
          let transaction :=
            set_bookkeeping transaction (CreatedAt existing) now
                            (int (Version existing + 1)) in
          Ok (existing, GenerateKeys transaction)
      end
  end.

(** The second half: the conditional put. *)
Definition UpdateTransaction_write (existing transaction : Transaction F)
    (tbl : Table F) : result (Transaction F * Table F) :=
  match ToDynamoDBItem transaction with
  | Err err => Err (Wrapf "failed to marshal transaction" err)
  | Ok item =>
      let input := {| put_Item := item;
                      put_ConditionExpression :=
                        Some (version_eq (Version existing)) |} in
      match PutItem input tbl with
      | Err err =>
          if errors_As_ConditionalCheckFailed err
          then Err (Errorf "transaction was modified by another process, please retry")
          else Err (Wrapf "failed to update transaction" err)
      | Ok tbl' => Ok (item, tbl')
      end
  end.

(** [UpdateTransaction]. On success returns the receiver as updated and
    the new table. *)
Definition UpdateTransaction (now : Time) (transaction : Transaction F)
    (tbl : Table F) : result (Transaction F * Table F) :=
  match UpdateTransaction_read now transaction tbl with
  | Err err => Err err
  | Ok (existing, transaction) =>
      UpdateTransaction_write existing transaction tbl
  end.

(** [DeleteTransaction] *)
Definition DeleteTransaction (userID transactionID : string) (tbl : Table F)
    : result (Table F) :=
  match GetTransaction userID transactionID tbl with
  | Err err => Err (Wrapf "transaction not found" err)
  | Ok transaction =>
      let input := {| del_Key := (PK transaction, SK transaction);
                      del_ConditionExpression := Some attribute_exists_PK |} in
      match DeleteItem input tbl with
      | Err err => Err (Wrapf "failed to delete transaction" err)
      | Ok tbl' => Ok tbl'
      end
  end.


(** *** Batch writes

    [BatchWriteItem] may leave part of a request unprocessed, or fail as a
    whole; which, is the store's choice. Each call consumes one
    [BatchResponse] from the world; when none is left the store processes
    everything. The world also records what the repository does: the
    requests it submits and the pauses it takes. *)

Record WriteRequest : Type := mkWriteRequest {
  PutRequest : Item F;
}.

Inductive BatchResponse : Type :=
  | Unprocessed (left_over : Item F -> bool)
  | Fails (err : error).

Inductive Event : Type :=
  | EvBatchWriteItem (requests : list WriteRequest)
  | EvSleep (milliseconds : Z).

Record World : Type := mkWorld {
  table : Table F;
  responses : list BatchResponse;
  trace : list Event;
}.

Definition put_all (requests : list WriteRequest) (tbl : Table F) : Table F :=
  foldl (fun t r => <[primary_key (PutRequest r) := PutRequest r]> t) tbl requests.

(** [client.BatchWriteItem]: returns [result.UnprocessedItems]. *)
Definition BatchWriteItem (requests : list WriteRequest) (w : World)
    : result (list WriteRequest) * World :=
  let ev := trace w ++ [EvBatchWriteItem requests] in
  match responses w with
  | [] =>
      (Ok [], {| table := put_all requests (table w);
                 responses := []; trace := ev |})
  | Fails err :: rs =>
      (Err err, {| table := table w; responses := rs; trace := ev |})
  | Unprocessed left_over :: rs =>
      let keep r := left_over (PutRequest r) in
      (Ok (filter (fun r => keep r = true) requests),
       {| table := put_all (filter (fun r => keep r = false) requests) (table w);
          responses := rs; trace := ev |})
  end.

(** [time.Sleep] *)
Definition Sleep (milliseconds : Z) (w : World) : World :=
  {| table := table w; responses := responses w;
     trace := trace w ++ [EvSleep milliseconds] |}.

Definition maxRetries : Z := 3.

(** The retry loop of [batchWriteTransactions],
    [for retry := 0; retry < maxRetries; retry++]. The first argument
    bounds the number of iterations; [maxRetries] suffices. *)
Fixpoint retry_loop (fuel : nat) (retry : Z) (requests : list WriteRequest)
    (w : World) : result unit * World :=
  match fuel with
  | O => (Ok tt, w)
  | S fuel' =>
      if retry <? maxRetries then
        match BatchWriteItem requests w with
        | (Err err, w) => (Err (Wrapf "failed to batch write items" err), w)
        | (Ok unprocessed, w) =>
            if (length unprocessed =? 0)%nat then (Ok tt, w)
            else if retry =? maxRetries - 1 then
              (Err (Errorf ("failed to process all items after "
                            +:+ pretty maxRetries +:+ " retries")), w)
            else
              retry_loop fuel' (retry + 1) unprocessed
                         (Sleep ((retry + 1) * 100) w)
        end
      else (Ok tt, w)
  end.

(** The write requests [batchWriteTransactions] builds: each transaction
    (a copy of the slice element) gets its keys and fresh timestamps. *)
Definition write_requests (now : Time) (transactions : list (Transaction F))
    : result (list WriteRequest) :=
  foldl (fun acc tx =>
           match acc with
           | Err err => Err err
           | Ok writeRequests =>
               let tx := GenerateKeys tx in
               let tx := set_bookkeeping tx now now (Version tx) in
               match ToDynamoDBItem tx with
               | Err err =>
                   Err (Wrapf ("failed to marshal transaction " +:+ ID tx) err)
               | Ok item => Ok (writeRequests ++ [{| PutRequest := item |}])
               end
           end) (Ok []) transactions.

(** [batchWriteTransactions] *)
Definition batchWriteTransactions (now : Time)
    (transactions : list (Transaction F)) (w : World) : result unit * World :=
  match write_requests now transactions with
  | Err err => (Err err, w)
  | Ok writeRequests =>
      retry_loop (Z.to_nat maxRetries) 0 writeRequests w
  end.

Definition batchSize : nat := 25.

(** [transactions[i:end]] *)
Definition slice {A} (l : list A) (i j : nat) : list A := take (j - i) (drop i l).

(** The chunk loop of [BatchCreateTransactions],
    [for i := 0; i < len(transactions); i += batchSize]. The first
    argument bounds the number of iterations; [len(transactions)]
    suffices. *)
Fixpoint chunk_loop (fuel : nat) (now : Time) (i : nat)
    (transactions : list (Transaction F)) (w : World) : result unit * World :=
  match fuel with
  | O => (Ok tt, w)
  | S fuel' =>
      if (i <? length transactions)%nat then
        let end_ := (i + batchSize)%nat in
        let end_ := if (length transactions <? end_)%nat
                    then length transactions else end_ in
        let batch := slice transactions i end_ in
        match batchWriteTransactions now batch w with
        | (Err err, w) =>
            (Err (Wrapf ("failed to write batch " +:+ pretty (Z.of_nat i)
                         +:+ "-" +:+ pretty (Z.of_nat end_)) err), w)
        | (Ok _, w) =>
            chunk_loop fuel' now (i + batchSize)%nat transactions w
        end
      else (Ok tt, w)
  end.

(** [BatchCreateTransactions] *)
Definition BatchCreateTransactions (now : Time)
    (transactions : list (Transaction F)) (w : World) : result unit * World :=
  chunk_loop (length transactions) now 0 transactions w.

(** *** The batch load in the words of the specification

    "Partitions input into fixed-size chunks, submits each chunk": the
    consecutive chunks of at most [batchSize] elements, and their
    submission one after the other, stopping at the first that fails. *)
Fixpoint chunks_of {A} (fuel : nat) (l : list A) : list (list A) :=
  match fuel with
  | O => []
  | S fuel' =>
      match l with
      | [] => []
      | _ => take batchSize l :: chunks_of fuel' (drop batchSize l)
      end
  end.

Definition chunks {A} (l : list A) : list (list A) := chunks_of (length l) l.

Fixpoint run_chunks (now : Time) (i : nat) (cs : list (list (Transaction F)))
    (w : World) : result unit * World :=
  match cs with
  | [] => (Ok tt, w)
  | c :: cs' =>
      match batchWriteTransactions now c w with
      | (Err err, w) =>
          (Err (Wrapf ("failed to write batch " +:+ pretty (Z.of_nat i)
                       +:+ "-" +:+ pretty (Z.of_nat (i + length c))) err), w)
      | (Ok _, w) => run_chunks now (i + batchSize)%nat cs' w
      end
  end.

(** "Retries only the subset reported as unprocessed, with linear
    backoff, up to a bounded retry count; exceeding the bound is fatal":
    one chunk, from retry number [retry] on. The requests are submitted.
    A failure of the call ends the chunk, and so does an empty report. A
    non-empty report on the last permitted submission is fatal. Otherwise
    exactly what the store reported unprocessed is submitted again, after
    a pause of [(retry + 1) * 100] milliseconds. *)
Inductive retry_trace
    : Z -> list WriteRequest -> World -> result unit -> World -> Prop :=
  | retry_failed retry requests w err w1 :
      BatchWriteItem requests w = (Err err, w1) ->
      retry_trace retry requests w
        (Err (Wrapf "failed to batch write items" err)) w1
  | retry_done retry requests w w1 :
      BatchWriteItem requests w = (Ok [], w1) ->
      retry_trace retry requests w (Ok tt) w1
  | retry_exhausted retry requests w unprocessed w1 :
      BatchWriteItem requests w = (Ok unprocessed, w1) ->
      unprocessed <> [] ->
      retry = maxRetries - 1 ->
      retry_trace retry requests w
        (Err (Errorf "failed to process all items after 3 retries")) w1
  | retry_again retry requests w unprocessed w1 res w' :
      BatchWriteItem requests w = (Ok unprocessed, w1) ->
      unprocessed <> [] ->
      retry < maxRetries - 1 ->
      retry_trace (retry + 1) unprocessed (Sleep ((retry + 1) * 100) w1)
        res w' ->
      retry_trace retry requests w res w'.

(** The submissions among the events. *)
Definition submissions (events : list Event) : list (list WriteRequest) :=
  omap (fun ev => match ev with
                  | EvBatchWriteItem requests => Some requests
                  | EvSleep _ => None
                  end) events.

End Repository.

Arguments WriteRequest F : clear implicits.
Arguments BatchResponse F : clear implicits.
Arguments Event F : clear implicits.
Arguments World F : clear implicits.

(** ** repository: budgets

    The budget items of the table are kept in a map of their own. They
    share the table and the partition key [USER#...] with the
    transactions but never a primary key: a budget's sort key starts with
    [BUDGET#], a transaction's with [TRANSACTION#] or [TX#], and each
    operation below addresses budget keys only. *)

Section Budgets.
Context {F : Type} `{Number F}.

(** [models.Budget] *)
Record Budget : Type := mkBudget {
  b_ID : string;
  b_UserID : string;
  b_Category : string;
  b_Month : string;
  b_Amount : F;
  b_CreatedAt : Time;
  b_UpdatedAt : Time;
  b_PK : string;
  b_SK : string;
}.

(** [func (b *Budget) GenerateKeys()] *)
Definition Budget_GenerateKeys (b : Budget) : Budget :=
  {| b_ID := b_ID b; b_UserID := b_UserID b; b_Category := b_Category b;
     b_Month := b_Month b; b_Amount := b_Amount b;
     b_CreatedAt := b_CreatedAt b; b_UpdatedAt := b_UpdatedAt b;
     b_PK := "USER#" +:+ b_UserID b;
     b_SK := "BUDGET#" +:+ b_Month b +:+ "#" +:+ ToUpper (b_Category b) |}.

(** [func (b *Budget) ToDynamoDBItem()] *)
Definition Budget_ToDynamoDBItem (b : Budget) : result Budget :=
  Ok (Budget_GenerateKeys b).

(** [func (b *Budget) FromDynamoDBItem(item)] *)
Definition Budget_FromDynamoDBItem (item : Budget) : result Budget :=
  Ok item.

Definition set_budget_bookkeeping (b : Budget) (id : string)
    (createdAt updatedAt : Time) : Budget :=
  {| b_ID := id; b_UserID := b_UserID b; b_Category := b_Category b;
     b_Month := b_Month b; b_Amount := b_Amount b;
     b_CreatedAt := createdAt; b_UpdatedAt := updatedAt;
     b_PK := b_PK b; b_SK := b_SK b |}.

(** [CreateOrUpdateBudget]: a [PutItem] without condition. [id] is the
    [uuid.New()] that would be drawn, [now] the clock. Returns the
    receiver as updated and the new budget items. *)
Definition CreateOrUpdateBudget (id : string) (now : Time) (budget : Budget)
    (tbl : gmap (string * string) Budget)
    : result (Budget * gmap (string * string) Budget) :=
  let id := if String.eqb (b_ID budget) "" then id else b_ID budget in
  let createdAt :=
    if IsZero (b_CreatedAt budget) then now else b_CreatedAt budget in
  let budget := set_budget_bookkeeping budget id createdAt now in
  let budget := Budget_GenerateKeys budget in
  match Budget_ToDynamoDBItem budget with
  | Err err => Err (Wrapf "failed to marshal budget" err)
  | Ok item => Ok (item, <[(b_PK item, b_SK item) := item]> tbl)
  end.

Definition budget_sk_le (a b : Budget) : Prop := String.le (b_SK a) (b_SK b).

#[export] Instance budget_sk_le_dec : RelDecision budget_sk_le.
Proof. intros a b. unfold budget_sk_le. apply _. Defined.

(** [GetBudgetsByMonth]: a [Query] with
    [PK = :pk AND begins_with(SK, :sk_prefix)], forward, without limit. *)
Definition GetBudgetsByMonth (userID month : string)
    (tbl : gmap (string * string) Budget) : result (list Budget) :=
  let pk := "USER#" +:+ userID in
  let sk_prefix := "BUDGET#" +:+ month +:+ "#" in
  let items :=
    merge_sort budget_sk_le
      (filter (fun it => String.eqb (b_PK it) pk
                         && begins_with (b_SK it) sk_prefix = true)
              (snd <$> map_to_list tbl)) in
  Ok (foldl (fun budgets item =>
               match Budget_FromDynamoDBItem item with
               | Err _ => budgets
               | Ok budget => budgets ++ [budget]
               end) [] items).

(** [GetBudget]: a [GetItem] on the full key. *)
Definition GetBudget (userID month category : string)
    (tbl : gmap (string * string) Budget) : result Budget :=
  let key := ("USER#" +:+ userID,
              "BUDGET#" +:+ month +:+ "#" +:+ ToUpper category) in
  match tbl !! key with
  | None => Err (Errorf "budget not found")
  | Some item =>
      match Budget_FromDynamoDBItem item with
      | Err err => Err (Wrapf "failed to unmarshal budget" err)
      | Ok budget => Ok budget
      end
  end.

(** [DeleteBudget]: a [DeleteItem] under [attribute_exists(PK)]. *)
Definition DeleteBudget (userID month category : string)
    (tbl : gmap (string * string) Budget)
    : result (gmap (string * string) Budget) :=
  let key := ("USER#" +:+ userID,
              "BUDGET#" +:+ month +:+ "#" +:+ ToUpper category) in
  match tbl !! key with
  | Some _ => Ok (delete key tbl)
  | None => Err (Wrapf "failed to delete budget" ConditionalCheckFailedException)
  end.

End Budgets.

Arguments Budget F : clear implicits.

(** ** repository: users *)

(** [models.User] *)
Record User : Type := mkUser {
  u_ID : string;
  u_Email : string;
  u_Name : string;
  u_CreatedAt : Time;
  u_UpdatedAt : Time;
  u_PK : string;
  u_SK : string;
}.

(** [func (u *User) GenerateKeys()] *)
Definition User_GenerateKeys (u : User) : User :=
  {| u_ID := u_ID u; u_Email := u_Email u; u_Name := u_Name u;
     u_CreatedAt := u_CreatedAt u; u_UpdatedAt := u_UpdatedAt u;
     u_PK := "USER#" +:+ u_ID u;
     u_SK := "PROFILE" |}.

(** [CreateUser]: a [PutItem] under [attribute_not_exists(PK)]. The clock
    is read twice, once for each timestamp. Returns the receiver as
    updated and the new profile items. *)
Definition CreateUser (now1 now2 : Time) (user : User)
    (tbl : gmap (string * string) User)
    : result (User * gmap (string * string) User) :=
  let user := User_GenerateKeys user in
  let user :=
    {| u_ID := u_ID user; u_Email := u_Email user; u_Name := u_Name user;
       u_CreatedAt := now1; u_UpdatedAt := now2;
       u_PK := u_PK user; u_SK := u_SK user |} in
  let key := (u_PK user, u_SK user) in
  match tbl !! key with
  | None => Ok (user, <[key := user]> tbl)
  | Some _ => Err (Wrapf "failed to create user" ConditionalCheckFailedException)
  end.

(** [GetUser]: a [GetItem] on the profile key. *)
Definition GetUser (userID : string) (tbl : gmap (string * string) User)
    : result User :=
  match tbl !! ("USER#" +:+ userID, "PROFILE") with
  | None => Err (Errorf "user not found")
  | Some user => Ok user
  end.

(** ** The repository interface

    [repository.Repository], as far as the services below use it. [S] is
    what the implementation works on: the table for the DynamoDB
    repository, whatever a test double needs for a mock. *)
Record Repository (F S : Type) : Type := mkRepository {
  repo_CreateTransaction : Transaction F -> S -> result S;
  repo_GetTransaction : string -> string -> S -> result (Transaction F);
  repo_UpdateTransaction : Time -> Transaction F -> S -> result (Transaction F * S);
  repo_DeleteTransaction : string -> string -> S -> result S;
  repo_GetTransactionsByUser : string -> Z -> S -> result (list (Transaction F));
  repo_GetTransactionsByMonth : string -> string -> Z -> S -> result (list (Transaction F));
  repo_GetTransactionsByCategory : string -> string -> Z -> S -> result (list (Transaction F));
  repo_GetMonthlyAnalytics : string -> string -> S -> result (MonthlyAnalytics F);
}.
Arguments repo_CreateTransaction {F S}.
Arguments repo_GetTransaction {F S}.
Arguments repo_UpdateTransaction {F S}.
Arguments repo_DeleteTransaction {F S}.
Arguments repo_GetTransactionsByUser {F S}.
Arguments repo_GetTransactionsByMonth {F S}.
Arguments repo_GetTransactionsByCategory {F S}.
Arguments repo_GetMonthlyAnalytics {F S}.

(** [NewDynamoDBRepository] *)
Definition DynamoDBRepository {F} `{Number F} : Repository F (Table F) :=
  {| repo_CreateTransaction := CreateTransaction;
     repo_GetTransaction := GetTransaction;
     repo_UpdateTransaction := UpdateTransaction;
     repo_DeleteTransaction := DeleteTransaction;
     repo_GetTransactionsByUser := GetTransactionsByUser;
     repo_GetTransactionsByMonth := GetTransactionsByMonth;
     repo_GetTransactionsByCategory := GetTransactionsByCategory;
     repo_GetMonthlyAnalytics := GetMonthlyAnalytics |}.

(** A double in the manner of [mocks.MockRepository]: the list calls
    answer with a fixed list whatever the arguments, and the double's
    state records the limit of the last list call. *)
Definition MockRepository {F} `{Number F} (transactions : list (Transaction F))
    : Repository F unit :=
  {| repo_CreateTransaction := fun _ s => Ok s;
     repo_GetTransaction := fun _ _ _ => Err (Errorf "transaction not found");
     repo_UpdateTransaction := fun _ t s => Ok (t, s);
     repo_DeleteTransaction := fun _ _ s => Ok s;
     repo_GetTransactionsByUser := fun _ _ _ => Ok transactions;
     repo_GetTransactionsByMonth := fun _ _ _ _ => Ok transactions;
     repo_GetTransactionsByCategory := fun _ _ _ _ => Ok transactions;
     repo_GetMonthlyAnalytics := fun _ month _ => Ok (analytics_of month transactions) |}.

(** ** services: transactionService *)

Module transactionService.
Section Service.
Context {F S : Type} `{Number F} (repo : Repository F S).

Definition date_After (a b : Transaction F) : Prop := Date b <= Date a.

#[export] Instance date_After_dec : RelDecision date_After.
Proof. intros a b. unfold date_After. apply _. Defined.

(** [sort.Slice(transactions, func(i, j) { return
    transactions[i].Date.After(transactions[j].Date) })]: most recent
    first. (Go leaves the order of equal dates open; here it is kept.) *)
Definition sort_by_date_desc (transactions : list (Transaction F))
    : list (Transaction F) :=
  merge_sort date_After transactions.

(** [GetTransactionsByUser] *)
Definition GetTransactionsByUser (userID : string) (limit : Z) (s : S)
    : result (list (Transaction F)) :=
  if String.eqb userID "" then Err (Errorf "userID is required")
  else
    let limit := if limit <=? 0 then 50 else limit in
    match repo_GetTransactionsByUser repo userID limit s with
    | Err err => Err err
    | Ok transactions => Ok (sort_by_date_desc transactions)
    end.

(** [GetTransactionsByMonth] *)
Definition GetTransactionsByMonth (userID month : string) (limit : Z) (s : S)
    : result (list (Transaction F)) :=
  if String.eqb userID "" || String.eqb month ""
  then Err (Errorf "userID and month are required")
  else
    let limit := if limit <=? 0 then 50 else limit in
    repo_GetTransactionsByMonth repo userID month limit s.

(** [GetTransactionsByCategory] *)
Definition GetTransactionsByCategory (userID category : string) (limit : Z)
    (s : S) : result (list (Transaction F)) :=
  if String.eqb userID "" || String.eqb category ""
  then Err (Errorf "userID and category are required")
  else
    let limit := if limit <=? 0 then 50 else limit in
    repo_GetTransactionsByCategory repo userID category limit s.

(** [GetTransaction] *)
Definition GetTransaction (userID transactionID : string) (s : S)
    : result (Transaction F) :=
  if String.eqb userID "" || String.eqb transactionID ""
  then Err (Errorf "userID and transactionID are required")
  else repo_GetTransaction repo userID transactionID s.

Definition set_ID (t : Transaction F) (id : string) : Transaction F :=
  {| ID := id; Date := Date t; Amount := Amount t;
     Description := Description t; Category := Category t;
     Type_ := Type_ t; UserID := UserID t;
     PK := PK t; SK := SK t; GSI1PK := GSI1PK t; GSI1SK := GSI1SK t;
     GSI2PK := GSI2PK t; GSI2SK := GSI2SK t;
     CreatedAt := CreatedAt t; UpdatedAt := UpdatedAt t;
     Version := Version t |}.

Definition set_Date (t : Transaction F) (date : Time) : Transaction F :=
  {| ID := ID t; Date := date; Amount := Amount t;
     Description := Description t; Category := Category t;
     Type_ := Type_ t; UserID := UserID t;
     PK := PK t; SK := SK t; GSI1PK := GSI1PK t; GSI1SK := GSI1SK t;
     GSI2PK := GSI2PK t; GSI2SK := GSI2SK t;
     CreatedAt := CreatedAt t; UpdatedAt := UpdatedAt t;
     Version := Version t |}.

(** [ValidateTransaction]. [transaction] is the pointer argument ([None]
    for nil), [id] the [uuid.New()] that would be drawn, [now] the clock.
    Returns the pointee as the function leaves it. *)
Definition ValidateTransaction (id : string) (now : Time)
    (transaction : option (Transaction F)) : result (Transaction F) :=
  match transaction with
  | None => Err (Errorf "transaction cannot be nil")
  | Some transaction =>
      let transaction :=
        if String.eqb (ID transaction) "" then set_ID transaction id
        else transaction in
      if String.eqb (UserID transaction) ""
      then Err (Errorf "user ID is required")
      else if f_eqb (Amount transaction) f_zero
      then Err (Errorf "amount cannot be zero")
      else if String.eqb (Category transaction) ""
      then Err (Errorf "category is required")
      else if negb (String.eqb (Type_ transaction) TransactionTypeIncome)
              && negb (String.eqb (Type_ transaction) TransactionTypeExpense)
      then Err (Errorf "type must be either income or expense")
      else if String.eqb (Description transaction) ""
      then Err (Errorf "description is required")
      else
        let transaction :=
          if IsZero (Date transaction) then set_Date transaction now
          else transaction in
        let createdAt :=
          if IsZero (CreatedAt transaction) then now
          else CreatedAt transaction in
        let version :=
          if Version transaction =? 0 then 1 else Version transaction in
        Ok (set_bookkeeping transaction createdAt now version)
  end.

(** [CreateTransaction]. Returns the pointee as stored and the new state. *)
Definition CreateTransaction (id : string) (now : Time)
    (transaction : option (Transaction F)) (s : S)
    : result (Transaction F * S) :=
  match ValidateTransaction id now transaction with
  | Err err => Err (Wrapf "validation failed" err)
  | Ok transaction =>
      let transaction := GenerateKeys transaction in
      match repo_CreateTransaction repo transaction s with
      | Err err => Err err
      | Ok s' => Ok (transaction, s')
      end
  end.

(** [UpdateTransaction] *)
Definition UpdateTransaction (id : string) (now : Time)
    (transaction : option (Transaction F)) (s : S)
    : result (Transaction F * S) :=
  match ValidateTransaction id now transaction with
  | Err err => Err (Wrapf "validation failed" err)
  | Ok transaction => repo_UpdateTransaction repo now transaction s
  end.

(** [DeleteTransaction] *)
Definition DeleteTransaction (userID transactionID : string) (s : S)
    : result S :=
  if String.eqb userID "" || String.eqb transactionID ""
  then Err (Errorf "userID and transactionID are required")
  else repo_DeleteTransaction repo userID transactionID s.

End Service.
End transactionService.

(** ** services: analyticsService *)

(** What a Go call does: return, or panic. *)
Inductive outcome (A : Type) : Type :=
  | Returns (a : A)
  | Panics (msg : string).
Arguments Returns {A} a.
Arguments Panics {A} msg.

Module analyticsService.
Section Service.
Context {F S : Type} `{Number F} (repo : Repository F S).

Record totals : Type := mkTotals {
  totalIncome : F;
  totalExpenses : F;
  categoryMap : gmap string (CategoryBreakdown F);
}.

(** The [breakdown, exists := categoryMap[...]] block shared by
    [GetFinancialSummary] and [GetCategoryBreakdown]. *)
Definition add_expense (categoryMap : gmap string (CategoryBreakdown F))
    (transaction : Transaction F) : gmap string (CategoryBreakdown F) :=
  let breakdown :=
    match categoryMap !! Category transaction with
    | Some breakdown => breakdown
    | None => {| cb_Category := Category transaction; cb_Amount := f_zero;
                 cb_Percentage := f_zero; cb_Count := 0; cb_Color := "" |}
    end in
  <[Category transaction :=
      {| cb_Category := cb_Category breakdown;
         cb_Amount := f_add (cb_Amount breakdown) (f_opp (Amount transaction));
         cb_Percentage := cb_Percentage breakdown;
         cb_Count := cb_Count breakdown + 1;
         cb_Color := cb_Color breakdown |}]> categoryMap.

(** The accumulation loop of [GetFinancialSummary]. *)
Definition summary_step (acc : totals) (transaction : Transaction F) : totals :=
  if String.eqb (Type_ transaction) TransactionTypeIncome then
    {| totalIncome := f_add (totalIncome acc) (Amount transaction);
       totalExpenses := totalExpenses acc;
       categoryMap := categoryMap acc |}
  else if String.eqb (Type_ transaction) TransactionTypeExpense then
    {| totalIncome := totalIncome acc;
       totalExpenses := f_add (totalExpenses acc) (f_opp (Amount transaction));
       categoryMap := add_expense (categoryMap acc) transaction |}
  else acc.

(** The accumulation loop of [GetCategoryBreakdown]. *)
Definition breakdown_step (acc : totals) (transaction : Transaction F) : totals :=
  if String.eqb (Type_ transaction) TransactionTypeExpense then
    {| totalIncome := totalIncome acc;
       totalExpenses := f_add (totalExpenses acc) (f_opp (Amount transaction));
       categoryMap := add_expense (categoryMap acc) transaction |}
  else acc.

Definition no_totals : totals :=
  {| totalIncome := f_zero; totalExpenses := f_zero; categoryMap := ∅ |}.

(** The state of either loop once it has run over the transactions. *)
Definition summary_totals (transactions : list (Transaction F)) : totals :=
  foldl summary_step no_totals transactions.

Definition breakdown_totals (transactions : list (Transaction F)) : totals :=
  foldl breakdown_step no_totals transactions.

(** [if totalExpenses > 0 { breakdown.Percentage = (breakdown.Amount /
    totalExpenses) * 100 }] *)
Definition with_percentage (totalExpenses : F) (breakdown : CategoryBreakdown F)
    : CategoryBreakdown F :=
  if f_ltb f_zero totalExpenses then
    {| cb_Category := cb_Category breakdown;
       cb_Amount := cb_Amount breakdown;
       cb_Percentage :=
         f_mul (f_div (cb_Amount breakdown) totalExpenses) f_hundred;
       cb_Count := cb_Count breakdown;
       cb_Color := cb_Color breakdown |}
  else breakdown.

(** [for _, breakdown := range categoryMap { ...; append }]. Go ranges
    over a map in no particular order; the order here is that of
    [map_to_list]. *)
Definition percentages (acc : totals) : list (CategoryBreakdown F) :=
  with_percentage (totalExpenses acc) <$> (map_to_list (categoryMap acc)).*2.

Definition category_le (a b : CategoryBreakdown F) : Prop :=
  String.le (cb_Category a) (cb_Category b).

#[export] Instance category_le_dec : RelDecision category_le.
Proof. intros a b. unfold category_le. apply _. Defined.

(** What [GetFinancialSummary] computes from the transactions fetched. *)
Definition summarize (now : Time) (transactions : list (Transaction F))
    : FinancialSummary F :=
  let acc := summary_totals transactions in
  let totalBalance := f_sub (totalIncome acc) (totalExpenses acc) in
  let savingsRate :=
    if f_ltb f_zero (totalIncome acc)
    then f_mul (f_div totalBalance (totalIncome acc)) f_hundred
    else f_zero in
  let categoryBreakdown := merge_sort category_le (percentages acc) in
  {| TotalBalance := totalBalance;
     MonthlyIncome := totalIncome acc;
     MonthlyExpenses := f_opp (totalExpenses acc);
     AvailableMoney := totalBalance;
     SavingsRate := savingsRate;
     fs_CategoryBreakdown := categoryBreakdown;
     MonthlyTrend := f_zero;
     Timestamp := now |}.

(** [GetFinancialSummary] *)
Definition GetFinancialSummary (now : Time) (userID : string) (s : S)
    : result (FinancialSummary F) :=
  if String.eqb userID "" then Err (Errorf "userID is required")
  else
    match repo_GetTransactionsByUser repo userID 1000 s with
    | Err err => Err (Wrapf "failed to get user transactions" err)
    | Ok transactions => Ok (summarize now transactions)
    end.

(** What [GetCategoryBreakdown] computes from the transactions fetched. *)
Definition breakdown_of (transactions : list (Transaction F))
    : list (CategoryBreakdown F) :=
  percentages (breakdown_totals transactions).

(** [GetCategoryBreakdown]; the [period] argument is not read. *)
Definition GetCategoryBreakdown (now : Time) (userID period : string) (s : S)
    : result (list (CategoryBreakdown F)) :=
  if String.eqb userID "" then Err (Errorf "userID is required")
  else
    let currentMonth := Format_2006_01 now in
    match repo_GetTransactionsByMonth repo userID currentMonth 1000 s with
    | Err err => Err (Wrapf "failed to get transactions for period" err)
    | Ok transactions => Ok (breakdown_of transactions)
    end.

(** [categorySet[transaction.Category] = true] over all transactions. *)
Definition category_set (transactions : list (Transaction F)) : gset string :=
  foldl (fun categorySet transaction => {[Category transaction]} ∪ categorySet)
        ∅ transactions.

(** [GetUniqueCategories] *)
Definition GetUniqueCategories (userID : string) (s : S) : result (list string) :=
  if String.eqb userID "" then Err (Errorf "userID is required")
  else
    match repo_GetTransactionsByUser repo userID 1000 s with
    | Err err => Err (Wrapf "failed to get user transactions" err)
    | Ok transactions => Ok (elements (category_set transactions))
    end.

(** [string(category[0])]: the conversion of a byte to a string goes
    through a rune, so a byte above 127 becomes two bytes of UTF-8. *)
Definition string_of_byte (b : ascii) : string :=
  let n := nat_of_ascii b in
  if (n <? 128)%nat then String b EmptyString
  else String (ascii_of_nat (192 + n / 64))
         (String (ascii_of_nat (128 + n mod 64)) EmptyString).

(** [strings.ToUpper(string(category[0])) + category[1:]]. Indexing an
    empty string panics. *)
Definition label_of (category : string) : outcome string :=
  match category with
  | EmptyString => Panics "runtime error: index out of range [0] with length 0"
  | String c rest => Returns (ToUpper (string_of_byte c) +:+ rest)
  end.

(** The loop [for category := range categorySet { append ... }]. *)
Fixpoint category_options (categories : list string)
    (categoryOptions : list CategoryOption) : outcome (list CategoryOption) :=
  match categories with
  | [] => Returns categoryOptions
  | category :: rest =>
      match label_of category with
      | Panics msg => Panics msg
      | Returns label =>
          category_options rest
            (categoryOptions ++ [{| Label := label; Value := category |}])
      end
  end.

(** [GetCategoryOptions] *)
Definition GetCategoryOptions (userID : string) (s : S)
    : outcome (result (list CategoryOption)) :=
  if String.eqb userID "" then Returns (Err (Errorf "userID is required"))
  else
    match repo_GetTransactionsByUser repo userID 1000 s with
    | Err err => Returns (Err (Wrapf "failed to get user transactions" err))
    | Ok transactions =>
        match category_options (elements (category_set transactions)) [] with
        | Panics msg => Panics msg
        | Returns categoryOptions => Returns (Ok categoryOptions)
        end
    end.

(** [monthSet[transaction.Date.Format("2006-01")] = true] over all
    transactions. *)
Definition month_set (transactions : list (Transaction F)) : gset string :=
  foldl (fun monthSet transaction =>
           {[Format_2006_01 (Date transaction)]} ∪ monthSet)
        ∅ transactions.

(** [GetMonthsWithTransactions] *)
Definition GetMonthsWithTransactions (userID : string) (s : S)
    : result (list string) :=
  if String.eqb userID "" then Err (Errorf "userID is required")
  else
    match repo_GetTransactionsByUser repo userID 1000 s with
    | Err err => Err (Wrapf "failed to get user transactions" err)
    | Ok transactions => Ok (elements (month_set transactions))
    end.

(** [GetMonthlyAnalytics] *)
Definition GetMonthlyAnalytics (userID month : string) (s : S)
    : result (MonthlyAnalytics F) :=
  if String.eqb userID "" || String.eqb month ""
  then Err (Errorf "userID and month are required")
  else
    match repo_GetMonthlyAnalytics repo userID month s with
    | Err err => Err (Wrapf "failed to get monthly analytics" err)
    | Ok analytics => Ok analytics
    end.

End Service.
End analyticsService.

(** ** services: budgets in the monthly summary *)

Section BudgetAnalytics.
Context {F : Type} `{Number F}.

(** [models.CategoryBudgetBreakdown] *)
Record CategoryBudgetBreakdown : Type := mkCategoryBudgetBreakdown {
  cbb_Category : string;
  cbb_Amount : F;
  cbb_Budget : F;
  cbb_Remaining : F;
}.

(** [models.MonthlyAnalyticsWithBudget] *)
Record MonthlyAnalyticsWithBudget : Type := mkMonthlyAnalyticsWithBudget {
  mab_Month : string;
  mab_TotalIncome : F;
  mab_TotalExpense : F;
  mab_Balance : F;
  mab_CategoryBreakdown : list CategoryBudgetBreakdown;
  mab_TransactionCount : Z;
}.

Definition isDigit (c : ascii) : bool :=
  ((48 <=? N_of_ascii c) && (N_of_ascii c <=? 57))%N.

(** [time.Parse("2006-01", value)], as far as the services use it: it
    succeeds exactly on four digits, a hyphen and a two-digit month from
    01 to 12. The text of the library's error is not followed. *)
Definition Parse_2006_01 (value : string) : result unit :=
  match value with
  | String y1 (String y2 (String y3 (String y4
      (String sep (String m1 (String m2 EmptyString)))))) =>
      if isDigit y1 && isDigit y2 && isDigit y3 && isDigit y4
         && Ascii.eqb sep "-" && isDigit m1 && isDigit m2
      then
        let month := (10 * (N_of_ascii m1 - 48) + (N_of_ascii m2 - 48))%N in
        if ((0 <? month) && (month <=? 12))%N then Ok tt
        else Err (Errorf "parsing time")
      else Err (Errorf "parsing time")
  | _ => Err (Errorf "parsing time")
  end.

(** [func (s *BudgetService) GetBudgetsByMonth] over the DynamoDB
    repository. *)
Definition BudgetService_GetBudgetsByMonth (userID month : string)
    (budgets : gmap (string * string) (Budget F)) : result (list (Budget F)) :=
  match Parse_2006_01 month with
  | Err err => Err (Wrapf "invalid month format, expected YYYY-MM" err)
  | Ok _ => GetBudgetsByMonth userID month budgets
  end.

Record monthly : Type := mkMonthly {
  monthlyIncome : F;
  monthlyExpenses : F;
  categorySpending : gmap string F;
}.

(** The accumulation loop of [GetFinancialSummaryWithBudgets]. *)
Definition monthly_step (acc : monthly) (transaction : Transaction F)
    : monthly :=
  if String.eqb (Type_ transaction) TransactionTypeIncome then
    {| monthlyIncome := f_add (monthlyIncome acc) (Amount transaction);
       monthlyExpenses := monthlyExpenses acc;
       categorySpending := categorySpending acc |}
  else if String.eqb (Type_ transaction) TransactionTypeExpense then
    {| monthlyIncome := monthlyIncome acc;
       monthlyExpenses :=
         f_add (monthlyExpenses acc) (f_opp (Amount transaction));
       categorySpending :=
         <[Category transaction :=
             f_add (default f_zero
                      (categorySpending acc !! Category transaction))
                   (f_opp (Amount transaction))]> (categorySpending acc) |}
  else acc.

(** [budgetMap[budget.Category] = budget] over the budgets listed. *)
Definition budget_map (budgets : list (Budget F)) : gmap string (Budget F) :=
  foldl (fun m budget => <[b_Category budget := budget]> m) ∅ budgets.

(** [allCategories]: the categories spent on, then those budgeted. *)
Definition all_categories (categorySpending : gmap string F)
    (budgets : list (Budget F)) : gmap string bool :=
  foldl (fun m budget => <[b_Category budget := true]> m)
    (foldl (fun m category => <[category := true]> m) ∅
       (map_to_list categorySpending).*1)
    budgets.

(** The body of [for category := range allCategories]. *)
Definition budget_row (categorySpending : gmap string F)
    (budgetMap : gmap string (Budget F)) (category : string)
    : CategoryBudgetBreakdown :=
  let spent := default f_zero (categorySpending !! category) in
  let budgetAmount :=
    match budgetMap !! category with
    | Some budget => b_Amount budget
    | None => f_zero
    end in
  {| cbb_Category := category; cbb_Amount := spent;
     cbb_Budget := budgetAmount;
     cbb_Remaining := f_sub budgetAmount spent |}.

Definition budget_category_le (a b : CategoryBudgetBreakdown) : Prop :=
  String.le (cbb_Category a) (cbb_Category b).

#[export] Instance budget_category_le_dec : RelDecision budget_category_le.
Proof. intros a b. unfold budget_category_le. apply _. Defined.

(** [GetFinancialSummaryWithBudgets] over the DynamoDB repository: [tbl]
    holds the transaction items, [budgets] the budget items. Go ranges
    over [allCategories] in no particular order; the rows carry distinct
    categories, so the slice sorted by category does not depend on it. *)
Definition GetFinancialSummaryWithBudgets (userID month : string)
    (tbl : Table F) (budgets : gmap (string * string) (Budget F))
    : result MonthlyAnalyticsWithBudget :=
  if String.eqb userID "" || String.eqb month "" then
    Err (Errorf "userID and month are required")
  else
    match GetTransactionsByMonth userID month 1000 tbl with
    | Err err => Err (Wrapf "failed to get transactions for month" err)
    | Ok transactions =>
        let acc :=
          foldl monthly_step
            {| monthlyIncome := f_zero; monthlyExpenses := f_zero;
               categorySpending := ∅ |} transactions in
        match BudgetService_GetBudgetsByMonth userID month budgets with
        | Err err => Err (Wrapf "failed to get budgets" err)
        | Ok budgets =>
            let budgetMap := budget_map budgets in
            let allCategories :=
              all_categories (categorySpending acc) budgets in
            let categoryBreakdown :=
              budget_row (categorySpending acc) budgetMap
                <$> (map_to_list allCategories).*1 in
            Ok {| mab_Month := month;
                  mab_TotalIncome := monthlyIncome acc;
                  mab_TotalExpense := monthlyExpenses acc;
                  mab_Balance :=
                    f_sub (monthlyIncome acc) (monthlyExpenses acc);
                  mab_CategoryBreakdown :=
                    merge_sort budget_category_le categoryBreakdown;
                  mab_TransactionCount := Z.of_nat (length transactions) |}
        end
    end.

End BudgetAnalytics.

Arguments CategoryBudgetBreakdown F : clear implicits.
Arguments MonthlyAnalyticsWithBudget F : clear implicits.
Arguments monthly F : clear implicits.


(** * Vocabulary of the statements *)

Section Vocabulary.
Context {F : Type} `{Number F}.

Definition signed_sum (amounts : list F) : F := foldl f_add f_zero amounts.

Definition is_income (t : Transaction F) : Prop :=
  String.eqb (Type_ t) TransactionTypeIncome = true.

#[export] Instance is_income_dec t : Decision (is_income t).
Proof. unfold is_income. apply _. Defined.

(** No entry of the category map has its percentage set by the loops. *)
Definition percentage_unset (m : gmap string (CategoryBreakdown F)) : Prop :=
  map_Forall (fun _ b => cb_Percentage b = f_zero) m.

(** The state of an aggregation loop when every expense seen carries the
    category [c]: nothing yet, or the one entry of [c], whose amount is
    the total. *)
Definition one_category (c : string) (acc : analyticsService.totals (F:=F))
    : Prop :=
  (analyticsService.categoryMap acc = ∅ /\
   analyticsService.totalExpenses acc = f_zero) \/
  exists b, analyticsService.categoryMap acc = {[c := b]} /\
            cb_Amount b = analyticsService.totalExpenses acc.

Definition write_request (now : Time) (tx : Transaction F) : WriteRequest F :=
  {| PutRequest :=
       GenerateKeys (set_bookkeeping (GenerateKeys tx) now now (Version tx)) |}.

Definition request_key (r : WriteRequest F) : string * string :=
  primary_key (PutRequest r).

(** What the store writes of a request under a response. *)
Definition processed_of (left_over : Item F -> bool)
    (requests : list (WriteRequest F)) : list (WriteRequest F) :=
  filter (fun r => left_over (PutRequest r) = false) requests.

(** What the store leaves of a request under a response. *)
Definition left_over_of (left_over : Item F -> bool)
    (requests : list (WriteRequest F)) : list (WriteRequest F) :=
  filter (fun r => left_over (PutRequest r) = true) requests.

Definition matching (input : QueryInput) (tbl : Table F) : list (Item F) :=
  filter (fun it => key_matches (KeyCondition input) it = true)
         (snd <$> map_to_list tbl).

Definition scan_order (input : QueryInput) (a b : Item F) : Prop :=
  match ScanIndexForward input with
  | Some false => sort_le (IndexName input) b a
  | _ => sort_le (IndexName input) a b
  end.

(** Every item sits under its own primary key. *)
Definition well_keyed (tbl : Table F) : Prop :=
  forall k it, tbl !! k = Some it -> k = primary_key it.

Definition in_category (c : string) (t : Transaction F) : Prop :=
  Category t = c.

#[export] Instance in_category_dec c t : Decision (in_category c t).
Proof. unfold in_category. apply _. Defined.

(** What the ingestion tool leaves in the table: a sort key [TX#...] and
    no version attribute. *)
Definition seed_written (it : Item F) : Prop :=
  begins_with (SK it) "TX#" = true /\ Version it = 0.

(** What the service's create path and [NewTransaction] leave: the
    generated sort key and a version other than 0. *)
Definition service_written (it : Item F) : Prop :=
  SK it = SK (GenerateKeys it) /\ Version it <> 0.

End Vocabulary.

Definition conflict : error :=
  Errorf "transaction was modified by another process, please retry".

(** A binary64 value that is neither an infinity nor a NaN, on its
    specification. *)
Definition finite_SF (x : spec_float) : Prop :=
  match x with
  | S754_zero _ | S754_finite _ _ _ => True
  | _ => False
  end.

Definition entry {F} (id : string) (date : Time) (amount : F)
    (category type : string) : Transaction F :=
  GenerateKeys
    {| ID := id; Date := date; Amount := amount;
       Description := "entry"; Category := category; Type_ := type;
       UserID := "u1"; PK := ""; SK := ""; GSI1PK := ""; GSI1SK := "";
       GSI2PK := ""; GSI2SK := "";
       CreatedAt := 1700000000; UpdatedAt := 1700000000; Version := 1 |}.

(** What the example fixes of each transaction. *)
Definition shape (t : Transaction float) : Time * float * string * string :=
  (Date t, Amount t, Category t, Type_ t).

(** What a service list call uses when the caller's limit is not
    positive. *)
Definition effective_limit (limit : Z) : Z := if limit <=? 0 then 50 else limit.

Definition fetched {A} (r : result (list A)) : option nat :=
  match r with
  | Ok l => Some (length l)
  | Err _ => None
  end.

Fixpoint free_of (c : ascii) (s : string) : Prop :=
  match s with
  | EmptyString => True
  | String a r => a <> c /\ free_of c r
  end.

Section BudgetVocabulary.
Context {F : Type} `{Number F}.

Definition spent_in (c : string) (t : Transaction F) : Prop :=
  String.eqb (Type_ t) TransactionTypeExpense = true /\ Category t = c.

#[export] Instance spent_in_dec c t : Decision (spent_in c t).
Proof. unfold spent_in. apply _. Defined.

(** What the month's expenses of a category add up to, negated one by
    one, in the order listed. *)
Definition spent_on (c : string) (txs : list (Transaction F)) : F :=
  foldl (fun acc t => f_add acc (f_opp (Amount t))) f_zero
    (filter (spent_in c) txs).

Definition budgeted_as (c : string) (b : Budget F) : Prop := b_Category b = c.

#[export] Instance budgeted_as_dec c b : Decision (budgeted_as c b).
Proof. unfold budgeted_as. apply _. Defined.

(** The budget that counts for a category: the last one listed with
    exactly that spelling. *)
Definition budget_for (c : string) (bs : list (Budget F)) : option (Budget F) :=
  list.last (filter (budgeted_as c) bs).

End BudgetVocabulary.

(** * Sample data *)

Definition lunch : Transaction float :=
  GenerateKeys
    {| ID := "tx1"; Date := 1705276800; Amount := (-50)%float;
       Description := "lunch"; Category := "food"; Type_ := "expense";
       UserID := "u1"; PK := ""; SK := ""; GSI1PK := ""; GSI1SK := "";
       GSI2PK := ""; GSI2SK := "";
       CreatedAt := 1700000000; UpdatedAt := 1700000000; Version := 1 |}.

(** An item as the ingestion tool writes it ([transformTransaction]):
    sort keys [TX#<date>#<id>] and no version attribute, which reads back
    as version 0. *)
Definition seeded_lunch : Item float :=
  {| ID := "tx1"; Date := 1705276800; Amount := (-50)%float;
     Description := "lunch"; Category := "food"; Type_ := "expense";
     UserID := "u1"; PK := "USER#u1"; SK := "TX#2024-01-15#tx1";
     GSI1PK := "MONTH#2024-01#u1"; GSI1SK := "TX#2024-01-15#tx1";
     GSI2PK := "CATEGORY#FOOD#u1"; GSI2SK := "TX#2024-01-15#tx1";
     CreatedAt := 1700000000; UpdatedAt := 1700000000; Version := 0 |}.

(** A table that holds one logical record twice: under the sort key the
    ingestion tool writes and under the sort key [GenerateKeys] writes. *)
Definition both_keys : Table float :=
  <[primary_key seeded_lunch := seeded_lunch]> (<[primary_key lunch := lunch]> ∅).

(** The same record as a caller of the repository may hand it to
    [CreateTransaction]: no version set, created earlier. *)
Definition plain_lunch : Transaction float :=
  {| ID := "tx1"; Date := 1705276800; Amount := (-50)%float;
     Description := "lunch"; Category := "food"; Type_ := "expense";
     UserID := "u1"; PK := ""; SK := ""; GSI1PK := ""; GSI1SK := "";
     GSI2PK := ""; GSI2SK := "";
     CreatedAt := 1600000000; UpdatedAt := 1600000000; Version := 0 |}.

(** The table after the ingestion tool wrote [seeded_lunch]. *)
Definition seeded_table : Table float :=
  <[primary_key seeded_lunch := seeded_lunch]> ∅.

(** The caller's record: a new amount, and a [CreatedAt] of its own. *)
Definition dinner : Transaction float :=
  {| ID := "tx1"; Date := 1705276800; Amount := (-75)%float;
     Description := "dinner"; Category := "food"; Type_ := "expense";
     UserID := "u1"; PK := ""; SK := ""; GSI1PK := ""; GSI1SK := "";
     GSI2PK := ""; GSI2SK := "";
     CreatedAt := 1750000000; UpdatedAt := 1750000000; Version := 7 |}.

Definition salary : Transaction float :=
  GenerateKeys
    {| ID := "tx2"; Date := 1705708800; Amount := 2000%float;
       Description := "pay"; Category := "salary"; Type_ := "income";
       UserID := "u1"; PK := ""; SK := ""; GSI1PK := ""; GSI1SK := "";
       GSI2PK := ""; GSI2SK := "";
       CreatedAt := 1700000000; UpdatedAt := 1700000000; Version := 1 |}.

(** An expense and its refund booked as a positive expense: the total
    expense is zero while two categories carry amounts. *)
Definition refunded : list (Transaction float) :=
  [entry "r1" 1705276800 (-50)%float "food" "expense";
   entry "r2" 1705363200 50%float "refund" "expense"].

(** Two expenses of [-2^1023] each in one category: their sum
    exceeds the largest binary64 value. *)
Definition overflowing : list (Transaction float) :=
  [entry "o1" 1705276800 (-0x1p1023)%float "rent" "expense";
   entry "o2" 1705363200 (-0x1p1023)%float "rent" "expense"].

Definition example_shapes : list (Time * float * string * string) :=
  [(1705276800, (-50)%float, "food", "expense");
   (1705708800, 2000%float, "salary", "income");
   (1706745600, (-30)%float, "food", "expense")].

Definition example_ledger : list (Transaction float) :=
  [entry "e1" 1705276800 (-50)%float "food" "expense";
   entry "e2" 1705708800 2000%float "salary" "income";
   entry "e3" 1706745600 (-30)%float "food" "expense"].

Definition example_summary (now : Time) : FinancialSummary float :=
  {| TotalBalance := 1920%float;
     MonthlyIncome := 2000%float;
     MonthlyExpenses := (-80)%float;
     AvailableMoney := 1920%float;
     SavingsRate := 96%float;
     fs_CategoryBreakdown :=
       [{| cb_Category := "food"; cb_Amount := 80%float;
           cb_Percentage := 100%float; cb_Count := 2; cb_Color := "" |}];
     MonthlyTrend := 0%float;
     Timestamp := now |}.

Definition undated : Transaction float :=
  {| ID := "tx9"; Date := zero_time; Amount := (-50)%float;
     Description := "lunch"; Category := "food"; Type_ := "expense";
     UserID := "u1"; PK := ""; SK := ""; GSI1PK := ""; GSI1SK := "";
     GSI2PK := ""; GSI2SK := "";
     CreatedAt := zero_time; UpdatedAt := zero_time; Version := 0 |}.

Definition uncategorized : list (Transaction float) :=
  [entry "e1" 1705276800 (-50)%float "food" "expense";
   entry "e4" 1705363200 (-5)%float "" "expense"].

(** Sixty items of user [u1] under sort keys [TX#100] ... [TX#159]. *)
Definition seeded (i : Z) : Item float :=
  {| ID := "s" +:+ pretty i; Date := 1705276800 + i; Amount := (-1)%float;
     Description := "seed"; Category := "food"; Type_ := "expense";
     UserID := "u1"; PK := "USER#u1"; SK := "TX#" +:+ pretty i;
     GSI1PK := "MONTH#2024-01#u1"; GSI1SK := "TX#" +:+ pretty i;
     GSI2PK := "CATEGORY#FOOD#u1"; GSI2SK := "TX#" +:+ pretty i;
     CreatedAt := 1700000000; UpdatedAt := 1700000000; Version := 1 |}.

Definition crowded : Table float :=
  list_to_map ((fun i => (primary_key (seeded i), seeded i)) <$> seqZ 100 60).

Definition food_budget : Budget float :=
  {| b_ID := ""; b_UserID := "u1"; b_Category := "Food";
     b_Month := "2024-01"; b_Amount := 200%float;
     b_CreatedAt := zero_time; b_UpdatedAt := zero_time;
     b_PK := ""; b_SK := "" |}.

Definition stored_food_budget : Budget float :=
  Budget_GenerateKeys
    (set_budget_bookkeeping food_budget "b-1" 1700000000 1700000000).

Definition ana : User :=
  {| u_ID := "u1"; u_Email := "ana@example.com"; u_Name := "Ana";
     u_CreatedAt := zero_time; u_UpdatedAt := zero_time;
     u_PK := ""; u_SK := "" |}.

Definition impostor : User :=
  {| u_ID := "u1"; u_Email := "eve@example.com"; u_Name := "Eve";
     u_CreatedAt := zero_time; u_UpdatedAt := zero_time;
     u_PK := ""; u_SK := "" |}.

(** A store's report that leaves the salary unprocessed. *)
Definition leaves_salary (it : Item float) : bool := String.eqb (ID it) "tx2".

(** * Properties *)

(** ** Keys and the codec *)

Section KeyFacts.
Context {F : Type} `{Number F}.

Lemma GenerateKeys_idempotent (t : Transaction F) :
  GenerateKeys (GenerateKeys t) = GenerateKeys t.
Proof. reflexivity. Qed.

(** The sort key [GenerateKeys] writes starts with [TRANSACTION#]; the
    prefix the user-partition queries ask for is [TX#]. *)
Lemma GenerateKeys_SK_not_TX (t : Transaction F) :
  begins_with (SK (GenerateKeys t)) "TX#" = false.
Proof. reflexivity. Qed.

Lemma unmarshal_items_all (items : list (Item F)) :
  unmarshal_items items = items.
Proof.
  unfold unmarshal_items.
  enough (Hgen : forall acc, foldl (fun transactions item =>
             match FromDynamoDBItem item with
             | Err _ => transactions
             | Ok transaction => transactions ++ [transaction]
             end) acc items = acc ++ items) by apply (Hgen []).
  induction items as [|it items IH]; intros acc; simpl.
  - by rewrite app_nil_r.
  - rewrite IH, <- app_assoc. reflexivity.
Qed.

(** What the query of [GetTransaction] returns: the items of the user's
    partition whose sort key starts with [TX#], each once. *)
Lemma GetTransaction_query (userID : string) (tbl : Table F) :
  exists items,
    Query (GetTransaction_input userID) tbl = Ok items /\
    items ≡ₚ filter (fun it => key_matches
                 (PK_eq_AND_begins_with_SK ("USER#" +:+ userID) "TX#") it = true)
               (map_to_list tbl).*2.
Proof.
  eexists. split; [reflexivity|]. simpl. apply merge_sort_Permutation.
Qed.

Lemma filter_by_id_not_found (transactionID : string) (items : list (Item F)) :
  Forall (fun it => ID it <> transactionID) items ->
  filter_by_id transactionID items = Err (Errorf "transaction not found").
Proof.
  induction 1 as [|it items Hne _ IH]; simpl; [reflexivity|].
  destruct (String.eqb_spec (ID it) transactionID); [contradiction|exact IH].
Qed.

Lemma filter_by_id_found (transactionID : string) (items : list (Item F))
    (t : Transaction F) :
  t ∈ items -> ID t = transactionID ->
  (forall x, x ∈ items -> ID x = transactionID -> x = t) ->
  filter_by_id transactionID items = Ok t.
Proof.
  induction items as [|it items IH]; intros Hin Hid Huniq.
  - by apply not_elem_of_nil in Hin.
  - simpl. destruct (String.eqb_spec (ID it) transactionID) as [Heq|Hne].
    + f_equal. apply Huniq; [left|exact Heq].
    + apply elem_of_cons in Hin as [->|Hin]; [contradiction|].
      apply IH; [exact Hin|exact Hid|].
      intros x Hx. apply Huniq. by right.
Qed.

Lemma filter_by_id_Ok (transactionID : string) (items : list (Item F))
    (t : Transaction F) :
  filter_by_id transactionID items = Ok t ->
  t ∈ items /\ ID t = transactionID.
Proof.
  induction items as [|it items IH]; simpl; [discriminate|].
  destruct (String.eqb_spec (ID it) transactionID) as [Heq|Hne].
  - intros [= <-]. split; [left|exact Heq].
  - intros Hr. destruct (IH Hr) as [Hin Hid]. split; [by right|exact Hid].
Qed.

(** [GetTransaction] fails with "transaction not found" when no item of
    the user's partition that the query matches carries the id. *)
Lemma GetTransaction_not_found (userID transactionID : string) (tbl : Table F) :
  (forall k it, tbl !! k = Some it ->
     PK it = "USER#" +:+ userID -> begins_with (SK it) "TX#" = true ->
     ID it <> transactionID) ->
  GetTransaction userID transactionID tbl = Err (Errorf "transaction not found").
Proof.
  intros Habsent. unfold GetTransaction.
  destruct (GetTransaction_query userID tbl) as (items & -> & Hperm).
  apply filter_by_id_not_found, list.Forall_forall. intros it Hin.
  rewrite Hperm in Hin. apply list_elem_of_filter in Hin as [Hm Hin].
  apply list_elem_of_fmap in Hin as ([k it'] & -> & Hin).
  apply elem_of_map_to_list in Hin. simpl in *.
  apply andb_prop in Hm as [Hpk Hsk].
  apply String.eqb_eq in Hpk. eauto.
Qed.

(** [GetTransaction] returns an item whose sort key does start with
    [TX#] (the form the ingestion tool under cmd/seed writes) when it is
    the only one of the partition with that id. *)
Lemma GetTransaction_found (userID : string) (tbl : Table F) (k : string * string)
    (t : Item F) :
  tbl !! k = Some t ->
  PK t = "USER#" +:+ userID -> begins_with (SK t) "TX#" = true ->
  (forall k' it, tbl !! k' = Some it -> PK it = PK t -> ID it = ID t -> it = t) ->
  GetTransaction userID (ID t) tbl = Ok t.
Proof.
  intros Hk Hpk Hsk Huniq. unfold GetTransaction.
  destruct (GetTransaction_query userID tbl) as (items & -> & Hperm).
  apply filter_by_id_found; [|reflexivity|].
  - rewrite Hperm. apply list_elem_of_filter. split.
    + simpl. rewrite Hpk, String.eqb_refl, Hsk. reflexivity.
    + apply list_elem_of_fmap. exists (k, t). split; [reflexivity|].
      by apply elem_of_map_to_list.
  - intros x Hx Hid. rewrite Hperm in Hx.
    apply list_elem_of_filter in Hx as [Hm Hx].
    apply list_elem_of_fmap in Hx as ([k' it'] & -> & Hx).
    apply elem_of_map_to_list in Hx. simpl in *.
    apply andb_prop in Hm as [Hpk' _]. apply String.eqb_eq in Hpk'.
    apply (Huniq k'); [exact Hx|congruence|exact Hid].
Qed.

(** [CreateTransaction] on a table that holds nothing under the key. *)
Lemma CreateTransaction_fresh (t : Transaction F) (tbl : Table F) :
  tbl !! primary_key (GenerateKeys t) = None ->
  CreateTransaction t tbl
  = Ok (<[primary_key (GenerateKeys t) := GenerateKeys t]> tbl).
Proof.
  intros Hfresh. unfold CreateTransaction, ToDynamoDBItem, PutItem.
  cbn [put_Item put_ConditionExpression]. rewrite Hfresh. reflexivity.
Qed.

Lemma CreateTransaction_exists (t : Transaction F) (tbl : Table F) :
  is_Some (tbl !! primary_key (GenerateKeys t)) ->
  CreateTransaction t tbl
  = Err (Wrapf "failed to create transaction" ConditionalCheckFailedException).
Proof.
  intros [it Hit]. unfold CreateTransaction, ToDynamoDBItem, PutItem.
  cbn [put_Item put_ConditionExpression]. rewrite Hit. reflexivity.
Qed.

(** In a table all of whose items carry the keys [GenerateKeys] gives
    them, the query of [GetTransaction] matches nothing. *)
Lemma GetTransaction_generated_keys (userID transactionID : string)
    (tbl : Table F) :
  (forall k it, tbl !! k = Some it -> SK it = SK (GenerateKeys it)) ->
  GetTransaction userID transactionID tbl = Err (Errorf "transaction not found").
Proof.
  intros Hgen. apply GetTransaction_not_found.
  intros k it Hit _ Hsk. rewrite (Hgen k it Hit) in Hsk.
  rewrite GenerateKeys_SK_not_TX in Hsk. discriminate.
Qed.

End KeyFacts.

(** ** Queries *)

Section QueryFacts.
Context {F : Type} `{Number F}.

#[export] Instance sort_le_total index : Total (sort_le (F:=F) index).
Proof. intros a b. unfold sort_le. apply String.le_total. Qed.

Lemma Sorted_take {A} (R : relation A) (n : nat) (l : list A) :
  Sorted R l -> Sorted R (take n l).
Proof.
  intros Hs. revert n. induction Hs as [|x l Hs IH Hhd]; intros n.
  - rewrite take_nil. constructor.
  - destruct n as [|n]; simpl; [constructor|].
    constructor; [apply IH|].
    destruct Hhd as [|y l' Hxy]; destruct n; simpl; by constructor.
Qed.

(** Every query answers with items of the table that satisfy its key
    condition, in the order of the scan. *)
Lemma Query_sound (input : QueryInput) (tbl : Table F) (items : list (Item F)) :
  Query input tbl = Ok items ->
  items ⊆ matching input tbl /\ Sorted (scan_order input) items.
Proof.
  unfold Query. fold (matching input tbl).
  set (sorted := merge_sort (sort_le (IndexName input)) (matching input tbl)).
  set (ordered := match ScanIndexForward input with
                  | Some false => reverse sorted
                  | _ => sorted
                  end).
  assert (Hsub : ordered ⊆ matching input tbl).
  { intros x Hx. unfold ordered in Hx.
    assert (Hs : x ∈ sorted) by (repeat case_match; by rewrite ?elem_of_reverse in Hx).
    unfold sorted in Hs. by rewrite merge_sort_Permutation in Hs. }
  assert (Hsorted : Sorted (scan_order input) ordered).
  { unfold ordered, scan_order.
    pose proof (Sorted_merge_sort (sort_le (IndexName input))
                  (matching input tbl)) as Hs. fold sorted in Hs.
    destruct (ScanIndexForward input) as [[|]|]; try exact Hs.
    exact (Sorted_reverse _ _ Hs). }
  destruct (Limit input) as [n|].
  - destruct (Z.leb_spec n 0); [discriminate|]. intros [= <-]. split.
    + etrans; [apply subseteq_take|exact Hsub].
    + by apply Sorted_take.
  - intros [= <-]. by split.
Qed.

(** A query whose limit is positive and not below the size of the table
    answers with all the items that satisfy its key condition. *)
Lemma Query_complete (input : QueryInput) (tbl : Table F) (n : Z) :
  Limit input = Some n -> 0 < n -> (size tbl <= Z.to_nat n)%nat ->
  exists items, Query input tbl = Ok items /\ items ≡ₚ matching input tbl.
Proof.
  intros Hl Hn Hsize. unfold Query. fold (matching input tbl). rewrite Hl.
  destruct (Z.leb_spec n 0); [lia|].
  set (sorted := merge_sort (sort_le (IndexName input)) (matching input tbl)).
  set (ordered := match ScanIndexForward input with
                  | Some false => reverse sorted
                  | _ => sorted
                  end).
  assert (Hperm : ordered ≡ₚ matching input tbl).
  { unfold ordered, sorted.
    repeat case_match; rewrite ?reverse_Permutation;
      apply merge_sort_Permutation. }
  exists (take (Z.to_nat n) ordered). split; [reflexivity|].
  rewrite take_ge; [exact Hperm|].
  rewrite Hperm. unfold matching.
  etrans; [apply length_filter|].
  rewrite length_fmap, length_map_to_list. exact Hsize.
Qed.

Lemma elem_of_matching (input : QueryInput) (tbl : Table F) (it : Item F) :
  it ∈ matching input tbl <->
  key_matches (KeyCondition input) it = true /\ exists k, tbl !! k = Some it.
Proof.
  unfold matching. rewrite list_elem_of_filter, list_elem_of_fmap.
  split; intros [Hm Hex]; (split; [exact Hm|]).
  - destruct Hex as ([k it'] & -> & Hin). exists k.
    by apply elem_of_map_to_list in Hin.
  - destruct Hex as [k Hk]. exists (k, it). split; [reflexivity|].
    by apply elem_of_map_to_list.
Qed.

Lemma CreateTransaction_inv (t : Transaction F) (tbl tbl' : Table F) :
  CreateTransaction t tbl = Ok tbl' ->
  tbl !! primary_key (GenerateKeys t) = None /\
  tbl' = <[primary_key (GenerateKeys t) := GenerateKeys t]> tbl.
Proof.
  unfold CreateTransaction, ToDynamoDBItem, PutItem.
  cbn [put_Item put_ConditionExpression].
  destruct (tbl !! primary_key (GenerateKeys t)) eqn:E; simpl;
    [discriminate|]. intros [= <-]. done.
Qed.

End QueryFacts.

(** ** Tables whose items sit under their own keys *)

Section TableFacts.
Context {F : Type} `{Number F}.

Lemma well_keyed_insert (tbl : Table F) (it : Item F) :
  well_keyed tbl -> well_keyed (<[primary_key it := it]> tbl).
Proof.
  intros Hw k it' Hk.
  apply lookup_insert_Some in Hk as [[<- <-]|[_ Hk]]; [reflexivity|].
  by apply Hw.
Qed.

Lemma well_keyed_delete (tbl : Table F) (k : string * string) :
  well_keyed tbl -> well_keyed (delete k tbl).
Proof.
  intros Hw k' it Hk. apply lookup_delete_Some in Hk as [_ Hk]. by apply Hw.
Qed.

End TableFacts.

Section DeleteFacts.
Context {F : Type} `{Number F}.

Lemma GetTransaction_inv (userID id : string) (tbl : Table F)
    (t : Transaction F) :
  GetTransaction userID id tbl = Ok t ->
  ID t = id /\ PK t = "USER#" +:+ userID /\
  begins_with (SK t) "TX#" = true /\ exists k, tbl !! k = Some t.
Proof.
  unfold GetTransaction.
  destruct (Query (GetTransaction_input userID) tbl) as [items|] eqn:E;
    [|discriminate].
  intros Hf. apply filter_by_id_Ok in Hf as [Hin Hid].
  apply Query_sound in E as [Hsub _].
  apply Hsub, elem_of_matching in Hin as [Hm Hex].
  cbn in Hm. apply andb_prop in Hm as [Hpk Hsk].
  apply String.eqb_eq in Hpk. auto.
Qed.

End DeleteFacts.

(** The record [CreateTransaction] writes into the empty table is not
    found by the lookup by id. *)
Lemma GetTransaction_after_create {F : Type} `{Number F} (t : Transaction F) :
  GetTransaction (UserID t) (ID t)
    (<[primary_key (GenerateKeys t) := GenerateKeys t]> ∅)
  = Err (Errorf "transaction not found").
Proof.
  apply GetTransaction_generated_keys. intros k it Hit.
  apply lookup_insert_Some in Hit as [[_ <-]|[_ Hit]]; [reflexivity|].
  by rewrite lookup_empty in Hit.
Qed.

(** C1 (defect). A transaction stored by [CreateTransaction] is not found
    by [GetTransaction]: the record is written under the sort key
    [TRANSACTION#<unix>#<id>] while the lookup queries the partition for
    sort keys starting with [TX#], so for every transaction [t] the
    creation on the empty table succeeds, the record is in the table, and
    the lookup by its user and id fails with "transaction not found". *)
Theorem GetTransaction_misses_created {F : Type} `{Number F} (t : Transaction F) :
  exists tbl,
    CreateTransaction t ∅ = Ok tbl /\
    tbl !! primary_key (GenerateKeys t) = Some (GenerateKeys t) /\
    GetTransaction (UserID t) (ID t) tbl = Err (Errorf "transaction not found").
Proof.
  exists (<[primary_key (GenerateKeys t) := GenerateKeys t]> ∅).
  split; [apply CreateTransaction_fresh, lookup_empty|].
  split; [apply lookup_insert_eq|].
  apply GetTransaction_after_create.
Qed.

(** ** Optimistic concurrency *)

Section UpdateFacts.
Context {F : Type} `{Number F}.

(** The conditional put goes through when the record under the key to be
    written carries the version that was read. *)
Lemma UpdateTransaction_write_ok (existing t stored : Transaction F)
    (tbl : Table F) :
  tbl !! primary_key (GenerateKeys t) = Some stored ->
  Version stored = Version existing ->
  UpdateTransaction_write existing t tbl
  = Ok (GenerateKeys t, <[primary_key (GenerateKeys t) := GenerateKeys t]> tbl).
Proof.
  intros Hst Hv. unfold UpdateTransaction_write, ToDynamoDBItem, PutItem.
  cbn [put_Item put_ConditionExpression]. rewrite Hst. simpl.
  rewrite Hv, Z.eqb_refl. reflexivity.
Qed.

(** It is refused, with the conflict error and no write, when the key
    holds another version or nothing. *)
Lemma UpdateTransaction_write_conflict (existing t : Transaction F)
    (tbl : Table F) :
  (forall stored, tbl !! primary_key (GenerateKeys t) = Some stored ->
     Version stored <> Version existing) ->
  UpdateTransaction_write existing t tbl = Err conflict.
Proof.
  intros Hst. unfold UpdateTransaction_write, ToDynamoDBItem, PutItem.
  cbn [put_Item put_ConditionExpression].
  destruct (tbl !! primary_key (GenerateKeys t)) as [stored|] eqn:E; simpl.
  - destruct (Z.eqb_spec (Version stored) (Version existing)) as [Heq|_];
      [|reflexivity].
    exfalso. exact (Hst stored eq_refl Heq).
  - reflexivity.
Qed.

(** Two updates prepared against the same read: once the first has
    written, the second is refused. *)
Lemma UpdateTransaction_write_race (existing t1 t2 : Transaction F)
    (tbl tbl1 : Table F) (w1 : Transaction F) :
  primary_key (GenerateKeys t2) = primary_key (GenerateKeys t1) ->
  Version t1 <> Version existing ->
  UpdateTransaction_write existing t1 tbl = Ok (w1, tbl1) ->
  UpdateTransaction_write existing t2 tbl1 = Err conflict.
Proof.
  intros Hkey Hv Hw1. unfold UpdateTransaction_write, ToDynamoDBItem, PutItem in Hw1.
  cbn [put_Item put_ConditionExpression] in Hw1.
  destruct (eval_condition _ _); [|discriminate].
  injection Hw1 as <- <-.
  apply UpdateTransaction_write_conflict. intros stored.
  rewrite Hkey, lookup_insert_eq. intros [= <-]. exact Hv.
Qed.

Lemma UpdateTransaction_inv (now : Time) (t t' : Transaction F)
    (tbl tbl' : Table F) :
  UpdateTransaction now t tbl = Ok (t', tbl') ->
  exists existing stored,
    Validate t = Ok tt /\
    GetTransaction (UserID t) (ID t) tbl = Ok existing /\
    t' = GenerateKeys (set_bookkeeping t (CreatedAt existing) now
                                       (int (Version existing + 1))) /\
    tbl !! primary_key t' = Some stored /\
    Version stored = Version existing /\
    tbl' = <[primary_key t' := t']> tbl.
Proof.
  unfold UpdateTransaction, UpdateTransaction_read.
  destruct (Validate t) as [[]|e]; [|discriminate].
  destruct (GetTransaction (UserID t) (ID t) tbl) as [existing|e];
    [|discriminate].
  unfold UpdateTransaction_write, ToDynamoDBItem, PutItem.
  cbn [put_Item put_ConditionExpression].
  rewrite GenerateKeys_idempotent.
  set (w := GenerateKeys _).
  destruct (tbl !! primary_key w) as [stored|] eqn:E; simpl;
    [|discriminate].
  destruct (Z.eqb_spec (Version stored) (Version existing)) as [Hv|_];
    [|discriminate].
  intros [= <- <-]. exists existing, stored. rewrite E. auto 10.
Qed.

Lemma UpdateTransaction_success (now : Time) (t existing stored : Transaction F)
    (tbl : Table F) :
  Validate t = Ok tt ->
  GetTransaction (UserID t) (ID t) tbl = Ok existing ->
  tbl !! primary_key (GenerateKeys t) = Some stored ->
  Version stored = Version existing ->
  let t' := GenerateKeys (set_bookkeeping t (CreatedAt existing) now
                                          (int (Version existing + 1))) in
  UpdateTransaction now t tbl = Ok (t', <[primary_key t' := t']> tbl).
Proof.
  intros Hv Hget Hst Hver t'. unfold UpdateTransaction, UpdateTransaction_read.
  rewrite Hv, Hget.
  exact (UpdateTransaction_write_ok existing
           (set_bookkeeping t (CreatedAt existing) now
              (int (Version existing + 1))) stored tbl Hst Hver).
Qed.

End UpdateFacts.

(** C2 (defect). A transaction stored by [CreateTransaction] cannot be
    updated: the re-read of [UpdateTransaction] goes through
    [GetTransaction], which does not find the record (see
    [GetTransaction_after_create]), so for every valid transaction the
    update after its creation fails with "transaction not found" and no
    version [v+1] is written. *)
Theorem UpdateTransaction_after_create_fails {F : Type} `{Number F}
    (now : Time) (t : Transaction F) :
  Validate t = Ok tt ->
  exists tbl,
    CreateTransaction t ∅ = Ok tbl /\
    UpdateTransaction now t tbl
    = Err (Wrapf "transaction not found" (Errorf "transaction not found")).
Proof.
  intros Hvalid.
  exists (<[primary_key (GenerateKeys t) := GenerateKeys t]> ∅).
  split; [apply CreateTransaction_fresh, lookup_empty|].
  unfold UpdateTransaction, UpdateTransaction_read.
  rewrite Hvalid, GetTransaction_after_create. reflexivity.
Qed.

Lemma UpdateTransaction_after_create_fails_witness :
  exists tbl,
    CreateTransaction lunch ∅ = Ok tbl /\
    UpdateTransaction 1800000000 lunch tbl
    = Err (Wrapf "transaction not found" (Errorf "transaction not found")).
Proof.
  apply (UpdateTransaction_after_create_fails 1800000000 lunch).
  reflexivity.
Defined.



(** ** Aggregation *)

Section AnalyticsFacts.
Context {F : Type} `{Number F}.

Lemma analytics_step_totals (init : MonthlyAnalytics F)
    (txs : list (Transaction F)) :
  ma_TotalIncome (foldl analytics_step init txs)
  = foldl f_add (ma_TotalIncome init) (Amount <$> filter is_income txs) /\
  ma_TotalExpense (foldl analytics_step init txs)
  = foldl f_add (ma_TotalExpense init)
      (Amount <$> filter (fun t => ~ is_income t) txs).
Proof.
  revert init. induction txs as [|t txs IH]; intros init; [done|].
  cbn [foldl]. destruct (IH (analytics_step init t)) as [-> ->].
  rewrite !filter_cons. unfold analytics_step.
  cbn [ma_TotalIncome ma_TotalExpense].
  destruct (decide (is_income t)) as [Hin|Hin].
  - rewrite decide_False by auto. unfold is_income in Hin. by rewrite Hin.
  - rewrite decide_True by auto. unfold is_income in Hin.
    apply not_true_is_false in Hin. by rewrite Hin.
Qed.

(** [GetMonthlyAnalytics] adds the amounts as they are stored: the total
    expense is the signed sum of the amounts of the transactions that are
    not income, and the balance is that sum subtracted from the income. *)
Lemma analytics_of_totals (month : string) (txs : list (Transaction F)) :
  let a := analytics_of month txs in
  ma_TotalIncome a = signed_sum (Amount <$> filter is_income txs) /\
  ma_TotalExpense a
  = signed_sum (Amount <$> filter (fun t => ~ is_income t) txs) /\
  ma_Balance a = f_sub (ma_TotalIncome a) (ma_TotalExpense a).
Proof.
  unfold analytics_of. cbn [ma_TotalIncome ma_TotalExpense ma_Balance].
  destruct (analytics_step_totals
    {| ma_Month := month; ma_TotalIncome := f_zero;
       ma_TotalExpense := f_zero; ma_Balance := f_zero;
       ma_CategoryBreakdown := ∅; ma_TransactionCount := 0 |} txs) as [-> ->].
  done.
Qed.

End AnalyticsFacts.

(** C3 (defect). With expenses stored as negative amounts,
    [GetMonthlyAnalytics] reports the total expense with its sign, not as
    an absolute value, and the balance it derives is the income plus the
    spending: for January 2024 holding an income of 2000 and an expense
    of -50 it returns TotalIncome 2000, TotalExpense -50 and Balance
    2050. *)
Theorem GetMonthlyAnalytics_signed_expense :
  exists tbl1 tbl2 analytics,
    CreateTransaction salary ∅ = Ok tbl1 /\
    CreateTransaction lunch tbl1 = Ok tbl2 /\
    GetMonthlyAnalytics "u1" "2024-01" tbl2 = Ok analytics /\
    ma_TotalIncome analytics = 2000%float /\
    ma_TotalExpense analytics = (-50)%float /\
    ma_Balance analytics = 2050%float /\
    ma_TransactionCount analytics = 2.
Proof.
  exists (<[primary_key salary := salary]> ∅),
         (<[primary_key lunch := lunch]> (<[primary_key salary := salary]> ∅)),
         (analytics_of "2024-01" [salary; lunch]).
  split; [apply (CreateTransaction_fresh salary); apply lookup_empty|].
  split; [apply (CreateTransaction_fresh lunch); vm_compute; reflexivity|].
  split.
  - unfold GetMonthlyAnalytics.
    assert (Hq : GetTransactionsByMonth "u1" "2024-01" 1000
                   (<[primary_key lunch := lunch]>
                      (<[primary_key salary := salary]> ∅))
                 = Ok [salary; lunch]) by (vm_compute; reflexivity).
    rewrite Hq. reflexivity.
  - vm_compute. auto.
Qed.


(** ** Category percentages *)

Section PercentageFacts.
Import analyticsService.
Context {F : Type} `{Number F}.

Lemma add_expense_unset m (t : Transaction F) :
  percentage_unset m -> percentage_unset (add_expense m t).
Proof.
  intros Hm. unfold add_expense. apply map_Forall_insert_2; [|exact Hm].
  cbn [cb_Percentage].
  destruct (m !! Category t) as [b|] eqn:E; [exact (Hm _ _ E)|reflexivity].
Qed.

Lemma summary_totals_unset (txs : list (Transaction F)) :
  percentage_unset (categoryMap (summary_totals txs)).
Proof.
  unfold summary_totals. induction txs as [|t txs IH] using rev_ind.
  - apply map_Forall_empty.
  - rewrite foldl_snoc. unfold summary_step at 1.
    repeat case_match; cbn [categoryMap]; auto using add_expense_unset.
Qed.

Lemma breakdown_totals_unset (txs : list (Transaction F)) :
  percentage_unset (categoryMap (breakdown_totals txs)).
Proof.
  unfold breakdown_totals. induction txs as [|t txs IH] using rev_ind.
  - apply map_Forall_empty.
  - rewrite foldl_snoc. unfold breakdown_step at 1.
    repeat case_match; cbn [categoryMap]; auto using add_expense_unset.
Qed.

(** When all expenses carry one category, its entry accumulates the very
    additions the total does. *)
Lemma add_expense_single (c : string) (acc : totals) (t : Transaction F) :
  Category t = c ->
  one_category c acc ->
  one_category c
    {| totalIncome := totalIncome acc;
       totalExpenses := f_add (totalExpenses acc) (f_opp (Amount t));
       categoryMap := add_expense (categoryMap acc) t |}.
Proof.
  intros Hc [[Hm Ht]|(b & Hm & Hb)]; right; unfold add_expense;
    cbn [categoryMap totalExpenses]; rewrite Hm, Hc.
  - rewrite lookup_empty, insert_empty. eexists. split; [reflexivity|].
    cbn [cb_Amount]. by rewrite Ht.
  - rewrite lookup_singleton_eq, insert_singleton_eq.
    eexists. split; [reflexivity|]. cbn [cb_Amount]. by rewrite Hb.
Qed.

Lemma summary_totals_single (c : string) (txs : list (Transaction F)) :
  Forall (fun t => String.eqb (Type_ t) TransactionTypeExpense = true ->
                   Category t = c) txs ->
  one_category c (summary_totals txs).
Proof.
  unfold summary_totals. induction txs as [|t txs IH] using rev_ind.
  - intros _. by left.
  - intros [Htxs Ht]%Forall_app. apply list.Forall_cons in Ht as [Ht _].
    rewrite foldl_snoc. specialize (IH Htxs). unfold summary_step at 1.
    destruct (String.eqb (Type_ t) TransactionTypeIncome).
    + destruct IH as [[? ?]|(b & ? & ?)]; [by left|right; by exists b].
    + destruct (String.eqb (Type_ t) TransactionTypeExpense) eqn:Ee;
        [|exact IH].
      apply add_expense_single; [by apply Ht|exact IH].
Qed.

Lemma breakdown_totals_single (c : string) (txs : list (Transaction F)) :
  Forall (fun t => String.eqb (Type_ t) TransactionTypeExpense = true ->
                   Category t = c) txs ->
  one_category c (breakdown_totals txs).
Proof.
  unfold breakdown_totals. induction txs as [|t txs IH] using rev_ind.
  - intros _. by left.
  - intros [Htxs Ht]%Forall_app. apply list.Forall_cons in Ht as [Ht _].
    rewrite foldl_snoc. specialize (IH Htxs). unfold breakdown_step at 1.
    destruct (String.eqb (Type_ t) TransactionTypeExpense) eqn:Ee;
      [|exact IH].
    apply add_expense_single; [by apply Ht|exact IH].
Qed.

(** When the guard [totalExpenses > 0] is false no division takes place
    and every percentage stays at its zero value. *)
Lemma percentages_zero (acc : totals) :
  f_ltb f_zero (totalExpenses acc) = false ->
  percentage_unset (categoryMap acc) ->
  Forall (fun b => cb_Percentage b = f_zero) (percentages acc).
Proof.
  intros Hguard Hunset. unfold percentages.
  apply list.Forall_forall. intros b Hb.
  apply list_elem_of_fmap in Hb as (b0 & -> & Hb).
  apply list_elem_of_fmap in Hb as ([c b1] & -> & Hb).
  apply elem_of_map_to_list in Hb.
  unfold with_percentage. rewrite Hguard. exact (Hunset _ _ Hb).
Qed.

End PercentageFacts.

(** IEEE comparison: a value equal to zero (of either sign) is not
    greater than zero. *)
Lemma float_eq_zero_not_gt (x : float) :
  PrimFloat.eqb x 0%float = true -> PrimFloat.ltb 0%float x = false.
Proof.
  rewrite FloatAxioms.eqb_spec, FloatAxioms.ltb_spec. unfold SFeqb, SFltb.
  change (Prim2SF 0) with (S754_zero false).
  destruct (Prim2SF x) as [s|s| |s m e]; simpl; try congruence;
    destruct s; congruence.
Qed.

(** *** Binary64: where a NaN can and cannot come from *)

Section Binary64Facts.

Lemma shr_1_nonneg (mrs : shr_record) :
  0 <= shr_m mrs -> 0 <= shr_m (shr_1 mrs).
Proof.
  destruct mrs as [m r s]. destruct m as [|[p|p|]|p]; cbn; lia.
Qed.

Lemma iter_pos_shr_1_nonneg (p : positive) (mrs : shr_record) :
  0 <= shr_m mrs -> 0 <= shr_m (@SpecFloat.iter_pos shr_record shr_1 p mrs).
Proof.
  revert mrs. induction p as [p IH|p IH|]; intros mrs Hm;
    cbn [SpecFloat.iter_pos].
  - apply IH, IH. by apply shr_1_nonneg.
  - by apply IH, IH.
  - by apply shr_1_nonneg.
Qed.

Lemma shr_fexp_nonneg (prec emax m e : Z) (l : location) :
  0 <= m -> 0 <= shr_m (fst (shr_fexp prec emax m e l)).
Proof.
  intros Hm. unfold shr_fexp, shr.
  assert (H0 : 0 <= shr_m (shr_record_of_loc m l))
    by (destruct l as [|[]]; exact Hm).
  destruct (_ - e) as [|p|p]; cbn [fst]; [exact H0| |exact H0].
  by apply iter_pos_shr_1_nonneg.
Qed.

Lemma round_nearest_even_nonneg (m : Z) (l : location) :
  0 <= m -> 0 <= round_nearest_even m l.
Proof.
  intros Hm. destruct l as [|[]]; cbn; try lia. destruct (Z.even m); lia.
Qed.

(** Rounding a non-negative mantissa gives a zero, a finite value or an
    infinity. *)
Lemma binary_round_aux_not_nan (prec emax : Z) (sx : bool) (mx ex : Z)
    (lx : location) :
  0 <= mx -> binary_round_aux prec emax sx mx ex lx <> S754_nan.
Proof.
  intros Hm. unfold binary_round_aux.
  pose proof (shr_fexp_nonneg prec emax mx ex lx Hm) as H1.
  destruct (shr_fexp prec emax mx ex lx) as [mrs' e'].
  cbn [fst] in H1.
  pose proof (shr_fexp_nonneg prec emax
                (round_nearest_even (shr_m mrs') (loc_of_shr_record mrs'))
                e' loc_Exact (round_nearest_even_nonneg _ _ H1)) as H2.
  destruct (shr_fexp prec emax _ e' loc_Exact) as [mrs'' e''].
  cbn [fst] in H2.
  destruct (shr_m mrs'') as [|m|m]; [discriminate| |lia].
  destruct (e'' <=? emax - prec); discriminate.
Qed.

Lemma SFdiv_not_nan (prec emax : Z) (x : spec_float) (s : bool)
    (m : positive) (e : Z) :
  finite_SF x -> SFdiv prec emax x (S754_finite s m e) <> S754_nan.
Proof.
  destruct x as [sx|sx| |sx mx ex]; cbn [finite_SF SFdiv]; try done.
  intros _. unfold SFdiv_core_binary.
  set (s' := _ - _ - Z.min _ _).
  set (m' := match s' with Z0 => _ | Zpos _ => _ | Zneg _ => _ end).
  assert (Hm' : 0 <= m').
  { unfold m'. destruct s'; [lia| |lia]. apply Z.shiftl_nonneg. lia. }
  pose proof (Z.div_pos m' (Z.pos m) Hm' ltac:(lia)) as Hq.
  unfold Z.div in Hq.
  destruct (Z.div_eucl m' (Z.pos m)) as [q r].
  by apply binary_round_aux_not_nan.
Qed.

Lemma SFmul_not_nan (prec emax : Z) (x : spec_float) (s : bool)
    (m : positive) (e : Z) :
  x <> S754_nan -> SFmul prec emax x (S754_finite s m e) <> S754_nan.
Proof.
  destruct x as [sx|sx| |sx mx ex]; cbn [SFmul]; try done.
  intros _. apply binary_round_aux_not_nan. lia.
Qed.

Lemma is_nan_false (x : float) :
  Prim2SF x <> S754_nan -> is_nan x = false.
Proof.
  intros Hx. unfold is_nan. rewrite FloatAxioms.eqb_spec.
  unfold SFeqb, SFcompare.
  destruct (Prim2SF x) as [s|s| |s m e]; [by destruct s|by destruct s|done|].
  rewrite Z.compare_refl.
  assert (Hc : Pos.compare_cont Eq m m = Eq) by apply Pos.compare_cont_refl.
  rewrite Hc. by destruct s.
Qed.

Lemma is_finite_SF (x : float) :
  is_finite x = true -> finite_SF (Prim2SF x).
Proof.
  unfold is_finite, is_nan, is_infinity.
  rewrite !FloatAxioms.eqb_spec, FloatAxioms.abs_spec.
  change (Prim2SF infinity) with (S754_infinity false).
  destruct (Prim2SF x) as [s|s| |s m e]; cbn; try done.
  all: destruct s; done.
Qed.

Lemma positive_finite_SF (x : float) :
  is_finite x = true -> PrimFloat.ltb 0%float x = true ->
  exists m e, Prim2SF x = S754_finite false m e.
Proof.
  intros Hf%is_finite_SF. rewrite FloatAxioms.ltb_spec.
  change (Prim2SF 0) with (S754_zero false).
  destruct (Prim2SF x) as [s|s| |s m e]; cbn in *; try done.
  destruct s; [done|]. eauto.
Qed.

(** The quotient of a finite value by a finite positive one, times one
    hundred, is not a NaN (it may be an infinity). *)
Lemma percentage_not_nan (a t : float) :
  is_finite a = true -> is_finite t = true ->
  PrimFloat.ltb 0%float t = true ->
  is_nan (a / t * 100)%float = false.
Proof.
  intros Ha Ht Hpos. apply is_nan_false.
  destruct (positive_finite_SF t Ht Hpos) as (m & e & Et).
  rewrite FloatAxioms.mul_spec, FloatAxioms.div_spec, Et.
  assert (E100 : exists m e, Prim2SF 100 = S754_finite false m e)
    by (vm_compute; eauto).
  destruct E100 as (m1 & e1 & ->).
  apply SFmul_not_nan, SFdiv_not_nan. by apply is_finite_SF.
Qed.

Lemma SFdiv_self (s : bool) (m : positive) (e : Z) :
  SF64div (S754_finite s m e) (S754_finite s m e) = Prim2SF 1%float.
Proof.
  unfold SF64div, SFdiv, SFdiv_core_binary.
  rewrite !Z.sub_diag.
  change (Z.min (fexp prec emax 0) 0) with (-53).
  change (0 - -53) with 53. cbv zeta. cbv iota.
  assert (Hq : Z.div_eucl (Z.shiftl (Z.pos m) 53) (Z.pos m) = (2 ^ 53, 0)).
  { rewrite Z.shiftl_mul_pow2 by lia.
    assert (Hdm : forall a b, Z.div_eucl a b = (a / b, a mod b))
      by (intros a b; unfold Z.div, Z.modulo;
          by destruct (Z.div_eucl a b)).
    rewrite Hdm, Z.mul_comm, Z.div_mul, Z.mod_mul by lia. reflexivity. }
  change (IntDef.Z.div_eucl (Z.shiftl (Z.pos m) 53) (Z.pos m))
    with (Z.div_eucl (Z.shiftl (Z.pos m) 53) (Z.pos m)).
  rewrite Hq.
  assert (Hl : new_location (Z.pos m) 0 = loc_Exact).
  { unfold new_location, new_location_even, new_location_odd.
    by destruct (Z.even (Z.pos m)). }
  rewrite Hl. destruct s; vm_compute; reflexivity.
Qed.

(** A finite positive value divided by itself is exactly one. *)
Lemma div_self (t : float) :
  is_finite t = true -> PrimFloat.ltb 0%float t = true ->
  (t / t)%float = 1%float.
Proof.
  intros Hf Hpos.
  destruct (positive_finite_SF t Hf Hpos) as (m & e & Et).
  rewrite <- (FloatAxioms.SF2Prim_Prim2SF (t / t)),
          <- (FloatAxioms.SF2Prim_Prim2SF 1).
  f_equal. rewrite FloatAxioms.div_spec, Et. apply SFdiv_self.
Qed.

End Binary64Facts.

Section PercentageValues.
Import analyticsService.

(** Every entry of the result comes from an entry of the category map,
    with its percentage set under the guard. *)
Lemma percentages_values (acc : totals (F:=float))
    (b : CategoryBreakdown float) :
  percentage_unset (categoryMap acc) ->
  b ∈ percentages acc ->
  cb_Percentage b
  = (if PrimFloat.ltb 0%float (totalExpenses acc)
     then (cb_Amount b / totalExpenses acc * 100)%float
     else 0%float).
Proof.
  intros Hunset Hb. unfold percentages in Hb.
  apply list_elem_of_fmap in Hb as (b0 & -> & Hb).
  apply list_elem_of_fmap in Hb as ([c b1] & -> & Hb).
  apply elem_of_map_to_list in Hb. unfold with_percentage.
  cbn [f_ltb f_zero f_mul f_div f_hundred float64 snd].
  destruct (PrimFloat.ltb 0%float (totalExpenses acc)); [reflexivity|].
  exact (Hunset _ _ Hb).
Qed.

Lemma percentages_not_nan (acc : totals (F:=float))
    (b : CategoryBreakdown float) :
  percentage_unset (categoryMap acc) ->
  b ∈ percentages acc ->
  is_finite (totalExpenses acc) = true ->
  is_finite (cb_Amount b) = true ->
  is_nan (cb_Percentage b) = false.
Proof.
  intros Hunset Hb Ht Ha. rewrite (percentages_values acc b Hunset Hb).
  destruct (PrimFloat.ltb 0%float (totalExpenses acc)) eqn:Hpos;
    [|reflexivity].
  by apply percentage_not_nan.
Qed.

(** One category, a finite total greater than zero: the category's
    amount is the total, and the percentage is exactly one hundred. *)
Lemma percentages_single (acc : totals (F:=float)) (c : string) :
  one_category c acc ->
  is_finite (totalExpenses acc) = true ->
  PrimFloat.ltb 0%float (totalExpenses acc) = true ->
  exists b, percentages acc = [b] /\ cb_Percentage b = 100%float.
Proof.
  intros [[_ Hz]|(b & Hm & Hb)] Hfin Hpos.
  - rewrite Hz in Hpos. vm_compute in Hpos. discriminate.
  - unfold percentages. rewrite Hm, map_to_list_singleton.
    eexists. split; [reflexivity|].
    unfold with_percentage. cbn [f_ltb f_zero f_mul f_div f_hundred float64 snd].
    rewrite Hpos. cbn [cb_Percentage]. rewrite Hb.
    rewrite (div_self _ Hfin Hpos). reflexivity.
Qed.

End PercentageValues.




(** ** The worked example of the specification *)

Lemma float_neg80_ne_80 : (-80)%float <> 80%float.
Proof.
  intros E. apply (f_equal (fun x => PrimFloat.ltb x 0%float)) in E.
  vm_compute in E. discriminate.
Qed.

(** C6, as stated, fails: on the example the summary does not report the
    expenses as 80; the field holds -80. *)
Lemma GetFinancialSummary_example_not_80 :
  ~ (exists summary,
       analyticsService.GetFinancialSummary (MockRepository example_ledger)
         0 "u1" tt = Ok summary /\
       MonthlyIncome summary = 2000%float /\
       MonthlyExpenses summary = 80%float /\
       TotalBalance summary = 1920%float /\
       SavingsRate summary = 96%float).
Proof.
  intros (summary & Hs & _ & He & _).
  vm_compute in Hs. injection Hs as <-. cbn [MonthlyExpenses] in He.
  exact (float_neg80_ne_80 He).
Qed.

Lemma summarize_example_3 (now : Time) (x y z : Transaction float) :
  shape <$> [x; y; z] ∈ permutations example_shapes ->
  analyticsService.summarize now [x; y; z] = example_summary now.
Proof.
  destruct x, y, z. unfold shape. cbn. intros Hl.
  repeat (apply elem_of_cons in Hl as [Hl|Hl]);
    try (by apply not_elem_of_nil in Hl);
    injection Hl as -> -> -> -> -> -> -> -> -> -> -> ->;
    vm_compute; reflexivity.
Qed.

(** C6 (amended). Whenever the repository returns for [u1], in any
    order, three transactions with the dates, amounts, categories and
    types of the example, [GetFinancialSummary] returns income 2000,
    expenses -80 (the total of 80, negated), balance 1920, savings rate
    96, and a category breakdown with the single entry food: amount 80,
    percentage 100, count 2. *)
Theorem GetFinancialSummary_example {S : Type} (repo : Repository float S)
    (s : S) (now : Time) (txs : list (Transaction float)) :
  repo_GetTransactionsByUser repo "u1" 1000 s = Ok txs ->
  shape <$> txs ≡ₚ example_shapes ->
  analyticsService.GetFinancialSummary repo now "u1" s
  = Ok (example_summary now).
Proof.
  intros Hrepo Hperm. unfold analyticsService.GetFinancialSummary.
  cbn [String.eqb Ascii.eqb Bool.eqb]. rewrite Hrepo. f_equal.
  pose proof (Permutation_length Hperm) as Hlen.
  rewrite length_fmap in Hlen.
  destruct txs as [|a [|b [|c [|d txs]]]]; try discriminate Hlen.
  apply summarize_example_3. apply permutations_Permutation.
  symmetry. exact Hperm.
Qed.

Lemma GetFinancialSummary_example_witness :
  analyticsService.GetFinancialSummary (MockRepository example_ledger) 0 "u1" tt
  = Ok (example_summary 0).
Proof.
  apply (GetFinancialSummary_example (MockRepository example_ledger) tt 0
           example_ledger).
  - reflexivity.
  - vm_compute. reflexivity.
Defined.


(** ** Validation on the create path *)

(** C7, as stated, fails: a transaction with the zero date passes the
    validation of the create path and is stored, dated with the clock. *)
Lemma CreateTransaction_zero_date_stored :
  IsZero (Date undated) = true /\
  exists t' tbl,
    transactionService.CreateTransaction DynamoDBRepository "id" 1800000000
      (Some undated) ∅ = Ok (t', tbl) /\
    tbl !! primary_key t' = Some t' /\
    Date t' = 1800000000.
Proof.
  split; [reflexivity|].
  set (t' := GenerateKeys (set_bookkeeping
                (transactionService.set_Date undated 1800000000)
                1800000000 1800000000 1)).
  exists t', (<[primary_key t' := t']> ∅).
  split; [|split; [apply lookup_insert_eq|reflexivity]].
  unfold transactionService.CreateTransaction.
  assert (Hv : transactionService.ValidateTransaction "id" 1800000000
                 (Some undated)
               = Ok (set_bookkeeping
                       (transactionService.set_Date undated 1800000000)
                       1800000000 1800000000 1)) by (vm_compute; reflexivity).
  rewrite Hv. cbn [repo_CreateTransaction DynamoDBRepository].
  rewrite CreateTransaction_fresh by apply lookup_empty. reflexivity.
Qed.

Section ValidationFacts.
Import transactionService.
Context {F S : Type} `{Number F} (repo : Repository F S).

Lemma ValidateTransaction_zero_date (id : string) (now : Time)
    (t : Transaction F) :
  IsZero (Date t) = true ->
  ValidateTransaction id now (Some t)
  = ValidateTransaction id now (Some (set_Date t now)).
Proof.
  intros Hz. destruct t. cbn -[IsZero] in Hz.
  unfold ValidateTransaction, set_ID, set_Date.
  cbn -[IsZero]. destruct (String.eqb ID0 ""); cbn -[IsZero];
    (destruct (String.eqb UserID0 ""); [reflexivity|]);
    (destruct (f_eqb Amount0 f_zero); [reflexivity|]);
    (destruct (String.eqb Category0 ""); [reflexivity|]);
    (destruct (negb (String.eqb Type_0 TransactionTypeIncome)
               && negb (String.eqb Type_0 TransactionTypeExpense));
       [reflexivity|]);
    (destruct (String.eqb Description0 ""); [reflexivity|]);
    rewrite Hz; cbn -[IsZero]; destruct (IsZero now); reflexivity.
Qed.

Lemma ValidateTransaction_Date (id : string) (now : Time)
    (t t' : Transaction F) :
  ValidateTransaction id now (Some t) = Ok t' ->
  Date t' = if IsZero (Date t) then now else Date t.
Proof.
  unfold ValidateTransaction. intros Hv.
  repeat (case_match; try discriminate);
    injection Hv as <-; cbn in *; congruence.
Qed.

Lemma Validate_zero_date (t : Transaction F) :
  IsZero (Date t) = true -> exists e, Validate t = Err e.
Proof.
  intros Hz. unfold Validate. rewrite Hz.
  repeat case_match; eauto.
Qed.

End ValidationFacts.

(** C7 (amended). A transaction whose date is the zero value is not
    rejected by the validation of the create path: it is validated as
    if it were dated with the current time, and whenever the create path
    succeeds the record handed to the repository carries the current
    time as its date. The entity's own [Validate] (called on the
    repository's update path) does reject a zero date. *)
Theorem zero_date_defaults_to_now {F S : Type} `{Number F}
    (repo : Repository F S) (id : string) (now : Time) (t : Transaction F) :
  IsZero (Date t) = true ->
  transactionService.ValidateTransaction id now (Some t)
  = transactionService.ValidateTransaction id now
      (Some (transactionService.set_Date t now)) /\
  (forall s t' s',
     transactionService.CreateTransaction repo id now (Some t) s = Ok (t', s') ->
     Date t' = now /\ GenerateKeys t' = t') /\
  (exists e, Validate t = Err e).
Proof.
  intros Hz. split; [by apply ValidateTransaction_zero_date|].
  split; [|by apply Validate_zero_date].
  intros s t' s'. unfold transactionService.CreateTransaction.
  destruct (transactionService.ValidateTransaction id now (Some t))
    as [v|e] eqn:Ev; [|discriminate].
  apply ValidateTransaction_Date in Ev. rewrite Hz in Ev.
  destruct (repo_CreateTransaction repo (GenerateKeys v) s); [|discriminate].
  intros [= <- <-]. split; [exact Ev|reflexivity].
Qed.

Lemma zero_date_defaults_to_now_witness :
  transactionService.ValidateTransaction "id" 1800000000 (Some undated)
  = transactionService.ValidateTransaction "id" 1800000000
      (Some (transactionService.set_Date undated 1800000000)) /\
  (forall s t' s',
     transactionService.CreateTransaction DynamoDBRepository "id" 1800000000
       (Some undated) s = Ok (t', s') ->
     Date t' = 1800000000 /\ GenerateKeys t' = t') /\
  (exists e, Validate undated = Err e).
Proof.
  apply (zero_date_defaults_to_now DynamoDBRepository "id" 1800000000 undated).
  reflexivity.
Defined.

(** ** Category options *)

Section CategoryFacts.
Import analyticsService.
Context {F S : Type} `{Number F} (repo : Repository F S).

Lemma elem_of_category_set (txs : list (Transaction F)) (c : string) :
  c ∈ category_set txs <-> exists t, t ∈ txs /\ Category t = c.
Proof.
  unfold category_set. induction txs as [|t txs IH] using rev_ind.
  - simpl. split; [set_solver|]. intros (t & Ht & _).
    by apply not_elem_of_nil in Ht.
  - rewrite foldl_snoc, elem_of_union, elem_of_singleton, IH. split.
    + intros [->|(t' & Ht' & Hc)].
      * exists t. split; [apply elem_of_app; right; left|reflexivity].
      * exists t'. split; [apply elem_of_app; by left|exact Hc].
    + intros (t' & Ht' & Hc). apply elem_of_app in Ht' as [Ht'|Ht'].
      * right. eauto.
      * apply list_elem_of_singleton in Ht' as ->. by left.
Qed.

Lemma category_options_returns (categories : list string)
    (acc : list CategoryOption) :
  Forall (fun c => c <> "") categories ->
  exists opts, category_options categories acc = Returns opts.
Proof.
  intros Hall. revert acc.
  induction Hall as [|c categories Hc _ IH]; intros acc; simpl; [eauto|].
  destruct c as [|a rest]; [contradiction|]. simpl. apply IH.
Qed.

Lemma category_options_panics (categories : list string)
    (acc : list CategoryOption) :
  "" ∈ categories ->
  exists msg, category_options categories acc = Panics msg.
Proof.
  revert acc. induction categories as [|c categories IH]; intros acc Hin.
  - by apply not_elem_of_nil in Hin.
  - simpl. destruct c as [|a rest]; simpl; [eauto|].
    apply IH. apply elem_of_cons in Hin as [Hin|Hin]; [discriminate|exact Hin].
Qed.

End CategoryFacts.

(** C10. When every fetched transaction has a non-empty category,
    [GetCategoryOptions] returns: the byte index [category[0]] is in
    bounds for each category. The condition is needed: if the call
    reaches the loop with one transaction whose category is empty, it
    panics. *)
Theorem GetCategoryOptions_no_panic {F S : Type} `{Number F}
    (repo : Repository F S) (userID : string) (s : S) :
  ((forall txs, repo_GetTransactionsByUser repo userID 1000 s = Ok txs ->
      Forall (fun t => Category t <> "") txs) ->
   exists r, analyticsService.GetCategoryOptions repo userID s = Returns r) /\
  (forall txs, userID <> "" ->
     repo_GetTransactionsByUser repo userID 1000 s = Ok txs ->
     Exists (fun t => Category t = "") txs ->
     exists msg, analyticsService.GetCategoryOptions repo userID s = Panics msg).
Proof.
  unfold analyticsService.GetCategoryOptions. split.
  - intros Hall. destruct (String.eqb userID ""); [eauto|].
    destruct (repo_GetTransactionsByUser repo userID 1000 s) as [txs|e];
      [|eauto].
    destruct (category_options_returns
                (elements (analyticsService.category_set txs)) [])
      as [opts ->]; [|eauto].
    apply list.Forall_forall. intros c Hc.
    apply elem_of_elements, elem_of_category_set in Hc as (t & Ht & <-).
    specialize (Hall txs eq_refl).
    rewrite list.Forall_forall in Hall. by apply Hall.
  - intros txs Hu Hrepo Hex. apply String.eqb_neq in Hu.
    rewrite Hu, Hrepo.
    destruct (category_options_panics
                (elements (analyticsService.category_set txs)) [])
      as [msg ->]; [|eauto].
    apply elem_of_elements, elem_of_category_set.
    apply Exists_exists in Hex as (t & Ht & Hc).
    exists t. split; [by apply list_elem_of_In|exact Hc].
Qed.

Lemma GetCategoryOptions_no_panic_witness :
  (exists r, analyticsService.GetCategoryOptions
               (MockRepository example_ledger) "u1" tt = Returns r) /\
  (exists msg, analyticsService.GetCategoryOptions
                 (MockRepository uncategorized) "u1" tt = Panics msg).
Proof.
  split.
  - apply (proj1 (GetCategoryOptions_no_panic
                    (MockRepository example_ledger) "u1" tt)).
    intros txs [= <-]. repeat constructor; discriminate.
  - apply (proj2 (GetCategoryOptions_no_panic
                    (MockRepository uncategorized) "u1" tt) uncategorized);
      [discriminate|reflexivity|].
    apply Exists_cons_tl, Exists_cons_hd. reflexivity.
Defined.


(** ** Limits of the list operations *)

Section LimitFacts.
Context {F : Type} `{Number F}.

Lemma int32_le (z : Z) : 0 < z -> int32 z <= z.
Proof.
  intros Hz. unfold int32, wrap.
  assert (Hm : (z + 2 ^ (32 - 1)) mod 2 ^ 32 <= z + 2 ^ (32 - 1))
    by (apply Z.mod_le; lia).
  lia.
Qed.

(** A query that carries a limit answers with at most that many items,
    and is refused when the limit is below one. *)
Lemma Query_Limit (input : QueryInput) (tbl : Table F) (items : list (Item F))
    (n : Z) :
  Limit input = Some n ->
  Query input tbl = Ok items ->
  0 < n /\ (length items <= Z.to_nat n)%nat.
Proof.
  intros Hl. unfold Query. rewrite Hl.
  destruct (Z.leb_spec n 0); [discriminate|].
  intros [= <-]. split; [lia|]. rewrite length_take. lia.
Qed.

Lemma GetTransactionsByUser_bounded (userID : string) (limit : Z)
    (tbl : Table F) (txs : list (Transaction F)) :
  0 < limit ->
  GetTransactionsByUser userID limit tbl = Ok txs ->
  (length txs <= Z.to_nat limit)%nat.
Proof.
  intros Hpos. unfold GetTransactionsByUser.
  destruct (Query _ tbl) as [items|e] eqn:Eq; [|discriminate].
  intros [= <-]. rewrite unmarshal_items_all.
  apply (Query_Limit _ _ _ (int32 limit)) in Eq as [Hp Hlen]; [|reflexivity].
  pose proof (int32_le limit Hpos). lia.
Qed.

Lemma GetTransactionsByMonth_bounded (userID month : string) (limit : Z)
    (tbl : Table F) (txs : list (Transaction F)) :
  0 < limit ->
  GetTransactionsByMonth userID month limit tbl = Ok txs ->
  (length txs <= Z.to_nat limit)%nat.
Proof.
  intros Hpos. unfold GetTransactionsByMonth.
  destruct (Query _ tbl) as [items|e] eqn:Eq; [|discriminate].
  intros [= <-]. rewrite unmarshal_items_all.
  apply (Query_Limit _ _ _ (int32 limit)) in Eq as [Hp Hlen]; [|reflexivity].
  pose proof (int32_le limit Hpos). lia.
Qed.

Lemma GetTransactionsByCategory_bounded (userID category : string) (limit : Z)
    (tbl : Table F) (txs : list (Transaction F)) :
  0 < limit ->
  GetTransactionsByCategory userID category limit tbl = Ok txs ->
  (length txs <= Z.to_nat limit)%nat.
Proof.
  intros Hpos. unfold GetTransactionsByCategory.
  destruct (Query _ tbl) as [items|e] eqn:Eq; [|discriminate].
  intros [= <-]. rewrite unmarshal_items_all.
  apply (Query_Limit _ _ _ (int32 limit)) in Eq as [Hp Hlen]; [|reflexivity].
  pose proof (int32_le limit Hpos). lia.
Qed.

Lemma int32_small (z : Z) : 0 < z < 2 ^ 31 -> int32 z = z.
Proof.
  intros Hz. unfold int32, wrap.
  change (2 ^ (32 - 1)) with (2 ^ 31). rewrite Z.mod_small; lia.
Qed.

(** A query with a limit of at least one answers with the first that
    many of the matching items, or with all of them when they are fewer. *)
Lemma Query_length (input : QueryInput) (tbl : Table F) (n : Z) :
  Limit input = Some n -> 0 < n ->
  exists items,
    Query input tbl = Ok items /\
    length items = Nat.min (Z.to_nat n) (length (matching input tbl)).
Proof.
  intros Hl Hn. unfold Query. fold (matching input tbl). rewrite Hl.
  destruct (Z.leb_spec n 0); [lia|].
  eexists. split; [reflexivity|]. rewrite length_take. f_equal.
  destruct (ScanIndexForward input) as [[|]|]; rewrite ?length_reverse;
    apply Permutation_length, merge_sort_Permutation.
Qed.

End LimitFacts.

(** C8, as stated, fails: with sixty items stored, a list call without
    a positive limit fetches fifty of them, not up to a thousand; and
    the query of [GetTransaction] carries no limit at all. *)
Lemma default_limit_is_not_1000 :
  fetched (transactionService.GetTransactionsByUser DynamoDBRepository
             "u1" 0 crowded) = Some 50%nat /\
  fetched (transactionService.GetTransactionsByUser DynamoDBRepository
             "u1" 1000 crowded) = Some 60%nat /\
  Limit (GetTransaction_input "u1") = None /\
  fetched (Query (GetTransaction_input "u1") crowded) = Some 60%nat.
Proof. vm_compute. auto. Qed.

(** C8 (amended). Every list operation of the transaction service hands
    the repository the caller's limit when it is positive and 50
    otherwise, whatever the repository; the DynamoDB repository, given a
    limit within the int32 range, returns the first that many of the
    matching items, or all of them when they are fewer, so never more
    than the limit; the repository reads made with the fixed limit 1000
    (those of the analytics) return at most 1000. *)
Theorem list_operations_bounded {F S : Type} `{Number F}
    (repo : Repository F S) (s : S) (tbl : Table F)
    (userID month category : string) (limit : Z)
    (txs : list (Transaction F)) :
  (0 < limit -> effective_limit limit = limit) /\
  (limit <= 0 -> effective_limit limit = 50) /\
  (userID <> "" ->
   transactionService.GetTransactionsByUser repo userID limit s
   = match repo_GetTransactionsByUser repo userID (effective_limit limit) s with
     | Ok answered => Ok (transactionService.sort_by_date_desc answered)
     | Err err => Err err
     end) /\
  (userID <> "" -> month <> "" ->
   transactionService.GetTransactionsByMonth repo userID month limit s
   = repo_GetTransactionsByMonth repo userID month (effective_limit limit) s) /\
  (userID <> "" -> category <> "" ->
   transactionService.GetTransactionsByCategory repo userID category limit s
   = repo_GetTransactionsByCategory repo userID category
       (effective_limit limit) s) /\
  (forall l, 0 < l < 2 ^ 31 ->
     (exists answered,
        GetTransactionsByUser userID l tbl = Ok answered /\
        length answered
        = Nat.min (Z.to_nat l)
            (length (matching (GetTransactionsByUser_input userID l) tbl))) /\
     (exists answered,
        GetTransactionsByMonth userID month l tbl = Ok answered /\
        length answered
        = Nat.min (Z.to_nat l)
            (length (matching (GetTransactionsByMonth_input userID month l)
                       tbl))) /\
     (exists answered,
        GetTransactionsByCategory userID category l tbl = Ok answered /\
        length answered
        = Nat.min (Z.to_nat l)
            (length (matching
                       (GetTransactionsByCategory_input userID category l)
                       tbl)))) /\
  (transactionService.GetTransactionsByUser DynamoDBRepository
     userID limit tbl = Ok txs ->
   (length txs <= Z.to_nat (effective_limit limit))%nat) /\
  (transactionService.GetTransactionsByMonth DynamoDBRepository
     userID month limit tbl = Ok txs ->
   (length txs <= Z.to_nat (effective_limit limit))%nat) /\
  (transactionService.GetTransactionsByCategory DynamoDBRepository
     userID category limit tbl = Ok txs ->
   (length txs <= Z.to_nat (effective_limit limit))%nat) /\
  (GetTransactionsByUser userID 1000 tbl = Ok txs ->
   (length txs <= 1000)%nat) /\
  (GetTransactionsByMonth userID month 1000 tbl = Ok txs ->
   (length txs <= 1000)%nat).
Proof.
  assert (Hpos : 0 < effective_limit limit)
    by (unfold effective_limit; destruct (Z.leb_spec limit 0); lia).
  split; [unfold effective_limit; destruct (Z.leb_spec limit 0); lia|].
  split; [unfold effective_limit; destruct (Z.leb_spec limit 0); lia|].
  split.
  { intros Hu. apply String.eqb_neq in Hu.
    unfold transactionService.GetTransactionsByUser. rewrite Hu. reflexivity. }
  split.
  { intros Hu Hm. apply String.eqb_neq in Hu, Hm.
    unfold transactionService.GetTransactionsByMonth. rewrite Hu, Hm.
    reflexivity. }
  split.
  { intros Hu Hc. apply String.eqb_neq in Hu, Hc.
    unfold transactionService.GetTransactionsByCategory. rewrite Hu, Hc.
    reflexivity. }
  split.
  { intros l Hl. pose proof (int32_small l Hl) as Hl32.
    split; [|split].
    - unfold GetTransactionsByUser.
      destruct (Query_length (GetTransactionsByUser_input userID l) tbl
                  (int32 l) eq_refl) as (items & -> & Hlen); [lia|].
      eexists. split; [reflexivity|].
      by rewrite unmarshal_items_all, Hlen, Hl32.
    - unfold GetTransactionsByMonth.
      destruct (Query_length (GetTransactionsByMonth_input userID month l) tbl
                  (int32 l) eq_refl) as (items & -> & Hlen); [lia|].
      eexists. split; [reflexivity|].
      by rewrite unmarshal_items_all, Hlen, Hl32.
    - unfold GetTransactionsByCategory.
      destruct (Query_length
                  (GetTransactionsByCategory_input userID category l) tbl
                  (int32 l) eq_refl) as (items & -> & Hlen); [lia|].
      eexists. split; [reflexivity|].
      by rewrite unmarshal_items_all, Hlen, Hl32. }
  repeat split.
  - unfold transactionService.GetTransactionsByUser.
    destruct (String.eqb userID ""); [discriminate|].
    cbn [repo_GetTransactionsByUser DynamoDBRepository].
    fold (effective_limit limit).
    destruct (GetTransactionsByUser userID (effective_limit limit) tbl)
      as [l|e] eqn:E; [|discriminate].
    intros [= <-]. unfold transactionService.sort_by_date_desc.
    rewrite merge_sort_Permutation.
    by apply (GetTransactionsByUser_bounded userID _ tbl).
  - unfold transactionService.GetTransactionsByMonth.
    destruct (_ || _); [discriminate|].
    cbn [repo_GetTransactionsByMonth DynamoDBRepository].
    by apply GetTransactionsByMonth_bounded.
  - unfold transactionService.GetTransactionsByCategory.
    destruct (_ || _); [discriminate|].
    cbn [repo_GetTransactionsByCategory DynamoDBRepository].
    by apply GetTransactionsByCategory_bounded.
  - intros E. by apply GetTransactionsByUser_bounded in E.
  - intros E. by apply GetTransactionsByMonth_bounded in E.
Qed.

Lemma list_operations_bounded_witness :
  exists txs answered,
    transactionService.GetTransactionsByUser DynamoDBRepository
      "u1" 0 crowded = Ok txs /\
    GetTransactionsByUser "u1" 50 crowded = Ok answered /\
    txs = transactionService.sort_by_date_desc answered /\
    length answered = 50%nat /\
    (length txs <= Z.to_nat (effective_limit 0))%nat.
Proof.
  destruct (list_operations_bounded DynamoDBRepository crowded crowded
              "u1" "2024-01" "food" 0 [])
    as (_ & _ & Hcall & _ & _ & Hexact & _).
  destruct (Hexact 50 ltac:(lia)) as ((answered & Ha & Hlen) & _).
  specialize (Hcall ltac:(discriminate)).
  change (repo_GetTransactionsByUser DynamoDBRepository "u1"
            (effective_limit 0) crowded)
    with (GetTransactionsByUser "u1" 50 crowded) in Hcall.
  rewrite Ha in Hcall.
  exists (transactionService.sort_by_date_desc answered), answered.
  split; [exact Hcall|]. split; [exact Ha|]. split; [reflexivity|].
  assert (Hn : length answered = 50%nat).
  { rewrite Hlen.
    assert (Hm : length (matching (GetTransactionsByUser_input "u1" 50) crowded)
                 = 60%nat) by (vm_compute; reflexivity).
    rewrite Hm. reflexivity. }
  split; [exact Hn|].
  unfold transactionService.sort_by_date_desc.
  rewrite merge_sort_Permutation, Hn. vm_compute. lia.
Defined.


(** ** Batch load *)

Section ChunkFacts.
Context {A : Type}.

Lemma chunks_of_fuel (f1 f2 : nat) (l : list A) :
  (length l <= f1)%nat -> (length l <= f2)%nat ->
  chunks_of f1 l = chunks_of f2 l.
Proof.
  revert f2 l. induction f1 as [|f1 IH]; intros f2 l H1 H2.
  - destruct l; [|simpl in H1; lia]. by destruct f2.
  - destruct l as [|a l]; [by destruct f2|].
    destruct f2 as [|f2]; [simpl in H2; lia|].
    cbn [chunks_of]. f_equal. apply IH; rewrite length_drop;
      unfold batchSize; simpl in *; lia.
Qed.

Lemma chunks_cons (l : list A) :
  l <> [] -> chunks l = take batchSize l :: chunks (drop batchSize l).
Proof.
  intros Hne. destruct l as [|a l]; [contradiction|].
  unfold chunks at 1. cbn [length chunks_of]. f_equal.
  apply chunks_of_fuel; [|lia].
  rewrite length_drop. unfold batchSize. simpl. lia.
Qed.

Lemma chunks_nil : chunks (@nil A) = [].
Proof. reflexivity. Qed.

Lemma chunks_of_concat (fuel : nat) (l : list A) :
  (length l <= fuel)%nat -> concat (chunks_of fuel l) = l.
Proof.
  revert l. induction fuel as [|fuel IH]; intros l Hl.
  - destruct l; [reflexivity|simpl in Hl; lia].
  - destruct l as [|a l]; [reflexivity|].
    cbn [chunks_of concat]. rewrite IH.
    + apply take_drop.
    + rewrite length_drop. unfold batchSize. simpl in *. lia.
Qed.

Lemma chunks_of_sizes (fuel : nat) (l : list A) :
  Forall (fun c => (0 < length c <= batchSize)%nat) (chunks_of fuel l).
Proof.
  revert l. induction fuel as [|fuel IH]; intros l; [constructor|].
  destruct l as [|a l]; [constructor|]. cbn [chunks_of].
  constructor; [|apply IH].
  rewrite length_take. unfold batchSize. cbn [length]. lia.
Qed.

Lemma slice_chunk (l : list A) (i : nat) :
  (i < length l)%nat ->
  let end_ := if (length l <? i + batchSize)%nat then length l
              else (i + batchSize)%nat in
  slice l i end_ = take batchSize (drop i l) /\
  end_ = (i + length (take batchSize (drop i l)))%nat.
Proof.
  intros Hi. unfold slice. rewrite length_take, length_drop.
  destruct (Nat.ltb_spec (length l) (i + batchSize)) as [Hlt|Hge].
  - split; [|lia].
    rewrite !take_ge by (rewrite length_drop; lia). reflexivity.
  - split; [|lia]. f_equal. lia.
Qed.

Lemma elem_of_concat (x : A) (ls : list (list A)) :
  x ∈ concat ls -> exists l, x ∈ l /\ l ∈ ls.
Proof.
  induction ls as [|l ls IH]; simpl.
  - intros Hx. by apply not_elem_of_nil in Hx.
  - intros Hx. apply elem_of_app in Hx as [Hx|Hx].
    + exists l. split; [exact Hx|left].
    + destruct (IH Hx) as (l' & Hl' & Hin). exists l'. split; [exact Hl'|by right].
Qed.

End ChunkFacts.

Section BatchFacts.
Context {F : Type} `{Number F}.

(** The index loop of [BatchCreateTransactions] is the submission, in
    order, of the consecutive chunks. *)
Lemma chunk_loop_run_chunks (fuel : nat) (now : Time) (i : nat)
    (txs : list (Transaction F)) (w : World F) :
  (length txs - i <= fuel)%nat ->
  chunk_loop fuel now i txs w = run_chunks now i (chunks (drop i txs)) w.
Proof.
  revert i w. induction fuel as [|fuel IH]; intros i w Hfuel.
  - rewrite drop_ge by lia. reflexivity.
  - cbn [chunk_loop].
    destruct (Nat.ltb_spec i (length txs)) as [Hi|Hi].
    + destruct (slice_chunk txs i Hi) as [-> Hend].
      rewrite chunks_cons.
      2:{ intros E. apply (f_equal length) in E.
          rewrite length_drop in E. simpl in E. lia. }
      cbn [run_chunks]. rewrite drop_drop.
      destruct (batchWriteTransactions now (take batchSize (drop i txs)) w)
        as [[[]|e] w1].
      * apply IH. unfold batchSize. lia.
      * rewrite Hend. reflexivity.
    + rewrite drop_ge by lia. reflexivity.
Qed.

Lemma write_requests_Ok (now : Time) (txs : list (Transaction F)) :
  write_requests now txs = Ok (write_request now <$> txs).
Proof.
  unfold write_requests.
  enough (Hgen : forall acc,
    foldl (fun acc tx =>
             match acc with
             | Err err => Err err
             | Ok writeRequests =>
                 let tx := GenerateKeys tx in
                 let tx := set_bookkeeping tx now now (Version tx) in
                 match ToDynamoDBItem tx with
                 | Err err =>
                     Err (Wrapf ("failed to marshal transaction " +:+ ID tx) err)
                 | Ok item => Ok (writeRequests ++ [{| PutRequest := item |}])
                 end
             end) (Ok acc) txs = Ok (acc ++ (write_request now <$> txs)))
    by apply (Hgen []).
  induction txs as [|tx txs IH]; intros acc.
  - simpl. by rewrite app_nil_r.
  - cbn [foldl fmap list_fmap].
    transitivity (Ok (A:=list (WriteRequest F))
                    ((acc ++ [write_request now tx])
                     ++ (write_request now <$> txs))).
    + exact (IH (acc ++ [write_request now tx])).
    + by rewrite <- app_assoc.
Qed.

Lemma write_request_key (now : Time) (tx : Transaction F) :
  primary_key (PutRequest (write_request now tx)) = primary_key (GenerateKeys tx).
Proof. reflexivity. Qed.

Lemma put_all_is_Some (requests : list (WriteRequest F)) (tbl : Table F)
    (k : string * string) :
  is_Some (put_all requests tbl !! k) <->
  is_Some (tbl !! k) \/ exists r, r ∈ requests /\ request_key r = k.
Proof.
  unfold put_all. revert tbl.
  induction requests as [|r requests IH]; intros tbl.
  - simpl. split; [auto|]. intros [?|(r & Hr & _)]; [done|].
    by apply not_elem_of_nil in Hr.
  - cbn [foldl]. rewrite IH, lookup_insert_is_Some'. unfold request_key.
    split.
    + intros [[<-|Hk]|(r' & Hr' & Hk)].
      * right. exists r. split; [left|reflexivity].
      * by left.
      * right. exists r'. split; [by right|exact Hk].
    + intros [Hk|(r' & Hr' & Hk)]; [auto|].
      apply elem_of_cons in Hr' as [->|Hr']; [auto|].
      right. eauto.
Qed.

(** What one call of [BatchWriteItem] does. *)
Lemma BatchWriteItem_inv (requests : list (WriteRequest F)) (w w1 : World F)
    (r : result (list (WriteRequest F))) :
  BatchWriteItem requests w = (r, w1) ->
  trace w1 = trace w ++ [EvBatchWriteItem requests] /\
  match r with
  | Err _ => table w1 = table w
  | Ok unprocessed =>
      exists keep : WriteRequest F -> bool,
        unprocessed = filter (fun r => keep r = true) requests /\
        table w1 = put_all (filter (fun r => keep r = false) requests) (table w)
  end.
Proof.
  unfold BatchWriteItem. destruct (responses w) as [|[left_over|err] rs].
  - intros [= <- <-]. split; [reflexivity|].
    exists (fun _ => false). cbn [table]. split.
    + symmetry. induction requests as [|a l IH]; [reflexivity|].
      rewrite filter_cons_False by discriminate. exact IH.
    + f_equal. symmetry. induction requests as [|a l IH]; [reflexivity|].
      rewrite filter_cons_True by reflexivity. by rewrite IH.
  - intros [= <- <-]. split; [reflexivity|].
    exists (fun r => left_over (PutRequest r)). split; reflexivity.
  - intros [= <- <-]. split; reflexivity.
Qed.

Lemma filter_true_nil_false_all {A} (keep : A -> bool) (l : list A) :
  filter (fun r => keep r = true) l = [] ->
  filter (fun r => keep r = false) l = l.
Proof.
  induction l as [|a l IH]; [reflexivity|].
  rewrite !filter_cons. destruct (keep a) eqn:E.
  - rewrite decide_True by reflexivity. discriminate.
  - rewrite decide_False by discriminate. rewrite decide_True by reflexivity.
    intros Hl. by rewrite IH.
Qed.

Lemma filter_keep_split {A} (keep : A -> bool) (l : list A) (x : A) :
  x ∈ l ->
  x ∈ filter (fun r => keep r = true) l \/
  x ∈ filter (fun r => keep r = false) l.
Proof.
  intros Hx. rewrite !list_elem_of_filter. destruct (keep x); auto.
Qed.

(** The retry loop, started with enough iterations left: the table only
    grows; on success every request has been written; and the events it
    adds hold at most [maxRetries - retry] submissions, each a part of
    the requests. *)
Lemma retry_loop_spec (fuel : nat) (retry : Z) (requests : list (WriteRequest F))
    (w w' : World F) (res : result unit) :
  0 <= retry < maxRetries ->
  maxRetries - retry <= Z.of_nat fuel ->
  retry_loop fuel retry requests w = (res, w') ->
  (forall k, is_Some (table w !! k) -> is_Some (table w' !! k)) /\
  (res = Ok tt ->
   forall r, r ∈ requests -> is_Some (table w' !! request_key r)) /\
  (exists events,
     trace w' = trace w ++ events /\
     (length (submissions events) <= Z.to_nat (maxRetries - retry))%nat /\
     Forall (fun submitted => submitted `sublist_of` requests)
       (submissions events)).
Proof.
  assert (Hone : forall requests : list (WriteRequest F),
             submissions [EvBatchWriteItem requests] = [requests])
    by reflexivity.
  revert retry requests w. induction fuel as [|fuel IH];
    intros retry requests w Hretry Hfuel; [lia|].
  cbn [retry_loop]. destruct (Z.ltb_spec retry maxRetries) as [_|?]; [|lia].
  destruct (BatchWriteItem requests w) as [[unprocessed|err] w1] eqn:Ecall;
    apply BatchWriteItem_inv in Ecall as [Htrace Htable].
  - destruct Htable as (keep & Hun & Htbl).
    assert (Hmono1 : forall k, is_Some (table w !! k) ->
                               is_Some (table w1 !! k)).
    { intros k Hk. rewrite Htbl. apply put_all_is_Some. by left. }
    assert (Hdone1 : forall r, r ∈ filter (fun r => keep r = false) requests ->
                               is_Some (table w1 !! request_key r)).
    { intros r Hr. rewrite Htbl. apply put_all_is_Some. right. eauto. }
    destruct (Nat.eqb_spec (length unprocessed) 0) as [Hlen|Hlen].
    + intros [= <- <-]. split; [exact Hmono1|]. split.
      * intros _ r Hr. apply Hdone1.
        apply length_zero_iff_nil in Hlen. rewrite Hun in Hlen.
        by rewrite (filter_true_nil_false_all keep requests Hlen).
      * exists [EvBatchWriteItem requests]. split; [exact Htrace|].
        rewrite Hone. split; [cbn; unfold maxRetries in *; lia|].
        by constructor.
    + destruct (Z.eqb_spec retry (maxRetries - 1)) as [Hlast|Hmore].
      * intros [= <- <-]. split; [exact Hmono1|]. split; [discriminate|].
        exists [EvBatchWriteItem requests]. split; [exact Htrace|].
        rewrite Hone. split; [cbn; unfold maxRetries in *; lia|].
        by constructor.
      * intros Hrec.
        apply IH in Hrec as (Hmono & Hdone & events & Htr & Hlen' & Hall);
          [|lia|lia].
        cbn [Sleep table trace] in *.
        split; [intros k Hk; by apply Hmono, Hmono1|]. split.
        -- intros Hok r Hr.
           destruct (filter_keep_split keep requests r Hr) as [Hk|Hk].
           ++ apply (Hdone Hok). by rewrite Hun.
           ++ by apply Hmono, Hdone1.
        -- exists (EvBatchWriteItem requests
                   :: EvSleep ((retry + 1) * 100) :: events).
           split; [rewrite Htr, Htrace, <- !app_assoc; reflexivity|].
           change (submissions (EvBatchWriteItem requests
                                :: EvSleep ((retry + 1) * 100) :: events))
             with (requests :: submissions events).
           split; [cbn [length]; unfold maxRetries in *; lia|].
           constructor; [reflexivity|].
           eapply Forall_impl; [|exact Hall]. intros x Hx.
           trans unprocessed; [exact Hx|]. rewrite Hun. apply sublist_filter.
  - intros [= <- <-]. split; [by rewrite Htable|]. split; [discriminate|].
    exists [EvBatchWriteItem requests]. split; [exact Htrace|].
    rewrite Hone. split; [cbn; unfold maxRetries in *; lia|].
    by constructor.
Qed.

(** The retry loop follows [retry_trace], and [retry_trace] leaves no
    choice: the outcome and the final world are determined. *)
Lemma retry_loop_trace (fuel : nat) (retry : Z)
    (requests : list (WriteRequest F)) (w : World F) :
  0 <= retry < maxRetries ->
  maxRetries - retry <= Z.of_nat fuel ->
  retry_trace retry requests w
    (retry_loop fuel retry requests w).1 (retry_loop fuel retry requests w).2.
Proof.
  revert retry requests w. induction fuel as [|fuel IH];
    intros retry requests w Hretry Hfuel; [lia|].
  cbn [retry_loop]. destruct (Z.ltb_spec retry maxRetries) as [_|?]; [|lia].
  destruct (BatchWriteItem requests w) as [[unprocessed|err] w1] eqn:Ecall.
  - destruct (Nat.eqb_spec (length unprocessed) 0) as [Hlen|Hlen].
    + apply length_zero_iff_nil in Hlen. subst unprocessed.
      by apply retry_done.
    + assert (Hne : unprocessed <> []) by (by intros ->).
      destruct (Z.eqb_spec retry (maxRetries - 1)) as [Hlast|Hmore].
      * exact (retry_exhausted retry requests w unprocessed w1 Ecall Hne Hlast).
      * apply (retry_again retry requests w unprocessed w1); [done..|lia|].
        apply IH; lia.
  - by apply retry_failed.
Qed.

Lemma retry_trace_functional (retry : Z) (requests : list (WriteRequest F))
    (w w1 w2 : World F) (res1 res2 : result unit) :
  retry_trace retry requests w res1 w1 ->
  retry_trace retry requests w res2 w2 ->
  res1 = res2 /\ w1 = w2.
Proof.
  intros H1. revert res2 w2.
  induction H1 as [retry requests w err w1 Hc
                  |retry requests w w1 Hc
                  |retry requests w un w1 Hc Hne Hlast
                  |retry requests w un w1 res w' Hc Hne Hmore _ IH];
    intros res2 w2 H2; inversion H2; subst;
    match goal with
    | H : BatchWriteItem requests w = _ |- _ =>
        rewrite Hc in H; injection H as ?; subst
    end; try done; try lia.
  by apply IH.
Qed.

(** One chunk. *)
Lemma batchWriteTransactions_trace (now : Time) (c : list (Transaction F))
    (w w' : World F) (res : result unit) :
  batchWriteTransactions now c w = (res, w') <->
  retry_trace 0 (write_request now <$> c) w res w'.
Proof.
  unfold batchWriteTransactions. rewrite write_requests_Ok.
  pose proof (retry_loop_trace (Z.to_nat maxRetries) 0
                (write_request now <$> c) w) as Ht.
  split.
  - intros E. rewrite E in Ht. apply Ht; unfold maxRetries; simpl; lia.
  - intros H2.
    destruct (retry_trace_functional _ _ _ _ _ _ _
                (Ht ltac:(unfold maxRetries; lia)
                    ltac:(unfold maxRetries; simpl; lia)) H2) as [<- <-].
    by destruct (retry_loop _ _ _ _).
Qed.

Lemma batchWriteTransactions_spec (now : Time) (c : list (Transaction F))
    (w w' : World F) (res : result unit) :
  batchWriteTransactions now c w = (res, w') ->
  (forall k, is_Some (table w !! k) -> is_Some (table w' !! k)) /\
  (res = Ok tt ->
   forall t, t ∈ c -> is_Some (table w' !! primary_key (GenerateKeys t))) /\
  (exists events,
     trace w' = trace w ++ events /\
     (length (submissions events) <= 3)%nat /\
     Forall (fun submitted => submitted `sublist_of` (write_request now <$> c))
       (submissions events)).
Proof.
  unfold batchWriteTransactions. rewrite write_requests_Ok. intros Hloop.
  apply retry_loop_spec in Hloop as (Hmono & Hdone & Htrace);
    [|unfold maxRetries; lia|unfold maxRetries; simpl; lia].
  split; [exact Hmono|]. split; [|exact Htrace].
  intros Hok t Ht.
  apply (Hdone Hok (write_request now t)).
  by apply list_elem_of_fmap_2.
Qed.

(** One turn of the retry loop against a store that answers with a
    report. *)
Lemma retry_loop_step (fuel : nat) (retry : Z)
    (requests : list (WriteRequest F)) (w : World F)
    (k : Item F -> bool) (rs : list (BatchResponse F)) :
  retry < maxRetries ->
  responses w = Unprocessed k :: rs ->
  retry_loop (S fuel) retry requests w
  = let w1 := {| table := put_all (processed_of k requests) (table w);
                 responses := rs;
                 trace := trace w ++ [EvBatchWriteItem requests] |} in
    if (length (left_over_of k requests) =? 0)%nat then (Ok tt, w1)
    else if retry =? maxRetries - 1 then
      (Err (Errorf "failed to process all items after 3 retries"), w1)
    else retry_loop fuel (retry + 1) (left_over_of k requests)
                    (Sleep ((retry + 1) * 100) w1).
Proof.
  intros Hretry Hresp. cbn [retry_loop].
  rewrite (proj2 (Z.ltb_lt _ _) Hretry).
  unfold BatchWriteItem. rewrite Hresp. reflexivity.
Qed.

Lemma retry_loop_step_all (fuel : nat) (retry : Z)
    (requests : list (WriteRequest F)) (w : World F) :
  retry < maxRetries ->
  responses w = [] ->
  retry_loop (S fuel) retry requests w
  = (Ok tt, {| table := put_all requests (table w);
               responses := [];
               trace := trace w ++ [EvBatchWriteItem requests] |}).
Proof.
  intros Hretry Hresp. cbn [retry_loop].
  rewrite (proj2 (Z.ltb_lt _ _) Hretry).
  unfold BatchWriteItem. rewrite Hresp. reflexivity.
Qed.

Lemma length_nonzero {A} (l : list A) : l <> [] -> (length l =? 0)%nat = false.
Proof. destruct l; [done|reflexivity]. Qed.

(** One retry: the store leaves a part unprocessed, then takes it. *)
Lemma batchWriteTransactions_one_retry (now : Time) (c : list (Transaction F))
    (w : World F) (k1 : Item F -> bool) :
  responses w = [Unprocessed k1] ->
  left_over_of k1 (write_request now <$> c) <> [] ->
  batchWriteTransactions now c w
  = (Ok tt,
     {| table := put_all (left_over_of k1 (write_request now <$> c))
                   (put_all (processed_of k1 (write_request now <$> c))
                      (table w));
        responses := [];
        trace := trace w
                 ++ [EvBatchWriteItem (write_request now <$> c);
                     EvSleep 100;
                     EvBatchWriteItem
                       (left_over_of k1 (write_request now <$> c))] |}).
Proof.
  intros Hresp Hleft. unfold batchWriteTransactions.
  rewrite write_requests_Ok. change (Z.to_nat maxRetries) with 3%nat.
  rewrite (retry_loop_step _ _ _ _ k1 []) by (unfold maxRetries; lia || done).
  cbn zeta. rewrite (length_nonzero _ Hleft).
  change (0 =? maxRetries - 1) with false. cbn iota.
  rewrite retry_loop_step_all by (unfold maxRetries; lia || done).
  cbn [Sleep table trace responses]. rewrite <- !app_assoc. reflexivity.
Qed.

(** The chunks in order: nothing written is taken back, whatever the
    outcome, and on success every transaction has been written. *)
Lemma run_chunks_spec (now : Time) (i : nat) (cs : list (list (Transaction F)))
    (w w' : World F) (res : result unit) :
  run_chunks now i cs w = (res, w') ->
  (forall k, is_Some (table w !! k) -> is_Some (table w' !! k)) /\
  (res = Ok tt ->
   forall c t, c ∈ cs -> t ∈ c ->
     is_Some (table w' !! primary_key (GenerateKeys t))).
Proof.
  revert i w. induction cs as [|c cs IH]; intros i w.
  - intros [= <- <-]. split; [auto|]. intros _ c t Hc.
    by apply not_elem_of_nil in Hc.
  - cbn [run_chunks].
    destruct (batchWriteTransactions now c w) as [[[]|e] w1] eqn:Ec;
      apply batchWriteTransactions_spec in Ec as (Hmono1 & Hdone1 & _).
    + intros Hrest. apply IH in Hrest as [Hmono Hdone].
      split; [intros k Hk; by apply Hmono, Hmono1|].
      intros Hok c' t Hc' Ht. apply elem_of_cons in Hc' as [->|Hc'].
      * by apply Hmono, Hdone1.
      * by apply (Hdone Hok c').
    + intros [= <- <-]. split; [exact Hmono1|discriminate].
Qed.

Lemma left_over_of_nil (left_over : Item F -> bool) :
  left_over_of left_over [] = [].
Proof. reflexivity. Qed.

(** A remainder that survives the third submission is fatal: no fourth
    submission, no third pause, and what the store took stays written. *)
Lemma batchWriteTransactions_exhausted (now : Time) (c : list (Transaction F))
    (w : World F) (k1 k2 k3 : Item F -> bool) (rs : list (BatchResponse F)) :
  responses w = Unprocessed k1 :: Unprocessed k2 :: Unprocessed k3 :: rs ->
  left_over_of k3 (left_over_of k2 (left_over_of k1 (write_request now <$> c)))
    <> [] ->
  let requests := write_request now <$> c in
  let u1 := left_over_of k1 requests in
  let u2 := left_over_of k2 u1 in
  batchWriteTransactions now c w
  = (Err (Errorf "failed to process all items after 3 retries"),
     {| table := put_all (processed_of k3 u2)
                   (put_all (processed_of k2 u1)
                      (put_all (processed_of k1 requests) (table w)));
        responses := rs;
        trace := trace w
                 ++ [EvBatchWriteItem requests; EvSleep 100;
                     EvBatchWriteItem u1; EvSleep 200;
                     EvBatchWriteItem u2] |}).
Proof.
  intros Hresp Hleft requests u1 u2. unfold batchWriteTransactions.
  rewrite write_requests_Ok. fold requests.
  assert (H2 : u2 <> []) by (intros E; apply Hleft; fold requests u1 u2;
                             by rewrite E).
  assert (H1 : u1 <> []) by (intros E; apply H2; unfold u2; by rewrite E).
  change (Z.to_nat maxRetries) with 3%nat.
  rewrite (retry_loop_step _ _ _ _ k1 (Unprocessed k2 :: Unprocessed k3 :: rs))
    by (unfold maxRetries; lia || done).
  cbn zeta. fold u1. rewrite (length_nonzero _ H1).
  change (0 =? maxRetries - 1) with false. cbn iota.
  rewrite (retry_loop_step _ _ _ _ k2 (Unprocessed k3 :: rs))
    by (unfold maxRetries; lia || done).
  cbn zeta. fold u2. rewrite (length_nonzero _ H2).
  change (0 + 1 =? maxRetries - 1) with false. cbn iota.
  rewrite (retry_loop_step _ _ _ _ k3 rs)
    by (unfold maxRetries; lia || done).
  cbn zeta. rewrite (length_nonzero (left_over_of k3 u2) Hleft).
  change (0 + 1 + 1 =? maxRetries - 1) with true. cbn iota.
  cbn [Sleep table trace responses]. rewrite <- !app_assoc. reflexivity.
Qed.

(** A batch put is unconditional: it replaces what is stored under the
    key. *)
Lemma BatchCreateTransactions_overwrites (now : Time) (t : Transaction F)
    (tbl : Table F) :
  BatchCreateTransactions now [t]
    {| table := tbl; responses := []; trace := [] |}
  = (Ok tt,
     {| table := <[primary_key (GenerateKeys t) :=
                     PutRequest (write_request now t)]> tbl;
        responses := [];
        trace := [EvBatchWriteItem [write_request now t]] |}).
Proof. reflexivity. Qed.

End BatchFacts.

(** C4. [BatchCreateTransactions] cuts the input into the consecutive
    chunks of at most 25 transactions and submits them in order, stopping
    at the first chunk that fails. One chunk runs exactly as
    [retry_trace] says: the write requests are submitted; as long as the
    store reports a remainder unprocessed, that remainder and nothing
    else is submitted again, after a pause of 100 ms and then of 200 ms,
    three submissions at most; a remainder that survives the third
    submission is the error "failed to process all items after 3
    retries", with no further submission or pause. Nothing written is
    taken back: what was stored before, what the store took of a failed
    chunk, and the chunks that went through, stay in the table whatever
    happens later. Each request is a plain put: where
    [CreateTransaction] refuses a key that exists, the batch replaces
    the item. *)
Theorem BatchCreateTransactions_chunks_and_retries {F : Type} `{Number F}
    (now : Time) (txs : list (Transaction F)) (w : World F) :
  concat (chunks txs) = txs /\
  Forall (fun c => (0 < length c <= 25)%nat) (chunks txs) /\
  BatchCreateTransactions now txs w = run_chunks now 0 (chunks txs) w /\
  (forall (c : list (Transaction F)) w0 res w1,
     batchWriteTransactions now c w0 = (res, w1) <->
     retry_trace 0 (write_request now <$> c) w0 res w1) /\
  (forall (c : list (Transaction F)) w0 res w1,
     batchWriteTransactions now c w0 = (res, w1) ->
     exists events,
       trace w1 = trace w0 ++ events /\
       (length (submissions events) <= 3)%nat /\
       Forall (fun submitted => submitted `sublist_of` (write_request now <$> c))
         (submissions events)) /\
  (forall (c : list (Transaction F)) w0 k1,
     responses w0 = [Unprocessed k1] ->
     left_over_of k1 (write_request now <$> c) <> [] ->
     batchWriteTransactions now c w0
     = (Ok tt,
        {| table := put_all (left_over_of k1 (write_request now <$> c))
                      (put_all (processed_of k1 (write_request now <$> c))
                         (table w0));
           responses := [];
           trace := trace w0
                    ++ [EvBatchWriteItem (write_request now <$> c);
                        EvSleep 100;
                        EvBatchWriteItem
                          (left_over_of k1 (write_request now <$> c))] |})) /\
  (forall (c : list (Transaction F)) w0 k1 k2 k3 rs,
     responses w0 = Unprocessed k1 :: Unprocessed k2 :: Unprocessed k3 :: rs ->
     left_over_of k3 (left_over_of k2
       (left_over_of k1 (write_request now <$> c))) <> [] ->
     let requests := write_request now <$> c in
     let u1 := left_over_of k1 requests in
     let u2 := left_over_of k2 u1 in
     batchWriteTransactions now c w0
     = (Err (Errorf "failed to process all items after 3 retries"),
        {| table := put_all (processed_of k3 u2)
                      (put_all (processed_of k2 u1)
                         (put_all (processed_of k1 requests) (table w0)));
           responses := rs;
           trace := trace w0
                    ++ [EvBatchWriteItem requests; EvSleep 100;
                        EvBatchWriteItem u1; EvSleep 200;
                        EvBatchWriteItem u2] |})) /\
  (forall res w',
     BatchCreateTransactions now txs w = (res, w') ->
     (forall k, is_Some (table w !! k) -> is_Some (table w' !! k)) /\
     (res = Ok tt ->
      forall t, t ∈ txs -> is_Some (table w' !! primary_key (GenerateKeys t)))) /\
  (forall i cs1 cs2 w1 res w',
     run_chunks now 0 cs1 w = (Ok tt, w1) ->
     run_chunks now i cs2 w1 = (res, w') ->
     forall c t, c ∈ cs1 -> t ∈ c ->
       is_Some (table w' !! primary_key (GenerateKeys t))) /\
  (forall (t : Transaction F) (tbl : Table F),
     is_Some (tbl !! primary_key (GenerateKeys t)) ->
     CreateTransaction t tbl
     = Err (Wrapf "failed to create transaction" ConditionalCheckFailedException) /\
     BatchCreateTransactions now [t]
       {| table := tbl; responses := []; trace := [] |}
     = (Ok tt,
        {| table := <[primary_key (GenerateKeys t) :=
                        PutRequest (write_request now t)]> tbl;
           responses := [];
           trace := [EvBatchWriteItem [write_request now t]] |})).
Proof.
  assert (Hrun : BatchCreateTransactions now txs w
                 = run_chunks now 0 (chunks txs) w).
  { unfold BatchCreateTransactions.
    rewrite chunk_loop_run_chunks by lia. by rewrite drop_0. }
  split; [apply chunks_of_concat; lia|].
  split; [apply (chunks_of_sizes (length txs) txs)|].
  split; [exact Hrun|].
  split; [intros c w0 res w1; apply batchWriteTransactions_trace|].
  split.
  { intros c w0 res w1 Hc.
    by apply batchWriteTransactions_spec in Hc as (_ & _ & Hev). }
  split; [intros c w0 k1; apply batchWriteTransactions_one_retry|].
  split; [intros c w0 k1 k2 k3 rs; apply batchWriteTransactions_exhausted|].
  split.
  { intros res w'. rewrite Hrun. intros Hr.
    apply run_chunks_spec in Hr as [Hmono Hdone]. split; [exact Hmono|].
    intros Hok t Ht.
    assert (Hin : t ∈ concat (chunks txs))
      by (unfold chunks; rewrite chunks_of_concat by lia; exact Ht).
    apply elem_of_concat in Hin as (c & Htc & Hc).
    by apply (Hdone Hok c). }
  split.
  { intros i cs1 cs2 w1 res w' H1 H2 c t Hc Ht.
    apply run_chunks_spec in H1 as [_ Hdone1].
    apply run_chunks_spec in H2 as [Hmono2 _].
    by apply Hmono2, (Hdone1 eq_refl c). }
  intros t tbl Hex. split; [by apply CreateTransaction_exists|].
  apply BatchCreateTransactions_overwrites.
Qed.

Lemma BatchCreateTransactions_chunks_and_retries_witness :
  batchWriteTransactions 1800000000 [lunch; salary]
    {| table := ∅; responses := [Unprocessed leaves_salary]; trace := [] |}
  = (Ok tt,
     {| table := put_all [write_request 1800000000 salary]
                   (put_all [write_request 1800000000 lunch] ∅);
        responses := [];
        trace := [EvBatchWriteItem [write_request 1800000000 lunch;
                                    write_request 1800000000 salary];
                  EvSleep 100;
                  EvBatchWriteItem [write_request 1800000000 salary]] |}) /\
  CreateTransaction lunch (<[primary_key lunch := lunch]> ∅)
  = Err (Wrapf "failed to create transaction" ConditionalCheckFailedException) /\
  BatchCreateTransactions 1800000000 [lunch]
    {| table := <[primary_key lunch := lunch]> ∅; responses := []; trace := [] |}
  = (Ok tt,
     {| table := <[primary_key (GenerateKeys lunch) :=
                     PutRequest (write_request 1800000000 lunch)]>
                   (<[primary_key lunch := lunch]> ∅);
        responses := [];
        trace := [EvBatchWriteItem [write_request 1800000000 lunch]] |}).
Proof.
  destruct (BatchCreateTransactions_chunks_and_retries 1800000000
              [lunch; salary] {| table := ∅; responses := []; trace := [] |})
    as (_ & _ & _ & _ & _ & Hretry & _ & _ & _ & Hput).
  split.
  - apply (Hretry [lunch; salary]
             {| table := ∅; responses := [Unprocessed leaves_salary];
                trace := [] |} leaves_salary); [reflexivity|].
    vm_compute. discriminate.
  - apply (Hput lunch (<[primary_key lunch := lunch]> ∅)).
    rewrite lookup_insert_eq. eauto.
Defined.

(** * Further properties *)


(** A record inserted under its generated key is filed under the month
    of its date. *)
Lemma inserted_listed_by_month {F : Type} `{Number F}
    (t : Transaction F) (tbl : Table F) (limit : Z) :
  0 < int32 limit ->
  (size (<[primary_key (GenerateKeys t) := GenerateKeys t]> tbl)
   <= Z.to_nat (int32 limit))%nat ->
  exists txs,
    GetTransactionsByMonth (UserID t) (Format_2006_01 (Date t)) limit
      (<[primary_key (GenerateKeys t) := GenerateKeys t]> tbl)
    = Ok txs /\
    GenerateKeys t ∈ txs.
Proof.
  intros Hpos Hsize. unfold GetTransactionsByMonth.
  destruct (Query_complete
              (GetTransactionsByMonth_input (UserID t)
                 (Format_2006_01 (Date t)) limit) _ (int32 limit)
              eq_refl Hpos Hsize) as (items & -> & Hperm).
  exists (unmarshal_items items). split; [reflexivity|].
  rewrite unmarshal_items_all, Hperm. apply elem_of_matching. split.
  - change (String.eqb (GSI1PK (GenerateKeys t))
              ("MONTH#" +:+ Format_2006_01 (Date t) +:+ "#" +:+ UserID t)
            = true).
    apply String.eqb_refl.
  - eexists. apply lookup_insert_eq.
Qed.

(** X1. A transaction stored by [CreateTransaction] is returned by
    [GetTransactionsByMonth] for its user and the month of its date,
    whenever the limit passed is positive (as an int32) and not below
    the number of items in the table. *)
Theorem created_found_by_month {F : Type} `{Number F} (t : Transaction F)
    (tbl tbl' : Table F) (limit : Z) :
  CreateTransaction t tbl = Ok tbl' ->
  0 < int32 limit ->
  (size tbl' <= Z.to_nat (int32 limit))%nat ->
  exists txs,
    GetTransactionsByMonth (UserID t) (Format_2006_01 (Date t)) limit tbl'
    = Ok txs /\
    GenerateKeys t ∈ txs.
Proof.
  intros Hc Hpos Hsize. apply CreateTransaction_inv in Hc as [_ ->].
  by apply inserted_listed_by_month.
Qed.

Lemma created_found_by_month_witness :
  exists txs,
    GetTransactionsByMonth "u1" "2024-01" 10 (<[primary_key lunch := lunch]> ∅)
    = Ok txs /\
    lunch ∈ txs.
Proof.
  apply (created_found_by_month lunch ∅ (<[primary_key lunch := lunch]> ∅) 10).
  - apply (CreateTransaction_fresh lunch). apply lookup_empty.
  - reflexivity.
  - vm_compute. lia.
Defined.

(** X2. A transaction stored by [CreateTransaction] is returned by
    [GetTransactionsByCategory] for its user and any spelling of its
    category that agrees with it up to the case of ASCII letters, under
    the same condition on the limit. *)
Theorem created_found_by_category {F : Type} `{Number F} (t : Transaction F)
    (tbl tbl' : Table F) (category : string) (limit : Z) :
  CreateTransaction t tbl = Ok tbl' ->
  ToUpper category = ToUpper (Category t) ->
  0 < int32 limit ->
  (size tbl' <= Z.to_nat (int32 limit))%nat ->
  exists txs,
    GetTransactionsByCategory (UserID t) category limit tbl' = Ok txs /\
    GenerateKeys t ∈ txs.
Proof.
  intros Hc Hcat Hpos Hsize. apply CreateTransaction_inv in Hc as [_ ->].
  unfold GetTransactionsByCategory.
  destruct (Query_complete
              (GetTransactionsByCategory_input (UserID t) category limit)
              _ (int32 limit) eq_refl Hpos Hsize) as (items & -> & Hperm).
  exists (unmarshal_items items). split; [reflexivity|].
  rewrite unmarshal_items_all, Hperm. apply elem_of_matching. split.
  - change (String.eqb (GSI2PK (GenerateKeys t))
              ("CATEGORY#" +:+ ToUpper category +:+ "#" +:+ UserID t)
            = true).
    rewrite Hcat. apply String.eqb_refl.
  - eexists. apply lookup_insert_eq.
Qed.

Lemma created_found_by_category_witness :
  exists txs,
    GetTransactionsByCategory "u1" "Food" 10 (<[primary_key lunch := lunch]> ∅)
    = Ok txs /\
    lunch ∈ txs.
Proof.
  apply (created_found_by_category lunch ∅ (<[primary_key lunch := lunch]> ∅)
           "Food" 10).
  - apply (CreateTransaction_fresh lunch). apply lookup_empty.
  - reflexivity.
  - reflexivity.
  - vm_compute. lia.
Defined.

(** X3. The three list queries of the repository return only items
    stored in the table, and of them only items of the partition asked
    for (the user's partition and sort keys starting with [TX#]; the
    month's partition of GSI1; the category's partition of GSI2), most
    recent first: in descending order of the sort key of the index
    queried. *)
Theorem list_queries_sound {F : Type} `{Number F} (tbl : Table F)
    (userID month category : string) (limit : Z)
    (txs : list (Transaction F)) :
  (GetTransactionsByUser userID limit tbl = Ok txs ->
   Forall (fun t => (exists k, tbl !! k = Some t) /\
                    PK t = "USER#" +:+ userID /\
                    begins_with (SK t) "TX#" = true) txs /\
   Sorted (fun a b => String.le (SK b) (SK a)) txs) /\
  (GetTransactionsByMonth userID month limit tbl = Ok txs ->
   Forall (fun t => (exists k, tbl !! k = Some t) /\
                    GSI1PK t = "MONTH#" +:+ month +:+ "#" +:+ userID) txs /\
   Sorted (fun a b => String.le (GSI1SK b) (GSI1SK a)) txs) /\
  (GetTransactionsByCategory userID category limit tbl = Ok txs ->
   Forall (fun t => (exists k, tbl !! k = Some t) /\
                    GSI2PK t
                    = "CATEGORY#" +:+ ToUpper category +:+ "#" +:+ userID) txs /\
   Sorted (fun a b => String.le (GSI2SK b) (GSI2SK a)) txs).
Proof.
  split; [|split]; intros Hq.
  - unfold GetTransactionsByUser in Hq.
    destruct (Query _ tbl) as [items|] eqn:E; [|discriminate].
    injection Hq as <-. rewrite unmarshal_items_all.
    apply Query_sound in E as [Hsub Hsorted]. split; [|exact Hsorted].
    apply list.Forall_forall.
    intros t Ht. apply Hsub, elem_of_matching in Ht as [Hm Hst].
    split; [exact Hst|].
    cbn in Hm. apply andb_prop in Hm as [Hpk Hsk].
    by apply String.eqb_eq in Hpk.
  - unfold GetTransactionsByMonth in Hq.
    destruct (Query _ tbl) as [items|] eqn:E; [|discriminate].
    injection Hq as <-. rewrite unmarshal_items_all.
    apply Query_sound in E as [Hsub Hsorted]. split; [|exact Hsorted].
    apply list.Forall_forall.
    intros t Ht. apply Hsub, elem_of_matching in Ht as [Hm Hst].
    split; [exact Hst|].
    cbn in Hm. by apply String.eqb_eq in Hm.
  - unfold GetTransactionsByCategory in Hq.
    destruct (Query _ tbl) as [items|] eqn:E; [|discriminate].
    injection Hq as <-. rewrite unmarshal_items_all.
    apply Query_sound in E as [Hsub Hsorted]. split; [|exact Hsorted].
    apply list.Forall_forall.
    intros t Ht. apply Hsub, elem_of_matching in Ht as [Hm Hst].
    split; [exact Hst|].
    cbn in Hm. by apply String.eqb_eq in Hm.
Qed.

Lemma list_queries_sound_witness :
  Forall (fun t : Transaction float =>
            (exists k,
               (<[primary_key lunch := lunch]>
                  (<[primary_key salary := salary]> ∅) : Table float) !! k
               = Some t) /\
            GSI1PK t = "MONTH#2024-01#u1")
    [salary; lunch] /\
  Sorted (fun a b : Transaction float => String.le (GSI1SK b) (GSI1SK a))
    [salary; lunch].
Proof.
  apply (list_queries_sound
           (<[primary_key lunch := lunch]> (<[primary_key salary := salary]> ∅))
           "u1" "2024-01" "food" 10 [salary; lunch]).
  vm_compute. reflexivity.
Defined.

(** ** The transaction service *)

#[export] Instance date_After_total {F : Type} :
  Total (transactionService.date_After (F:=F)).
Proof. intros a b. unfold transactionService.date_After. lia. Qed.

(** X4. Whatever the repository, the list [GetTransactionsByUser] of the
    service returns holds exactly the transactions the repository
    answered with for the effective limit, ordered by date, most recent
    first. *)
Theorem service_list_sorted_by_date {F S : Type} `{Number F}
    (repo : Repository F S) (userID : string) (limit : Z) (s : S)
    (txs : list (Transaction F)) :
  transactionService.GetTransactionsByUser repo userID limit s = Ok txs ->
  Sorted (fun a b => Date b <= Date a) txs /\
  exists answered,
    repo_GetTransactionsByUser repo userID (effective_limit limit) s
    = Ok answered /\
    txs ≡ₚ answered.
Proof.
  unfold transactionService.GetTransactionsByUser.
  destruct (String.eqb userID ""); [discriminate|].
  fold (effective_limit limit).
  destruct (repo_GetTransactionsByUser repo userID (effective_limit limit) s)
    as [answered|e]; [|discriminate].
  intros [= <-]. split.
  - apply (Sorted_merge_sort transactionService.date_After).
  - exists answered. split; [reflexivity|].
    apply merge_sort_Permutation.
Qed.

Lemma service_list_sorted_by_date_witness :
  Sorted (fun a b : Transaction float => Date b <= Date a)
    [entry "e3" 1706745600 (-30)%float "food" "expense";
     entry "e2" 1705708800 2000%float "salary" "income";
     entry "e1" 1705276800 (-50)%float "food" "expense"] /\
  exists answered,
    repo_GetTransactionsByUser (MockRepository example_ledger) "u1"
      (effective_limit 0) tt = Ok answered /\
    [entry "e3" 1706745600 (-30)%float "food" "expense";
     entry "e2" 1705708800 2000%float "salary" "income";
     entry "e1" 1705276800 (-50)%float "food" "expense"] ≡ₚ answered.
Proof.
  apply (service_list_sorted_by_date (MockRepository example_ledger) "u1" 0 tt).
  vm_compute. reflexivity.
Defined.

Section ValidateFacts.
Import transactionService.
Context {F S : Type} `{Number F}.

Lemma ValidateTransaction_inv (id : string) (now : Time)
    (t t' : Transaction F) :
  ValidateTransaction id now (Some t) = Ok t' ->
  String.eqb (UserID t) "" = false /\
  f_eqb (Amount t) f_zero = false /\
  String.eqb (Category t) "" = false /\
  (String.eqb (Type_ t) "income" = true \/
   String.eqb (Type_ t) "expense" = true) /\
  String.eqb (Description t) "" = false /\
  t' = set_bookkeeping
         (let t1 := if String.eqb (ID t) "" then set_ID t id else t in
          if IsZero (Date t) then set_Date t1 now else t1)
         (if IsZero (CreatedAt t) then now else CreatedAt t)
         now
         (if Version t =? 0 then 1 else Version t).
Proof.
  destruct t. unfold ValidateTransaction, set_ID, set_Date.
  unfold TransactionTypeIncome, TransactionTypeExpense.
  cbn -[IsZero]. destruct (String.eqb ID0 ""); cbn -[IsZero];
    (destruct (String.eqb UserID0 ""); [discriminate|]);
    (destruct (f_eqb Amount0 f_zero); [discriminate|]);
    (destruct (String.eqb Category0 ""); [discriminate|]);
    (destruct (String.eqb Type_0 "income");
     destruct (String.eqb Type_0 "expense"); cbn -[IsZero];
     try discriminate);
    (destruct (String.eqb Description0 ""); [discriminate|]);
    destruct (IsZero Date0); cbn -[IsZero]; intros [= <-]; auto 10.
Qed.

End ValidateFacts.

(** X5. What the service validation guarantees of a transaction it
    accepts: a non-empty user id, category and description, a non-zero
    amount, the type income or expense, a version other than 0, the
    current time as [UpdatedAt], the id drawn when none was given, and
    the caller's amount, category, type, description and user id
    unchanged. *)
Theorem ValidateTransaction_guarantees {F : Type} `{Number F}
    (id : string) (now : Time) (t t' : Transaction F) :
  transactionService.ValidateTransaction id now (Some t) = Ok t' ->
  UserID t' <> "" /\ Category t' <> "" /\ Description t' <> "" /\
  f_eqb (Amount t') f_zero = false /\
  (Type_ t' = "income" \/ Type_ t' = "expense") /\
  Version t' <> 0 /\
  UpdatedAt t' = now /\
  ID t' = (if String.eqb (ID t) "" then id else ID t) /\
  (Amount t', Category t', Type_ t', Description t', UserID t')
  = (Amount t, Category t, Type_ t, Description t, UserID t).
Proof.
  intros Hv.
  apply ValidateTransaction_inv in Hv as (Hu & Ha & Hc & Hty & Hd & ->).
  destruct t. cbn -[IsZero] in *.
  destruct (String.eqb ID0 "") eqn:Eid, (IsZero Date0);
    cbn -[IsZero];
    (repeat split;
     [by apply String.eqb_neq|by apply String.eqb_neq|by apply String.eqb_neq
     |exact Ha
     |destruct Hty as [Hty|Hty]; apply String.eqb_eq in Hty; auto
     |destruct (Z.eqb_spec Version0 0); lia]).
Qed.

Lemma ValidateTransaction_guarantees_witness :
  exists t' : Transaction float,
    transactionService.ValidateTransaction "id" 1800000000 (Some undated)
    = Ok t' /\
    UserID t' <> "" /\ Version t' <> 0 /\ UpdatedAt t' = 1800000000.
Proof.
  destruct (transactionService.ValidateTransaction "id" 1800000000
              (Some undated)) as [t'|e] eqn:E.
  - exists t'. split; [reflexivity|].
    destruct (ValidateTransaction_guarantees "id" 1800000000 undated t' E)
      as (Hu & _ & _ & _ & _ & Hv & Hup & _).
    auto.
  - vm_compute in E. discriminate E.
Defined.

(** X6. A transaction accepted by the service validation, at a clock
    that is not the zero time, is accepted by the entity's own
    [Validate]: the check [UpdateTransaction] of the repository starts
    with does not fail behind the service. *)
Theorem ValidateTransaction_then_Validate {F : Type} `{Number F}
    (id : string) (now : Time) (t t' : Transaction F) :
  IsZero now = false ->
  transactionService.ValidateTransaction id now (Some t) = Ok t' ->
  Validate t' = Ok tt /\ IsZero (Date t') = false.
Proof.
  intros Hnow Hv.
  apply ValidateTransaction_inv in Hv as (Hu & Ha & Hc & Hty & Hd & ->).
  destruct t. cbn -[IsZero] in *. unfold Validate.
  destruct (String.eqb ID0 ""), (IsZero Date0) eqn:Ez;
    cbn -[IsZero]; rewrite Hu, Ha, Hc, ?Hnow, ?Ez;
    destruct Hty as [-> | ->];
    rewrite ?andb_false_r; cbn -[IsZero]; auto.
Qed.

Lemma ValidateTransaction_then_Validate_witness :
  exists t' : Transaction float,
    transactionService.ValidateTransaction "id" 1800000000 (Some undated)
    = Ok t' /\
    Validate t' = Ok tt /\ IsZero (Date t') = false.
Proof.
  destruct (transactionService.ValidateTransaction "id" 1800000000
              (Some undated)) as [t'|e] eqn:E.
  - exists t'. split; [reflexivity|].
    apply (ValidateTransaction_then_Validate "id" 1800000000 undated t');
      [reflexivity|exact E].
  - vm_compute in E. discriminate E.
Defined.



(** X8. On a table whose items sit under their own keys,
    [DeleteTransaction] succeeds exactly on the record [GetTransaction]
    finds: it removes that record and nothing else, and a later
    [GetTransaction] for the same user and id does not return it; when
    [GetTransaction] fails, so does the deletion, with the error wrapped
    as "transaction not found". *)
Theorem DeleteTransaction_removes_found {F : Type} `{Number F}
    (userID id : string) (tbl : Table F) :
  well_keyed tbl ->
  (forall t, GetTransaction userID id tbl = Ok t ->
     DeleteTransaction userID id tbl = Ok (delete (primary_key t) tbl) /\
     delete (primary_key t) tbl !! primary_key t = None /\
     (forall k, k <> primary_key t ->
        delete (primary_key t) tbl !! k = tbl !! k) /\
     GetTransaction userID id (delete (primary_key t) tbl) <> Ok t) /\
  (forall e, GetTransaction userID id tbl = Err e ->
     DeleteTransaction userID id tbl = Err (Wrapf "transaction not found" e)).
Proof.
  intros Hw. split.
  - intros t Hget. pose proof Hget as Hinv.
    apply GetTransaction_inv in Hinv as (_ & _ & _ & k & Hk).
    pose proof (Hw k t Hk) as ->.
    split; [|split; [apply lookup_delete_eq|split]].
    + unfold DeleteTransaction, DeleteItem. rewrite Hget.
      cbn [del_Key del_ConditionExpression].
      change (PK t, SK t) with (primary_key t). rewrite Hk. reflexivity.
    + intros k Hne. by apply lookup_delete_ne.
    + intros Hget'. apply GetTransaction_inv in Hget' as (_ & _ & _ & k' & Hk').
      pose proof (well_keyed_delete tbl (primary_key t) Hw k' t Hk') as ->.
      by rewrite lookup_delete_eq in Hk'.
  - intros e Hget. unfold DeleteTransaction. by rewrite Hget.
Qed.

Lemma DeleteTransaction_removes_found_witness :
  DeleteTransaction "u1" "tx1" both_keys
  = Ok (delete (primary_key seeded_lunch) both_keys) /\
  delete (primary_key seeded_lunch) both_keys !! primary_key seeded_lunch
  = None /\
  (forall k, k <> primary_key seeded_lunch ->
     delete (primary_key seeded_lunch) both_keys !! k = both_keys !! k) /\
  GetTransaction "u1" "tx1" (delete (primary_key seeded_lunch) both_keys)
  <> Ok seeded_lunch.
Proof.
  apply (DeleteTransaction_removes_found "u1" "tx1" both_keys).
  - unfold both_keys. apply well_keyed_insert, (well_keyed_insert _ lunch).
    intros k it Hk. by rewrite lookup_empty in Hk.
  - vm_compute. reflexivity.
Defined.

(** X9. On a table written by the ingestion tool alone (every item under
    its own key, every sort key starting with [TX#]) no
    [UpdateTransaction] succeeds: when the record is found and the
    request is valid the conditional put addresses the regenerated key
    [TRANSACTION#...], under which nothing is stored, and the update
    reports a conflict although nobody else wrote. *)
Theorem UpdateTransaction_on_seeded_table {F : Type} `{Number F}
    (now : Time) (t : Transaction F) (tbl : Table F) :
  well_keyed tbl ->
  (forall k it, tbl !! k = Some it -> begins_with (SK it) "TX#" = true) ->
  is_Ok (UpdateTransaction now t tbl) = false /\
  (forall existing,
     Validate t = Ok tt ->
     GetTransaction (UserID t) (ID t) tbl = Ok existing ->
     UpdateTransaction now t tbl = Err conflict).
Proof.
  intros Hw Htx.
  assert (Hnone : forall u : Transaction F,
             tbl !! primary_key (GenerateKeys u) = None).
  { intros u. destruct (tbl !! primary_key (GenerateKeys u)) as [it|] eqn:E;
      [|reflexivity].
    pose proof (Htx _ _ E) as Hsk. apply Hw in E.
    apply (f_equal snd) in E. cbn [snd primary_key] in E.
    rewrite <- E in Hsk. rewrite GenerateKeys_SK_not_TX in Hsk. discriminate. }
  assert (Hfound : forall existing,
             Validate t = Ok tt ->
             GetTransaction (UserID t) (ID t) tbl = Ok existing ->
             UpdateTransaction now t tbl = Err conflict).
  { intros existing Hv Hget. unfold UpdateTransaction, UpdateTransaction_read.
    rewrite Hv, Hget. apply UpdateTransaction_write_conflict.
    intros stored Hst. rewrite GenerateKeys_idempotent in Hst.
    by rewrite Hnone in Hst. }
  split; [|exact Hfound].
  destruct (Validate t) as [[]|e] eqn:Hv.
  - destruct (GetTransaction (UserID t) (ID t) tbl) as [existing|e] eqn:Hget.
    + by rewrite (Hfound existing).
    + unfold UpdateTransaction, UpdateTransaction_read. by rewrite Hv, Hget.
  - unfold UpdateTransaction, UpdateTransaction_read. by rewrite Hv.
Qed.

Lemma UpdateTransaction_on_seeded_table_witness :
  is_Ok (UpdateTransaction 1800000000 dinner
           (<[primary_key seeded_lunch := seeded_lunch]> ∅)) = false /\
  (forall existing,
     Validate dinner = Ok tt ->
     GetTransaction (UserID dinner) (ID dinner)
       (<[primary_key seeded_lunch := seeded_lunch]> ∅) = Ok existing ->
     UpdateTransaction 1800000000 dinner
       (<[primary_key seeded_lunch := seeded_lunch]> ∅) = Err conflict).
Proof.
  apply (UpdateTransaction_on_seeded_table 1800000000 dinner
           (<[primary_key seeded_lunch := seeded_lunch]> ∅)).
  - apply well_keyed_insert. intros k it Hk. by rewrite lookup_empty in Hk.
  - intros k it Hk. apply lookup_insert_Some in Hk as [[_ <-]|[_ Hk]];
      [reflexivity|by rewrite lookup_empty in Hk].
Defined.

(** ** Categories and months in use *)

Section SetFacts.
Import analyticsService.
Context {F S : Type} `{Number F} (repo : Repository F S).

Lemma elem_of_month_set (txs : list (Transaction F)) (m : string) :
  m ∈ month_set txs <-> exists t, t ∈ txs /\ Format_2006_01 (Date t) = m.
Proof.
  unfold month_set. induction txs as [|t txs IH] using rev_ind.
  - simpl. split; [set_solver|]. intros (t & Ht & _).
    by apply not_elem_of_nil in Ht.
  - rewrite foldl_snoc, elem_of_union, elem_of_singleton, IH. split.
    + intros [->|(t' & Ht' & Hc)].
      * exists t. split; [apply elem_of_app; right; left|reflexivity].
      * exists t'. split; [apply elem_of_app; by left|exact Hc].
    + intros (t' & Ht' & Hc). apply elem_of_app in Ht' as [Ht'|Ht'].
      * right. eauto.
      * apply list_elem_of_singleton in Ht' as ->. by left.
Qed.

End SetFacts.

(** X10. [GetUniqueCategories] returns every category carried by a
    fetched transaction, each once and nothing else;
    [GetMonthsWithTransactions] does the same for the months
    ([YYYY-MM]) of their dates. *)
Theorem unique_categories_and_months {F S : Type} `{Number F}
    (repo : Repository F S) (userID : string) (s : S)
    (txs : list (Transaction F)) :
  userID <> "" ->
  repo_GetTransactionsByUser repo userID 1000 s = Ok txs ->
  (exists categories,
     analyticsService.GetUniqueCategories repo userID s = Ok categories /\
     NoDup categories /\
     forall c, c ∈ categories <-> exists t, t ∈ txs /\ Category t = c) /\
  (exists months,
     analyticsService.GetMonthsWithTransactions repo userID s = Ok months /\
     NoDup months /\
     forall m, m ∈ months <->
               exists t, t ∈ txs /\ Format_2006_01 (Date t) = m).
Proof.
  intros Hu Hrepo. apply String.eqb_neq in Hu. split.
  - exists (elements (analyticsService.category_set txs)).
    unfold analyticsService.GetUniqueCategories. rewrite Hu, Hrepo.
    split; [reflexivity|]. split; [apply NoDup_elements|].
    intros c. rewrite elem_of_elements. apply elem_of_category_set.
  - exists (elements (analyticsService.month_set txs)).
    unfold analyticsService.GetMonthsWithTransactions. rewrite Hu, Hrepo.
    split; [reflexivity|]. split; [apply NoDup_elements|].
    intros m. rewrite elem_of_elements. apply elem_of_month_set.
Qed.

Lemma unique_categories_and_months_witness :
  (exists categories,
     analyticsService.GetUniqueCategories (MockRepository example_ledger)
       "u1" tt = Ok categories /\
     NoDup categories /\
     forall c, c ∈ categories <->
               exists t, t ∈ example_ledger /\ Category t = c) /\
  (exists months,
     analyticsService.GetMonthsWithTransactions (MockRepository example_ledger)
       "u1" tt = Ok months /\
     NoDup months /\
     forall m, m ∈ months <->
               exists t, t ∈ example_ledger /\ Format_2006_01 (Date t) = m).
Proof.
  apply (unique_categories_and_months (MockRepository example_ledger) "u1" tt
           example_ledger); [discriminate|reflexivity].
Defined.

(** ** Batch load against a store that processes everything *)

Section CooperativeStore.
Context {F : Type} `{Number F}.

Lemma put_all_app (r1 r2 : list (WriteRequest F)) (tbl : Table F) :
  put_all (r1 ++ r2) tbl = put_all r2 (put_all r1 tbl).
Proof. unfold put_all. apply foldl_app. Qed.

Lemma run_chunks_cooperative (now : Time) (i : nat)
    (cs : list (list (Transaction F))) (tbl : Table F) (ev : list (Event F)) :
  run_chunks now i cs {| table := tbl; responses := []; trace := ev |}
  = (Ok tt,
     {| table := put_all (write_request now <$> concat cs) tbl;
        responses := [];
        trace := ev ++ ((fun c => EvBatchWriteItem (write_request now <$> c))
                        <$> cs) |}).
Proof.
  revert i tbl ev. induction cs as [|c cs IH]; intros i tbl ev.
  - cbn. by rewrite app_nil_r.
  - cbn [run_chunks]. unfold batchWriteTransactions.
    rewrite write_requests_Ok. change (Z.to_nat maxRetries) with 3%nat.
    cbn [retry_loop]. change (0 <? maxRetries) with true. cbn iota.
    unfold BatchWriteItem. cbn [responses table trace length Nat.eqb].
    rewrite IH. cbn [concat fmap list_fmap].
    rewrite fmap_app, put_all_app, <- app_assoc. reflexivity.
Qed.

End CooperativeStore.

(** X11. Against a store that leaves nothing unprocessed,
    [BatchCreateTransactions] succeeds, submits each chunk once and never
    pauses (one [BatchWriteItem] call per chunk of 25), and the table
    afterwards is the table before with every transaction put, in input
    order, under its generated key with [CreatedAt] and [UpdatedAt] set
    to the current time. *)
Theorem BatchCreateTransactions_cooperative {F : Type} `{Number F}
    (now : Time) (txs : list (Transaction F)) (tbl : Table F) :
  BatchCreateTransactions now txs
    {| table := tbl; responses := []; trace := [] |}
  = (Ok tt,
     {| table := put_all (write_request now <$> txs) tbl;
        responses := [];
        trace := (fun c => EvBatchWriteItem (write_request now <$> c))
                 <$> chunks txs |}) /\
  (forall t, t ∈ txs ->
     exists stored,
       put_all (write_request now <$> txs) tbl !! primary_key (GenerateKeys t)
       = Some stored /\
       CreatedAt stored = now /\ UpdatedAt stored = now).
Proof.
  split.
  - unfold BatchCreateTransactions.
    rewrite chunk_loop_run_chunks by lia. rewrite drop_0.
    rewrite run_chunks_cooperative. unfold chunks at 1.
    rewrite chunks_of_concat by lia. reflexivity.
  - intros t Ht.
    enough (Hgen : forall (l : list (Transaction F)) (m : Table F),
               (t ∈ l \/ exists stored,
                   m !! primary_key (GenerateKeys t) = Some stored /\
                   CreatedAt stored = now /\ UpdatedAt stored = now) ->
               exists stored,
                 put_all (write_request now <$> l) m
                   !! primary_key (GenerateKeys t) = Some stored /\
                 CreatedAt stored = now /\ UpdatedAt stored = now)
      by (apply Hgen; by left).
    induction l as [|a l IH]; intros m [Hin|Hst].
    + by apply not_elem_of_nil in Hin.
    + exact Hst.
    + cbn [fmap list_fmap put_all foldl]. apply IH.
      apply elem_of_cons in Hin as [->|Hin]; [right|by left].
      eexists. split; [apply lookup_insert_eq|]. split; reflexivity.
    + cbn [fmap list_fmap put_all foldl]. apply IH. right.
      destruct Hst as (stored & Hst & Hc & Hu).
      destruct (decide (primary_key (PutRequest (write_request now a))
                        = primary_key (GenerateKeys t))) as [Heq|Hne].
      * eexists. split; [rewrite Heq; apply lookup_insert_eq|].
        split; reflexivity.
      * exists stored. split; [by rewrite lookup_insert_ne|]. by split.
Qed.

Lemma BatchCreateTransactions_cooperative_witness :
  BatchCreateTransactions 1800000000 [lunch; salary]
    {| table := ∅; responses := []; trace := [] |}
  = (Ok tt,
     {| table := put_all (write_request 1800000000 <$> [lunch; salary]) ∅;
        responses := [];
        trace := (fun c => EvBatchWriteItem (write_request 1800000000 <$> c))
                 <$> chunks [lunch; salary] |}).
Proof.
  exact (proj1 (BatchCreateTransactions_cooperative 1800000000
                  [lunch; salary] ∅)).
Defined.

(** ** Limits beyond the int32 range *)

(** X12. The limit is narrowed to 32 bits before it reaches the store:
    a caller's limit whose int32 value is not positive (2147483648, for
    one) makes the store refuse the query, and the service's list
    operation returns that error wrapped as "failed to query
    transactions" instead of a list. *)
Theorem limit_wraps_to_refused {F : Type} `{Number F} (userID : string)
    (limit : Z) (tbl : Table F) :
  userID <> "" -> 0 < limit -> int32 limit <= 0 ->
  transactionService.GetTransactionsByUser DynamoDBRepository userID limit tbl
  = Err (Wrapf "failed to query transactions"
           (ServiceError "ValidationException")).
Proof.
  intros Hu Hpos Hwrap. apply String.eqb_neq in Hu.
  unfold transactionService.GetTransactionsByUser. rewrite Hu.
  destruct (Z.leb_spec limit 0); [lia|].
  cbn [repo_GetTransactionsByUser DynamoDBRepository].
  unfold GetTransactionsByUser, Query.
  cbn [Limit GetTransactionsByUser_input].
  destruct (Z.leb_spec (int32 limit) 0); [reflexivity|lia].
Qed.

Lemma limit_wraps_to_refused_witness :
  transactionService.GetTransactionsByUser DynamoDBRepository "u1"
    2147483648 crowded
  = Err (Wrapf "failed to query transactions"
           (ServiceError "ValidationException")).
Proof.
  apply (limit_wraps_to_refused "u1" 2147483648 crowded).
  - discriminate.
  - lia.
  - vm_compute. discriminate.
Defined.

(** ** The primary key determines the record *)

Section KeyInjectivity.

Lemma split_at_char (c : ascii) (s1 s2 r1 r2 : string) :
  free_of c s1 -> free_of c s2 ->
  s1 +:+ String c r1 = s2 +:+ String c r2 ->
  s1 = s2 /\ r1 = r2.
Proof.
  revert s2. induction s1 as [|a s1 IH]; intros [|b s2] H1 H2; cbn.
  - by intros [= ->].
  - intros [= <- _]. by destruct H2.
  - intros [= -> _]. by destruct H1.
  - intros [= -> Hrest]. destruct H1 as [_ H1], H2 as [_ H2].
    destruct (IH s2 H1 H2 Hrest) as [-> ->]. done.
Qed.

Lemma pretty_N_go_free (x : N) (s : string) :
  free_of "#" s -> free_of "#" (pretty_N_go x s).
Proof.
  revert s. induction (N.lt_wf_0 x) as [x _ IH]; intros s Hs.
  destruct (decide (x = 0)%N) as [->|Hx]; [by rewrite pretty_N_go_0|].
  rewrite pretty_N_go_step by lia. apply IH.
  - apply N.div_lt; lia.
  - split; [|exact Hs]. unfold pretty_N_char.
    repeat case_match; discriminate.
Qed.

Lemma pretty_Z_free (z : Z) : free_of "#" (pretty z).
Proof.
  assert (HN : forall n : N, free_of "#" (pretty n)).
  { intros n. unfold pretty, pretty_N. case_decide.
    - cbn. split; [discriminate|exact I].
    - apply pretty_N_go_free. exact I. }
  destruct z as [|p|p].
  - cbn. split; [discriminate|exact I].
  - exact (HN (N.pos p)).
  - split; [discriminate|]. exact (HN (N.pos p)).
Qed.

End KeyInjectivity.

(** X13. Two transactions get the same primary key from [GenerateKeys]
    exactly when they agree on the user id, the date (to the second) and
    the id: no two distinct records of the repository collide, and the
    refusal of [CreateTransaction] on an existing key means that very
    user, second and id are already stored. *)
Theorem primary_key_injective {F : Type} `{Number F} (t u : Transaction F) :
  primary_key (GenerateKeys t) = primary_key (GenerateKeys u) <->
  UserID t = UserID u /\ Unix (Date t) = Unix (Date u) /\ ID t = ID u.
Proof.
  split.
  - unfold primary_key. cbn [PK SK GenerateKeys].
    intros [= Hpk Hsk].
    change ("#" +:+ ID t) with (String "#" (ID t)) in Hsk.
    change ("#" +:+ ID u) with (String "#" (ID u)) in Hsk.
    apply split_at_char in Hsk as [Hd Hid]; try apply pretty_Z_free.
    apply (inj pretty) in Hd. auto.
  - intros (Hu & Hd & Hid). unfold primary_key. cbn [PK SK GenerateKeys].
    by rewrite Hu, Hd, Hid.
Qed.

(** ** Listing by user on tables the repository wrote *)

(** X14. On a table in which every sort key is the one [GenerateKeys]
    gives (a table written by [CreateTransaction], [UpdateTransaction]
    and [BatchCreateTransactions] alone) the listing by user is empty
    for every user and every limit the store accepts, and with it the
    financial summary of the DynamoDB repository reports zero income,
    zero expenses and no category. *)
Theorem listing_by_user_empty {F : Type} `{Number F} (tbl : Table F)
    (userID : string) (limit now : Z) :
  (forall k it, tbl !! k = Some it -> SK it = SK (GenerateKeys it)) ->
  (0 < int32 limit -> GetTransactionsByUser userID limit tbl = Ok []) /\
  (userID <> "" ->
   analyticsService.GetFinancialSummary DynamoDBRepository now userID tbl
   = Ok (analyticsService.summarize now [])).
Proof.
  intros Hgen.
  assert (Hq : forall l, 0 < int32 l ->
             GetTransactionsByUser userID l tbl = Ok []).
  { intros l Hl. unfold GetTransactionsByUser.
    destruct (Query (GetTransactionsByUser_input userID l) tbl)
      as [items|e] eqn:E.
    - apply Query_sound in E as [Hsub _]. destruct items as [|it items];
        [reflexivity|].
      assert (Hin : it ∈ matching (GetTransactionsByUser_input userID l) tbl)
        by (apply Hsub; left).
      apply elem_of_matching in Hin as [Hm [k Hk]].
      cbn in Hm. apply andb_prop in Hm as [_ Hsk].
      rewrite (Hgen k it Hk), GenerateKeys_SK_not_TX in Hsk. discriminate.
    - unfold Query in E. cbn [Limit GetTransactionsByUser_input] in E.
      destruct (Z.leb_spec (int32 l) 0); [lia|discriminate]. }
  split; [apply Hq|].
  intros Hu. apply String.eqb_neq in Hu.
  unfold analyticsService.GetFinancialSummary. rewrite Hu.
  cbn [repo_GetTransactionsByUser DynamoDBRepository].
  rewrite Hq by (vm_compute; reflexivity). reflexivity.
Qed.

Lemma listing_by_user_empty_witness :
  (0 < int32 50 ->
   GetTransactionsByUser "u1" 50
     (<[primary_key lunch := lunch]> (<[primary_key salary := salary]> ∅))
   = Ok []) /\
  ("u1" <> "" ->
   analyticsService.GetFinancialSummary DynamoDBRepository 0 "u1"
     (<[primary_key lunch := lunch]> (<[primary_key salary := salary]> ∅))
   = Ok (analyticsService.summarize 0 [])).
Proof.
  apply (listing_by_user_empty
           (<[primary_key lunch := lunch]> (<[primary_key salary := salary]> ∅))
           "u1" 50 0).
  intros k it Hk.
  apply lookup_insert_Some in Hk as [[_ <-]|[_ Hk]]; [reflexivity|].
  apply lookup_insert_Some in Hk as [[_ <-]|[_ Hk]]; [reflexivity|].
  by rewrite lookup_empty in Hk.
Defined.

(** ** Creation through the service *)

(** X15. A transaction created through the service on the DynamoDB
    repository is stored under its generated key and is listed by
    [GetTransactionsByMonth] under its user and the month of the date it
    was stored with (the caller's date, or the current time when the
    caller gave none), for every limit that is positive as an int32 and
    not below the size of the table. *)
Theorem service_create_then_list_by_month {F : Type} `{Number F}
    (id : string) (now : Time) (t t' : Transaction F) (tbl tbl' : Table F)
    (limit : Z) :
  transactionService.CreateTransaction DynamoDBRepository id now (Some t) tbl
  = Ok (t', tbl') ->
  0 < int32 limit ->
  (size tbl' <= Z.to_nat (int32 limit))%nat ->
  tbl' !! primary_key t' = Some t' /\
  Date t' = (if IsZero (Date t) then now else Date t) /\
  exists txs,
    GetTransactionsByMonth (UserID t') (Format_2006_01 (Date t')) limit tbl'
    = Ok txs /\
    t' ∈ txs.
Proof.
  unfold transactionService.CreateTransaction.
  destruct (transactionService.ValidateTransaction id now (Some t))
    as [v|e] eqn:Ev; [|discriminate].
  cbn [repo_CreateTransaction DynamoDBRepository].
  destruct (CreateTransaction (GenerateKeys v) tbl) as [tbl1|e] eqn:Ec;
    [|discriminate].
  intros [= <- <-] Hpos Hsize.
  apply CreateTransaction_inv in Ec as [_ ->].
  pose proof (inserted_listed_by_month (GenerateKeys v) tbl limit
                Hpos Hsize) as Hfound.
  split; [apply lookup_insert_eq|].
  split; [exact (ValidateTransaction_Date id now t v Ev)|].
  exact Hfound.
Qed.

Lemma service_create_then_list_by_month_witness :
  exists t' tbl',
    transactionService.CreateTransaction DynamoDBRepository "id" 1800000000
      (Some undated) ∅ = Ok (t', tbl') /\
    tbl' !! primary_key t' = Some t' /\
    Date t' = 1800000000 /\
    exists txs,
      GetTransactionsByMonth (UserID t') (Format_2006_01 (Date t')) 10 tbl'
      = Ok txs /\
      t' ∈ txs.
Proof.
  set (t' := GenerateKeys (set_bookkeeping
                (transactionService.set_Date undated 1800000000)
                1800000000 1800000000 1)).
  assert (Hc : transactionService.CreateTransaction DynamoDBRepository "id"
                 1800000000 (Some undated) ∅
               = Ok (t', <[primary_key t' := t']> ∅)).
  { unfold transactionService.CreateTransaction.
    assert (Hv : transactionService.ValidateTransaction "id" 1800000000
                   (Some undated)
                 = Ok (set_bookkeeping
                         (transactionService.set_Date undated 1800000000)
                         1800000000 1800000000 1)) by (vm_compute; reflexivity).
    rewrite Hv. cbn [repo_CreateTransaction DynamoDBRepository].
    rewrite CreateTransaction_fresh by apply lookup_empty. reflexivity. }
  exists t', (<[primary_key t' := t']> ∅). split; [exact Hc|].
  destruct (service_create_then_list_by_month "id" 1800000000 undated t'
              ∅ (<[primary_key t' := t']> ∅) 10 Hc) as (Hst & Hd & Hl).
  - reflexivity.
  - rewrite map_size_insert_None by apply lookup_empty.
    rewrite map_size_empty. vm_compute. lia.
  - auto.
Defined.

(** ** Monthly analytics of the repository *)

Section MonthlyFacts.
Context {F : Type} `{Number F}.

Lemma analytics_step_count (init : MonthlyAnalytics F)
    (txs : list (Transaction F)) :
  ma_TransactionCount (foldl analytics_step init txs)
  = ma_TransactionCount init + Z.of_nat (length txs) /\
  ma_Month (foldl analytics_step init txs) = ma_Month init.
Proof.
  revert init. induction txs as [|t txs IH]; intros init.
  - cbn. split; [lia|done].
  - cbn [foldl]. destruct (IH (analytics_step init t)) as [-> ->].
    cbn [analytics_step ma_TransactionCount ma_Month length]. split; [lia|done].
Qed.

Lemma analytics_step_breakdown (init : MonthlyAnalytics F)
    (txs : list (Transaction F)) (c : string) :
  ma_CategoryBreakdown (foldl analytics_step init txs) !! c
  = match filter (in_category c) txs with
    | [] => ma_CategoryBreakdown init !! c
    | l => Some (foldl f_add (default f_zero (ma_CategoryBreakdown init !! c))
                   (Amount <$> l))
    end.
Proof.
  revert init. induction txs as [|t txs IH]; intros init; [done|].
  cbn [foldl]. rewrite IH, filter_cons.
  cbn [analytics_step ma_CategoryBreakdown].
  destruct (decide (in_category c t)) as [Hc|Hc].
  - unfold in_category in Hc. subst c. rewrite lookup_insert_eq.
    by destruct (filter (in_category (Category t)) txs).
  - unfold in_category in Hc. by rewrite lookup_insert_ne.
Qed.

End MonthlyFacts.

(** X16. [GetMonthlyAnalytics] of the repository always answers, from the
    month listing at limit 1000: the month is the one asked for, the count
    is the number of transactions listed, a transaction of any type other
    than ["income"] goes to the expense total, the balance is income minus
    that total, and the breakdown has exactly the categories that occur,
    each with its amounts added as stored, in the order listed. *)
Theorem monthly_analytics_structure {F : Type} `{Number F}
    (userID month : string) (tbl : Table F) :
  exists txs a,
    GetTransactionsByMonth userID month 1000 tbl = Ok txs /\
    GetMonthlyAnalytics userID month tbl = Ok a /\
    ma_Month a = month /\
    ma_TransactionCount a = Z.of_nat (length txs) /\
    ma_TotalIncome a = signed_sum (Amount <$> filter is_income txs) /\
    ma_TotalExpense a
    = signed_sum (Amount <$> filter (fun t => ~ is_income t) txs) /\
    ma_Balance a = f_sub (ma_TotalIncome a) (ma_TotalExpense a) /\
    forall c,
      ma_CategoryBreakdown a !! c
      = match filter (in_category c) txs with
        | [] => None
        | l => Some (signed_sum (Amount <$> l))
        end.
Proof.
  destruct (GetTransactionsByMonth userID month 1000 tbl) as [txs|e] eqn:E.
  - exists txs, (analytics_of month txs). split; [done|].
    split; [unfold GetMonthlyAnalytics; by rewrite E|].
    destruct (analytics_of_totals month txs) as (Hi & He & Hb).
    unfold analytics_of in *.
    cbn [ma_Month ma_TransactionCount ma_CategoryBreakdown
         ma_TotalIncome ma_TotalExpense ma_Balance] in *.
    match goal with
    | |- context [foldl analytics_step ?i txs] =>
        destruct (analytics_step_count i txs) as [Hn Hm]
    end.
    cbn [ma_Month ma_TransactionCount] in Hn, Hm.
    split; [exact Hm|]. split; [rewrite Hn; lia|].
    split; [exact Hi|]. split; [exact He|]. split; [exact Hb|].
    intros c. rewrite analytics_step_breakdown.
    cbn [ma_CategoryBreakdown]. by rewrite lookup_empty.
  - exfalso. unfold GetTransactionsByMonth, Query in E.
    cbn [Limit GetTransactionsByMonth_input] in E.
    destruct (Z.leb_spec (int32 1000) 0) as [Hle|_];
      [vm_compute in Hle; by apply Hle|].
    discriminate.
Qed.

(** ** Budgets *)

(** Budgets live in the table of the transactions; their sort keys begin
    with [BUDGET#], so no budget operation reads or writes a transaction
    item, and the budget items are followed here on their own. *)

Section BudgetFacts.
Context {F : Type} `{Number F}.

Lemma prefix_app (p x : string) : String.prefix p (p +:+ x) = true.
Proof.
  induction p as [|a p IH]; [by destruct x|].
  change (String.prefix (String a p) (String a (p +:+ x)) = true). simpl.
  destruct (ascii_dec a a); [exact IH|done].
Qed.

Lemma append_assoc (a b c : string) : (a +:+ b) +:+ c = a +:+ (b +:+ c).
Proof.
  induction a as [|x a IH]; [done|].
  change (String x ((a +:+ b) +:+ c) = String x (a +:+ (b +:+ c))).
  by rewrite IH.
Qed.

Lemma budget_key_prefix (month upper : string) :
  begins_with ("BUDGET#" +:+ month +:+ "#" +:+ upper)
              ("BUDGET#" +:+ month +:+ "#") = true.
Proof.
  unfold begins_with.
  rewrite <- (append_assoc month "#" upper),
          <- (append_assoc "BUDGET#" (month +:+ "#") upper).
  apply prefix_app.
Qed.

Lemma foldl_budgets (acc items : list (Budget F)) :
  foldl (fun budgets item =>
           match Budget_FromDynamoDBItem item with
           | Err _ => budgets
           | Ok budget => budgets ++ [budget]
           end) acc items = acc ++ items.
Proof.
  revert acc. induction items as [|it items IH]; intros acc; cbn.
  - by rewrite app_nil_r.
  - rewrite IH, <- app_assoc. done.
Qed.

(** What [GetBudgetsByMonth] lists: the stored budgets of the partition
    whose sort key begins with the month's prefix, in the order of their
    sort keys. *)
Lemma GetBudgetsByMonth_spec (userID month : string)
    (tbl : gmap (string * string) (Budget F)) :
  exists l,
    GetBudgetsByMonth userID month tbl = Ok l /\
    Sorted budget_sk_le l /\
    forall b, b ∈ l <->
      (exists k, tbl !! k = Some b) /\
      b_PK b = "USER#" +:+ userID /\
      begins_with (b_SK b) ("BUDGET#" +:+ month +:+ "#") = true.
Proof.
  eexists. split; [reflexivity|]. rewrite foldl_budgets, app_nil_l. split.
  - apply Sorted_merge_sort. intros a b. unfold budget_sk_le.
    apply (total String.le).
  - intros b. rewrite merge_sort_Permutation, list_elem_of_filter,
      list_elem_of_fmap.
    rewrite andb_true_iff, String.eqb_eq. split.
    + intros [[Hpk Hsk] [[k b0] [-> Hin]]].
      apply elem_of_map_to_list in Hin. eauto.
    + intros ([k Hk] & Hpk & Hsk). split; [done|].
      exists (k, b). split; [done|]. by apply elem_of_map_to_list.
Qed.

End BudgetFacts.

(** X17. [CreateOrUpdateBudget] always succeeds and replaces whatever was
    stored for the user, the month and the upper-cased category: right
    after it, [GetBudget] with any spelling of the category that has the
    same upper case returns the budget just written, [GetBudgetsByMonth]
    lists it, its amount and category are the caller's, its update time
    is the clock, and every other item of the table is untouched. *)
Theorem budget_upsert_round_trip {F : Type} `{Number F}
    (id : string) (now : Time) (b : Budget F)
    (tbl : gmap (string * string) (Budget F)) (category : string) :
  ToUpper category = ToUpper (b_Category b) ->
  exists b' tbl',
    CreateOrUpdateBudget id now b tbl = Ok (b', tbl') /\
    GetBudget (b_UserID b) (b_Month b) category tbl' = Ok b' /\
    (exists l, GetBudgetsByMonth (b_UserID b) (b_Month b) tbl' = Ok l /\
               b' ∈ l) /\
    b_Amount b' = b_Amount b /\
    b_Category b' = b_Category b /\
    b_UpdatedAt b' = now /\
    b_CreatedAt b'
    = (if IsZero (b_CreatedAt b) then now else b_CreatedAt b) /\
    forall k, k <> (b_PK b', b_SK b') -> tbl' !! k = tbl !! k.
Proof.
  intros Hup. eexists _, _. split; [reflexivity|].
  cbn [Budget_GenerateKeys set_budget_bookkeeping b_PK b_SK b_UserID b_Month
       b_Category b_Amount b_UpdatedAt b_CreatedAt].
  split; [|split; [|repeat split]].
  - unfold GetBudget. rewrite Hup, lookup_insert_eq. reflexivity.
  - destruct (GetBudgetsByMonth_spec (b_UserID b) (b_Month b)
                (<[("USER#" +:+ b_UserID b,
                    "BUDGET#" +:+ b_Month b +:+ "#" +:+ ToUpper (b_Category b))
                   := Budget_GenerateKeys
                        (set_budget_bookkeeping b
                           (if String.eqb (b_ID b) "" then id else b_ID b)
                           (if IsZero (b_CreatedAt b) then now
                            else b_CreatedAt b) now)]> tbl))
      as (l & Hl & _ & Hin).
    exists l. split; [exact Hl|]. apply Hin. split; [|split].
    + eexists. apply lookup_insert_eq.
    + reflexivity.
    + apply budget_key_prefix.
  - intros k Hk. by rewrite lookup_insert_ne.
Qed.

Lemma budget_upsert_round_trip_witness :
  exists b' tbl',
    CreateOrUpdateBudget "b-1" 1700000000 food_budget ∅ = Ok (b', tbl') /\
    GetBudget "u1" "2024-01" "fOOD" tbl' = Ok b' /\
    (exists l, GetBudgetsByMonth "u1" "2024-01" tbl' = Ok l /\ b' ∈ l) /\
    b_Amount b' = 200%float /\
    b_Category b' = "Food" /\
    b_UpdatedAt b' = 1700000000 /\
    b_CreatedAt b' = 1700000000 /\
    forall k, k <> (b_PK b', b_SK b') -> tbl' !! k = None.
Proof.
  destruct (budget_upsert_round_trip "b-1" 1700000000 food_budget ∅ "fOOD"
              eq_refl)
    as (b' & tbl' & Hc & Hg & Hl & Ha & Hcat & Hu & Hcr & Hother).
  exists b', tbl'. repeat split; assumption.
Defined.

(** X18. [DeleteBudget] removes a budget exactly when [GetBudget] finds
    one, whatever the spelling of the category up to case: after it
    [GetBudget] answers "budget not found", the month listing holds
    only items stored under other keys, and the rest of the table is
    untouched; when [GetBudget] finds none, the conditional delete is
    refused and the caller gets "failed to delete budget". *)
Theorem budget_delete {F : Type} `{Number F}
    (userID month category category' : string)
    (tbl : gmap (string * string) (Budget F)) :
  ToUpper category' = ToUpper category ->
  match GetBudget userID month category tbl with
  | Ok b =>
      exists tbl',
        DeleteBudget userID month category' tbl = Ok tbl' /\
        GetBudget userID month category tbl'
        = Err (Errorf "budget not found") /\
        (forall l, GetBudgetsByMonth userID month tbl' = Ok l ->
                   forall x, x ∈ l ->
                   exists k,
                     k <> ("USER#" +:+ userID,
                           "BUDGET#" +:+ month +:+ "#" +:+ ToUpper category)
                     /\ tbl !! k = Some x) /\
        forall k,
          k <> ("USER#" +:+ userID,
                "BUDGET#" +:+ month +:+ "#" +:+ ToUpper category) ->
          tbl' !! k = tbl !! k
  | Err e =>
      e = Errorf "budget not found" /\
      DeleteBudget userID month category' tbl
      = Err (Wrapf "failed to delete budget" ConditionalCheckFailedException)
  end.
Proof.
  intros Hup. unfold GetBudget, DeleteBudget. rewrite Hup.
  destruct (tbl !! ("USER#" +:+ userID,
                    "BUDGET#" +:+ month +:+ "#" +:+ ToUpper category))
    as [b|] eqn:E; cbn [Budget_FromDynamoDBItem]; [|done].
  eexists. split; [reflexivity|]. rewrite lookup_delete_eq.
  split; [reflexivity|]. split.
  - intros l Hl x Hx.
    destruct (GetBudgetsByMonth_spec userID month
                (delete ("USER#" +:+ userID,
                         "BUDGET#" +:+ month +:+ "#" +:+ ToUpper category) tbl))
      as (l' & Hl' & _ & Hin).
    rewrite Hl in Hl'. injection Hl' as <-.
    apply Hin in Hx as ([k Hk] & Hpk & Hsk).
    apply lookup_delete_Some in Hk as [Hne Hk]. eauto.
  - intros k Hk. by rewrite lookup_delete_ne.
Qed.

Lemma budget_delete_witness :
  exists tbl',
    DeleteBudget "u1" "2024-01" "FOOD"
      (<[(b_PK stored_food_budget, b_SK stored_food_budget)
         := stored_food_budget]> ∅) = Ok tbl' /\
    GetBudget "u1" "2024-01" "food" tbl' = Err (Errorf "budget not found").
Proof.
  pose proof (budget_delete "u1" "2024-01" "food" "FOOD"
                (<[(b_PK stored_food_budget, b_SK stored_food_budget)
                   := stored_food_budget]> ∅) eq_refl) as Hd.
  assert (Hg : GetBudget "u1" "2024-01" "food"
                 (<[(b_PK stored_food_budget, b_SK stored_food_budget)
                    := stored_food_budget]> ∅) = Ok stored_food_budget).
  { unfold GetBudget.
    change ("USER#" +:+ "u1", "BUDGET#" +:+ "2024-01" +:+ "#" +:+ ToUpper "food")
      with (b_PK stored_food_budget, b_SK stored_food_budget).
    by rewrite lookup_insert_eq. }
  rewrite Hg in Hd. destruct Hd as (tbl' & Hdel & Hget & _).
  exists tbl'. split; assumption.
Defined.

(** ** Users *)

(** X19. A user id is registered at most once. When [GetUser] finds no
    profile for the id, [CreateUser] succeeds, [GetUser] then returns the
    profile with the caller's email and name and the two clock readings,
    and any later [CreateUser] for that id is refused; when [GetUser]
    finds a profile, [CreateUser] is refused with "failed to create
    user". *)
Theorem user_registered_once (now1 now2 later1 later2 : Time) (u v : User)
    (tbl : gmap (string * string) User) :
  u_ID v = u_ID u ->
  match GetUser (u_ID u) tbl with
  | Err _ =>
      exists u' tbl',
        CreateUser now1 now2 u tbl = Ok (u', tbl') /\
        GetUser (u_ID u) tbl' = Ok u' /\
        u_ID u' = u_ID u /\ u_Email u' = u_Email u /\ u_Name u' = u_Name u /\
        u_CreatedAt u' = now1 /\ u_UpdatedAt u' = now2 /\
        CreateUser later1 later2 v tbl'
        = Err (Wrapf "failed to create user" ConditionalCheckFailedException)
  | Ok stored =>
      CreateUser now1 now2 u tbl
      = Err (Wrapf "failed to create user" ConditionalCheckFailedException)
  end.
Proof.
  intros Hid. unfold GetUser, CreateUser.
  cbn [User_GenerateKeys u_PK u_SK u_ID]. rewrite Hid.
  destruct (tbl !! ("USER#" +:+ u_ID u, "PROFILE")) as [stored|] eqn:E;
    [reflexivity|].
  eexists _, _. split; [reflexivity|]. rewrite lookup_insert_eq.
  repeat split.
Qed.

Lemma user_registered_once_witness :
  exists u' tbl',
    CreateUser 1700000000 1700000001 ana ∅ = Ok (u', tbl') /\
    GetUser "u1" tbl' = Ok u' /\
    u_Email u' = "ana@example.com" /\
    CreateUser 1800000000 1800000001 impostor tbl'
    = Err (Wrapf "failed to create user" ConditionalCheckFailedException).
Proof.
  destruct (user_registered_once 1700000000 1700000001 1800000000 1800000001
              ana impostor ∅ eq_refl)
    as (u' & tbl' & Hc & Hg & _ & He & _ & _ & _ & Hr).
  exists u', tbl'. repeat split; assumption.
Defined.

(** ** Budgets in the monthly summary *)

Section BudgetRows.
Context {F : Type} `{Number F}.

Lemma expense_not_income (s : string) :
  String.eqb s TransactionTypeExpense = true ->
  String.eqb s TransactionTypeIncome = false.
Proof. intros ->%String.eqb_eq. reflexivity. Qed.

Lemma monthly_step_spending (init : monthly F) (txs : list (Transaction F))
    (c : string) :
  categorySpending (foldl monthly_step init txs) !! c
  = match filter (spent_in c) txs with
    | [] => categorySpending init !! c
    | l => Some (foldl (fun acc t => f_add acc (f_opp (Amount t)))
                   (default f_zero (categorySpending init !! c)) l)
    end.
Proof.
  revert init. induction txs as [|t txs IH]; intros init; [done|].
  cbn [foldl]. rewrite IH, filter_cons. unfold monthly_step.
  destruct (String.eqb (Type_ t) TransactionTypeIncome) eqn:Ei.
  - cbn [categorySpending]. rewrite decide_False; [done|].
    intros [He _]. apply expense_not_income in He. congruence.
  - destruct (String.eqb (Type_ t) TransactionTypeExpense) eqn:Ee.
    + cbn [categorySpending]. destruct (decide (Category t = c)) as [<-|Hc].
      * rewrite decide_True by (split; done). rewrite lookup_insert_eq.
        by destruct (filter (spent_in (Category t)) txs).
      * rewrite decide_False by (intros [_ ?]; done).
        by rewrite lookup_insert_ne.
    + rewrite decide_False; [done|]. intros [He _]. congruence.
Qed.

Lemma spending_spent_on (txs : list (Transaction F)) (c : string) :
  let spending :=
    categorySpending
      (foldl monthly_step
         {| monthlyIncome := f_zero; monthlyExpenses := f_zero;
            categorySpending := ∅ |} txs) in
  default f_zero (spending !! c) = spent_on c txs /\
  (is_Some (spending !! c) <-> exists t, t ∈ txs /\ spent_in c t).
Proof.
  cbn zeta. rewrite monthly_step_spending. cbn [categorySpending].
  rewrite lookup_empty. unfold spent_on.
  destruct (filter (spent_in c) txs) as [|t l] eqn:E.
  - split; [done|]. split; [by intros [? [=]]|].
    intros (t & Hin & Hs).
    assert (Hf : t ∈ filter (spent_in c) txs) by by apply list_elem_of_filter.
    rewrite E in Hf. by apply not_elem_of_nil in Hf.
  - split; [done|]. split; [|by eauto].
    intros _. exists t.
    assert (Hf : t ∈ filter (spent_in c) txs) by (rewrite E; left).
    apply list_elem_of_filter in Hf as [? ?]. done.
Qed.

Lemma foldl_insert_keys (l : list string) (m0 : gmap string bool) (k : string) :
  is_Some (foldl (fun m category => <[category := true]> m) m0 l !! k)
  <-> k ∈ l \/ is_Some (m0 !! k).
Proof.
  revert m0. induction l as [|a l IH]; intros m0; cbn [foldl].
  - split; [auto|]. intros [Hin|?]; [by apply not_elem_of_nil in Hin|done].
  - rewrite IH, elem_of_cons. destruct (decide (k = a)) as [->|Hne].
    + rewrite lookup_insert_eq. split; [auto|]. intros _. right. by eexists.
    + rewrite lookup_insert_ne by done. split.
      * intros [?|?]; auto.
      * intros [[?|?]|?]; [done|auto|auto].
Qed.

Lemma foldl_insert_budget_keys (bs : list (Budget F)) (m0 : gmap string bool)
    (k : string) :
  is_Some (foldl (fun m budget => <[b_Category budget := true]> m) m0 bs !! k)
  <-> (exists b, b ∈ bs /\ b_Category b = k) \/ is_Some (m0 !! k).
Proof.
  revert m0. induction bs as [|a bs IH]; intros m0; cbn [foldl].
  - split; [auto|]. intros [(b & Hin & _)|?];
      [by apply not_elem_of_nil in Hin|done].
  - rewrite IH. destruct (decide (k = b_Category a)) as [->|Hne].
    + rewrite lookup_insert_eq. split.
      * intros _. left. exists a. split; [left|done].
      * intros _. right. by eexists.
    + rewrite lookup_insert_ne by done. split.
      * intros [(b & Hin & Hb)|?]; [|auto]. left. exists b.
        split; [by right|done].
      * intros [(b & Hin & Hb)|?]; [|auto].
        apply elem_of_cons in Hin as [->|Hin]; [congruence|]. left. eauto.
Qed.

Lemma all_categories_spec (spending : gmap string F) (bs : list (Budget F))
    (k : string) :
  k ∈ (map_to_list (all_categories spending bs)).*1
  <-> is_Some (spending !! k) \/ exists b, b ∈ bs /\ b_Category b = k.
Proof.
  assert (Hkeys : forall (A : Type) (m : gmap string A),
             k ∈ (map_to_list m).*1 <-> is_Some (m !! k)).
  { intros A m. rewrite list_elem_of_fmap. split.
    - intros [[k' x] [-> Hin]]. apply elem_of_map_to_list in Hin. by eexists.
    - intros [x Hx]. exists (k, x). split; [done|].
      by apply elem_of_map_to_list. }
  rewrite Hkeys. unfold all_categories.
  rewrite foldl_insert_budget_keys, foldl_insert_keys, Hkeys, lookup_empty.
  split.
  - intros [?|[?|[? [=]]]]; auto.
  - intros [?|?]; auto.
Qed.

Lemma budget_map_lookup (bs : list (Budget F)) (c : string) :
  budget_map bs !! c = budget_for c bs.
Proof.
  unfold budget_map, budget_for.
  enough (Hgen : forall m0 : gmap string (Budget F),
             foldl (fun m budget => <[b_Category budget := budget]> m) m0 bs
               !! c
             = match list.last (filter (budgeted_as c) bs) with
               | Some b => Some b
               | None => m0 !! c
               end).
  { rewrite Hgen, lookup_empty. by destruct (list.last _). }
  induction bs as [|b bs IH]; intros m0; [done|].
  cbn [foldl]. rewrite IH, filter_cons.
  destruct (decide (budgeted_as c b)) as [Hc|Hc]; unfold budgeted_as in Hc.
  - rewrite last_cons. destruct (list.last (filter (budgeted_as c) bs)); [done|].
    subst c. apply lookup_insert_eq.
  - destruct (list.last (filter (budgeted_as c) bs)); [done|].
    by rewrite lookup_insert_ne.
Qed.

Lemma row_categories (spending : gmap string F) (m : gmap string (Budget F))
    (l : list string) :
  cbb_Category <$> (budget_row spending m <$> l) = l.
Proof. induction l as [|c l IH]; [done|]. cbn. by rewrite IH. Qed.

End BudgetRows.

(** X20. What [GetFinancialSummaryWithBudgets] reports for a month, over
    the DynamoDB repository: the count is the number of transactions
    listed; the rows are sorted by category and carry each category
    once; a category has a row exactly when an expense of the month
    carries it or a budget of the month is spelled that way (spending
    and budgets are joined on the exact spelling, while the budget keys
    are upper-cased); and in each row the amount is what the expenses of
    that category add up to, the budget is the amount of the last budget
    listed with that spelling or zero, and the remainder is the budget
    minus the amount. *)
Theorem summary_with_budgets_rows {F : Type} `{Number F}
    (userID month : string) (tbl : Table F)
    (budgets : gmap (string * string) (Budget F))
    (a : MonthlyAnalyticsWithBudget F) :
  GetFinancialSummaryWithBudgets userID month tbl budgets = Ok a ->
  exists txs bs,
    GetTransactionsByMonth userID month 1000 tbl = Ok txs /\
    GetBudgetsByMonth userID month budgets = Ok bs /\
    mab_TransactionCount a = Z.of_nat (length txs) /\
    Sorted budget_category_le (mab_CategoryBreakdown a) /\
    NoDup (cbb_Category <$> mab_CategoryBreakdown a) /\
    (forall c,
       c ∈ cbb_Category <$> mab_CategoryBreakdown a <->
       (exists t, t ∈ txs /\ spent_in c t) \/
       (exists b, b ∈ bs /\ b_Category b = c)) /\
    (forall row,
       row ∈ mab_CategoryBreakdown a ->
       cbb_Amount row = spent_on (cbb_Category row) txs /\
       cbb_Budget row
       = from_option b_Amount f_zero (budget_for (cbb_Category row) bs) /\
       cbb_Remaining row = f_sub (cbb_Budget row) (cbb_Amount row)).
Proof.
  unfold GetFinancialSummaryWithBudgets, BudgetService_GetBudgetsByMonth.
  destruct (String.eqb userID "" || String.eqb month ""); [discriminate|].
  destruct (GetTransactionsByMonth userID month 1000 tbl) as [txs|] eqn:Et;
    [|discriminate].
  destruct (Parse_2006_01 month); [|discriminate].
  destruct (GetBudgetsByMonth userID month budgets) as [bs|] eqn:Eb;
    [|discriminate].
  intros [= <-]. exists txs, bs.
  cbn [mab_TransactionCount mab_CategoryBreakdown].
  split; [done|]. split; [done|]. split; [done|]. split; [|split; [|split]].
  - apply Sorted_merge_sort. intros x y. unfold budget_category_le.
    apply (total String.le).
  - rewrite merge_sort_Permutation, row_categories.
    apply NoDup_fst_map_to_list.
  - intros c. rewrite merge_sort_Permutation, row_categories.
    rewrite all_categories_spec.
    destruct (spending_spent_on txs c) as [_ ->]. done.
  - intros row Hrow. rewrite merge_sort_Permutation in Hrow.
    apply list_elem_of_fmap in Hrow as (c & -> & _).
    cbn [budget_row cbb_Category cbb_Amount cbb_Budget cbb_Remaining].
    destruct (spending_spent_on txs c) as [-> _].
    rewrite budget_map_lookup. by destruct (budget_for c bs).
Qed.

Lemma summary_with_budgets_rows_witness :
  exists a,
    GetFinancialSummaryWithBudgets "u1" "2024-01"
      (<[primary_key lunch := lunch]> ∅)
      (<[(b_PK stored_food_budget, b_SK stored_food_budget)
         := stored_food_budget]> ∅) = Ok a /\
    cbb_Category <$> mab_CategoryBreakdown a = ["Food"; "food"] /\
    cbb_Remaining <$> mab_CategoryBreakdown a = [200%float; (-50)%float] /\
    NoDup (cbb_Category <$> mab_CategoryBreakdown a).
Proof.
  eexists. split; [vm_compute; reflexivity|].
  split; [reflexivity|]. split; [reflexivity|].
  match goal with
  | |- NoDup (cbb_Category <$> mab_CategoryBreakdown ?a) =>
      destruct (summary_with_budgets_rows "u1" "2024-01"
                  (<[primary_key lunch := lunch]> ∅)
                  (<[(b_PK stored_food_budget, b_SK stored_food_budget)
                     := stored_food_budget]> ∅) a)
        as (_ & _ & _ & _ & _ & _ & Hnd & _);
        [vm_compute; reflexivity|exact Hnd]
  end.
Defined.
